(** * Serenium package builder: a shallow embedding of [serenium.py]

    The development follows the source file top to bottom: Python strings
    and values, the [PackageConfig] record, the validators and the
    sanitizer, the two ways a configuration is acquired, the emitters and
    the orchestrator [build_package].  Theorems come after the
    definitions. *)

From Stdlib Require Import String Ascii List Bool Arith NArith ZArith Lia Permutation.
Import ListNotations.
Local Open Scope list_scope.
Local Open Scope string_scope.

Set Implicit Arguments.

(* ================================================================== *)
(** * Python strings *)
(* ================================================================== *)

(** A Python [str] is a sequence of code points.  The model keeps the code
    points U+0000..U+00FF (Rocq's [ascii]), classified as CPython's Unicode
    database classifies them. *)
Module PyStr.

Definition code (c : ascii) : N := N_of_ascii c.

Definition between (lo hi n : N) : bool := N.leb lo n && N.leb n hi.

(** [str.isspace] on one character. *)
Definition isspace (c : ascii) : bool :=
  let n := code c in
  between 9 13 n || between 28 31 n || N.eqb n 32 || N.eqb n 133 || N.eqb n 160.

(** [str.isalnum] on one character: letters, decimal digits, and the
    characters with a numeric value. *)
Definition isalnum (c : ascii) : bool :=
  let n := code c in
  between 48 57 n || between 65 90 n || between 97 122 n
  || N.eqb n 170 || N.eqb n 178 || N.eqb n 179 || N.eqb n 181
  || N.eqb n 185 || N.eqb n 186 || between 188 190 n
  || between 192 214 n || between 216 246 n || between 248 255 n.

(** [\d] of the [re] module on a [str] pattern: the decimal digits. *)
Definition isdecimal (c : ascii) : bool := between 48 57 (code c).

(** [[a-zA-Z]] of the [re] module. *)
Definition is_ascii_letter (c : ascii) : bool :=
  let n := code c in between 65 90 n || between 97 122 n.

(** [str.lower] on one character. *)
Definition lower_char (c : ascii) : ascii :=
  let n := code c in
  if between 65 90 n || between 192 214 n || between 216 222 n
  then ascii_of_N (n + 32) else c.

Fixpoint lower (s : string) : string :=
  match s with
  | EmptyString => EmptyString
  | String c r => String (lower_char c) (lower r)
  end.

(** [c in s] for a single character. *)
Fixpoint occurs (c : ascii) (s : string) : bool :=
  match s with
  | EmptyString => false
  | String d r => Ascii.eqb c d || occurs c r
  end.

(** [any(p(ch) for ch in s)] and [all(...)]. *)
Fixpoint any (p : ascii -> bool) (s : string) : bool :=
  match s with
  | EmptyString => false
  | String c r => p c || any p r
  end.

Fixpoint all (p : ascii -> bool) (s : string) : bool :=
  match s with
  | EmptyString => true
  | String c r => p c && all p r
  end.

(** Keep the characters that satisfy [p]. *)
Fixpoint keep (p : ascii -> bool) (s : string) : string :=
  match s with
  | EmptyString => EmptyString
  | String c r => if p c then String c (keep p r) else keep p r
  end.

(** [s.replace(c, '')] for a one-character [c]: every occurrence goes. *)
Definition remove_char (c : ascii) (s : string) : string :=
  keep (fun d => negb (Ascii.eqb d c)) s.

Fixpoint lstrip (s : string) : string :=
  match s with
  | EmptyString => EmptyString
  | String c r => if isspace c then lstrip r else s
  end.

Fixpoint rstrip (s : string) : string :=
  match s with
  | EmptyString => EmptyString
  | String c r =>
      match rstrip r with
      | EmptyString => if isspace c then EmptyString else String c EmptyString
      | r' => String c r'
      end
  end.

(** [s.strip()] *)
Definition strip (s : string) : string := lstrip (rstrip s).

(** [s.split(sep)] for a one-character separator. *)
Fixpoint split (sep : ascii) (s : string) : list string :=
  match s with
  | EmptyString => [EmptyString]
  | String c r =>
      if Ascii.eqb c sep then EmptyString :: split sep r
      else match split sep r with
           | [] => [String c EmptyString]
           | p :: ps => String c p :: ps
           end
  end.

(** [sep.join(l)] *)
Fixpoint join (sep : string) (l : list string) : string :=
  match l with
  | [] => EmptyString
  | [x] => x
  | x :: rest => x ++ sep ++ join sep rest
  end.

(** [sub in s] *)
Fixpoint contains (sub s : string) : bool :=
  prefix sub s ||
  match s with
  | EmptyString => false
  | String _ r => contains sub r
  end.

Definition is_empty (s : string) : bool :=
  match s with EmptyString => true | _ => false end.

(** [a or b] on strings: [a] when it is non-empty. *)
Definition or_else (a b : string) : string := if is_empty a then b else a.

Definition nl : string := String "010"%char EmptyString.
Definition tab : string := String "009"%char EmptyString.
Definition dq : string := String "034"%char EmptyString.

(** The text whose lines are [l], each ended by a newline. *)
Definition text (l : list string) : string :=
  List.fold_right (fun line acc => line ++ nl ++ acc) EmptyString l.

End PyStr.
Import PyStr.

(* ================================================================== *)
(** * Python values, exceptions, results *)
(* ================================================================== *)

(** The values a YAML or JSON document can hold, and what the validators
    return. *)
#[warnings="-register-all"]
Inductive pyval : Type :=
| VNone
| VBool (b : bool)
| VInt (n : Z)
| VStr (s : string)
| VList (l : list pyval)
| VDict (items : list (pyval * pyval)).

(** [type(v).__name__] *)
Definition type_name (v : pyval) : string :=
  match v with
  | VNone => "NoneType" | VBool _ => "bool" | VInt _ => "int"
  | VStr _ => "str" | VList _ => "list" | VDict _ => "dict"
  end.

(** The exceptions of the program; all are subclasses of [Exception].
    [OtherError] stands for what the libraries and the operating system
    raise ([OSError], [TypeError], a YAML parse error, ...). *)
Inductive exn : Type :=
| ValidationError (msg : string)
| FileNotFoundError (msg : string)
| EOFError
| OtherError (kind msg : string).

(** [str(e)] *)
Definition exn_str (e : exn) : string :=
  match e with
  | ValidationError m => m
  | FileNotFoundError m => m
  | EOFError => ""
  | OtherError _ m => m
  end.

(** How a call ends.  [Untyped] marks what the typed record below cannot
    follow: [setattr] with a value that is not of the field's declared
    type, or with a key that starts with two underscores.  The code goes on
    from there; the model does not, and the statements about loading are
    made for the documents without such entries ([typed_document]). *)
Inductive result (A : Type) : Type :=
| Ok (a : A)
| Raise (e : exn)
| Untyped.
Arguments Ok {A} a.
Arguments Raise {A} e.
Arguments Untyped {A}.

(* ================================================================== *)
(** * Validators and the sanitizer *)
(* ================================================================== *)

(** The set [invalid_chars] of the source: eighteen characters, the double
    quote (code 34) and the backslash among them. *)
Definition invalid_chars : list ascii :=
  ["!"; "#"; "$"; "&"; "*"; "|"; ";"; ":"; "034"; "<"; ">"; "?"; "/"; "\";
   "["; "]"; "{"; "}"]%char.

Definition is_invalid_char (c : ascii) : bool :=
  existsb (Ascii.eqb c) invalid_chars.

(** [name[0].isalnum()], for a non-empty [name]. *)
Definition first_isalnum (name : string) : bool :=
  match name with
  | EmptyString => false
  | String c _ => isalnum c
  end.

(** [validate_package_name].  The third message ends, in the source, with the
    [repr] of the character set, whose order Python leaves open; the model
    keeps the text before it. *)
Definition validate_package_name (name : string) : result pyval :=
  if is_empty name then
    Raise (ValidationError "Package name cannot be empty")
  else if Nat.ltb 255 (String.length name) then
    Raise (ValidationError "Package name too long (max 255 characters)")
  else if any is_invalid_char name then
    Raise (ValidationError "Package name contains invalid characters: ")
  else if negb (first_isalnum name) then
    Raise (ValidationError "Package name must start with alphanumeric character")
  else if occurs " "%char name then
    Raise (ValidationError "Package name cannot contain spaces")
  else Ok (VBool true).

(** [dangerous_chars = ['\x00', ..., '\x05']] *)
Definition dangerous_chars : list ascii :=
  ["000"; "001"; "002"; "003"; "004"; "005"]%char.

(** [sanitize_input]: the [for] loop is a left fold of [replace]. *)
Definition sanitize_input (text : string) : string :=
  if is_empty text then ""
  else strip (fold_left (fun t c => remove_char c t) dangerous_chars text).

(** [validate_version]: [re.match(r'^\d+\.\d+\.\d+', version)].  A run of
    digits is followed by a dot only when the run is maximal, so the greedy
    match is the only one. *)
Fixpoint drop_digits (s : string) : string :=
  match s with
  | String c r => if isdecimal c then drop_digits r else s
  | EmptyString => EmptyString
  end.

(** One or more digits at the head of [s]: what follows them. *)
Definition digits1 (s : string) : option string :=
  match s with
  | String c r => if isdecimal c then Some (drop_digits r) else None
  | EmptyString => None
  end.

Definition dot (s : string) : option string :=
  match s with
  | String "."%char r => Some r
  | _ => None
  end.

Definition matches_version (s : string) : bool :=
  match digits1 s with
  | Some s1 =>
      match dot s1 with
      | Some s2 =>
          match digits1 s2 with
          | Some s3 =>
              match dot s3 with
              | Some s4 => match digits1 s4 with Some _ => true | None => false end
              | None => false
              end
          | None => false
          end
      | None => false
      end
  | None => false
  end.

Definition validate_version (version : string) : result pyval :=
  if is_empty version then Raise (ValidationError "Version cannot be empty")
  else if negb (matches_version version) then
    Raise (ValidationError "Version must follow semantic versioning (e.g., 1.0.0)")
  else Ok (VBool true).

(** [validate_email]:
    [^[a-zA-Z0-9._%+-]+@[a-zA-Z0-9.-]+\.[a-zA-Z]{2,}$].  The local part
    holds no [@], so it ends at the first one; the last group holds letters
    only, so the dot before it is the last dot; [$] also matches before a
    final newline. *)
Definition is_local_char (c : ascii) : bool :=
  is_ascii_letter c || isdecimal c
  || existsb (Ascii.eqb c) ["."; "_"; "%"; "+"; "-"]%char.

Definition is_domain_char (c : ascii) : bool :=
  is_ascii_letter c || isdecimal c || existsb (Ascii.eqb c) ["."; "-"]%char.

(** [s] cut at its first occurrence of [c]. *)
Fixpoint cut_first (c : ascii) (s : string) : option (string * string) :=
  match s with
  | EmptyString => None
  | String d r =>
      if Ascii.eqb d c then Some (EmptyString, r)
      else match cut_first c r with
           | Some (a, b) => Some (String d a, b)
           | None => None
           end
  end.

(** [s] cut at its last occurrence of [c]. *)
Fixpoint cut_last (c : ascii) (s : string) : option (string * string) :=
  match s with
  | EmptyString => None
  | String d r =>
      match cut_last c r with
      | Some (a, b) => Some (String d a, b)
      | None => if Ascii.eqb d c then Some (EmptyString, r) else None
      end
  end.

(** [s] without one final newline, if it has one. *)
Fixpoint chomp (s : string) : string :=
  match s with
  | EmptyString => EmptyString
  | String c EmptyString => if Ascii.eqb c "010"%char then EmptyString else s
  | String c r => String c (chomp r)
  end.

Definition matches_domain (s : string) : bool :=
  match cut_last "."%char s with
  | Some (host, tld) =>
      negb (is_empty host) && all is_domain_char host
      && Nat.leb 2 (String.length tld) && all is_ascii_letter tld
  | None => false
  end.

Definition matches_email (s : string) : bool :=
  match cut_first "@"%char s with
  | Some (local, rest) =>
      negb (is_empty local) && all is_local_char local
      && (matches_domain rest || matches_domain (chomp rest))
  | None => false
  end.

Definition validate_email (email : string) : result pyval :=
  if is_empty email then Ok (VBool true)
  else if negb (matches_email email) then
    Raise (ValidationError "Invalid email format")
  else Ok (VBool true).

(* ================================================================== *)
(** * The configuration record *)
(* ================================================================== *)

(** [PackageConfig], with the types its annotations declare. *)
Record PackageConfig : Type := mkPackageConfig {
  name : string;
  version : string;
  description : string;
  long_description : string;
  is_metapackage : bool;
  tools : list string;
  create_desktop : bool;
  desktop_name : string;
  desktop_comment : string;
  desktop_icon : string;
  desktop_categories : string;
  dependencies : list string;
  menu_section : string;
  maintainer : string;
  email : string;
  output_dir : string
}.

(** [PackageConfig()] *)
Definition default_config : PackageConfig :=
  {| name := "";
     version := "1.0.0";
     description := "";
     long_description := "";
     is_metapackage := false;
     tools := [];
     create_desktop := false;
     desktop_name := "";
     desktop_comment := "";
     desktop_icon := "applications-system";
     desktop_categories := "System";
     dependencies := [];
     menu_section := "99-Misc";
     maintainer := "Serenium Team";
     email := "team@serenium.org";
     output_dir := "." |}.

(** Assignments [self.config.<field> = v]. *)
Definition set_name (v : string) (c : PackageConfig) : PackageConfig :=
  {| name := v; version := version c; description := description c;
     long_description := long_description c;
     is_metapackage := is_metapackage c; tools := tools c;
     create_desktop := create_desktop c; desktop_name := desktop_name c;
     desktop_comment := desktop_comment c; desktop_icon := desktop_icon c;
     desktop_categories := desktop_categories c;
     dependencies := dependencies c; menu_section := menu_section c;
     maintainer := maintainer c; email := email c;
     output_dir := output_dir c |}.
Definition set_version (v : string) (c : PackageConfig) : PackageConfig :=
  {| name := name c; version := v; description := description c;
     long_description := long_description c;
     is_metapackage := is_metapackage c; tools := tools c;
     create_desktop := create_desktop c; desktop_name := desktop_name c;
     desktop_comment := desktop_comment c; desktop_icon := desktop_icon c;
     desktop_categories := desktop_categories c;
     dependencies := dependencies c; menu_section := menu_section c;
     maintainer := maintainer c; email := email c;
     output_dir := output_dir c |}.
Definition set_description (v : string) (c : PackageConfig) : PackageConfig :=
  {| name := name c; version := version c; description := v;
     long_description := long_description c;
     is_metapackage := is_metapackage c; tools := tools c;
     create_desktop := create_desktop c; desktop_name := desktop_name c;
     desktop_comment := desktop_comment c; desktop_icon := desktop_icon c;
     desktop_categories := desktop_categories c;
     dependencies := dependencies c; menu_section := menu_section c;
     maintainer := maintainer c; email := email c;
     output_dir := output_dir c |}.
Definition set_long_description (v : string) (c : PackageConfig) : PackageConfig :=
  {| name := name c; version := version c; description := description c;
     long_description := v; is_metapackage := is_metapackage c;
     tools := tools c; create_desktop := create_desktop c;
     desktop_name := desktop_name c; desktop_comment := desktop_comment c;
     desktop_icon := desktop_icon c;
     desktop_categories := desktop_categories c;
     dependencies := dependencies c; menu_section := menu_section c;
     maintainer := maintainer c; email := email c;
     output_dir := output_dir c |}.
Definition set_is_metapackage (v : bool) (c : PackageConfig) : PackageConfig :=
  {| name := name c; version := version c; description := description c;
     long_description := long_description c; is_metapackage := v;
     tools := tools c; create_desktop := create_desktop c;
     desktop_name := desktop_name c; desktop_comment := desktop_comment c;
     desktop_icon := desktop_icon c;
     desktop_categories := desktop_categories c;
     dependencies := dependencies c; menu_section := menu_section c;
     maintainer := maintainer c; email := email c;
     output_dir := output_dir c |}.
Definition set_tools (v : list string) (c : PackageConfig) : PackageConfig :=
  {| name := name c; version := version c; description := description c;
     long_description := long_description c;
     is_metapackage := is_metapackage c; tools := v;
     create_desktop := create_desktop c; desktop_name := desktop_name c;
     desktop_comment := desktop_comment c; desktop_icon := desktop_icon c;
     desktop_categories := desktop_categories c;
     dependencies := dependencies c; menu_section := menu_section c;
     maintainer := maintainer c; email := email c;
     output_dir := output_dir c |}.
Definition set_create_desktop (v : bool) (c : PackageConfig) : PackageConfig :=
  {| name := name c; version := version c; description := description c;
     long_description := long_description c;
     is_metapackage := is_metapackage c; tools := tools c;
     create_desktop := v; desktop_name := desktop_name c;
     desktop_comment := desktop_comment c; desktop_icon := desktop_icon c;
     desktop_categories := desktop_categories c;
     dependencies := dependencies c; menu_section := menu_section c;
     maintainer := maintainer c; email := email c;
     output_dir := output_dir c |}.
Definition set_desktop_name (v : string) (c : PackageConfig) : PackageConfig :=
  {| name := name c; version := version c; description := description c;
     long_description := long_description c;
     is_metapackage := is_metapackage c; tools := tools c;
     create_desktop := create_desktop c; desktop_name := v;
     desktop_comment := desktop_comment c; desktop_icon := desktop_icon c;
     desktop_categories := desktop_categories c;
     dependencies := dependencies c; menu_section := menu_section c;
     maintainer := maintainer c; email := email c;
     output_dir := output_dir c |}.
Definition set_desktop_comment (v : string) (c : PackageConfig) : PackageConfig :=
  {| name := name c; version := version c; description := description c;
     long_description := long_description c;
     is_metapackage := is_metapackage c; tools := tools c;
     create_desktop := create_desktop c; desktop_name := desktop_name c;
     desktop_comment := v; desktop_icon := desktop_icon c;
     desktop_categories := desktop_categories c;
     dependencies := dependencies c; menu_section := menu_section c;
     maintainer := maintainer c; email := email c;
     output_dir := output_dir c |}.
Definition set_desktop_icon (v : string) (c : PackageConfig) : PackageConfig :=
  {| name := name c; version := version c; description := description c;
     long_description := long_description c;
     is_metapackage := is_metapackage c; tools := tools c;
     create_desktop := create_desktop c; desktop_name := desktop_name c;
     desktop_comment := desktop_comment c; desktop_icon := v;
     desktop_categories := desktop_categories c;
     dependencies := dependencies c; menu_section := menu_section c;
     maintainer := maintainer c; email := email c;
     output_dir := output_dir c |}.
Definition set_desktop_categories (v : string) (c : PackageConfig) : PackageConfig :=
  {| name := name c; version := version c; description := description c;
     long_description := long_description c;
     is_metapackage := is_metapackage c; tools := tools c;
     create_desktop := create_desktop c; desktop_name := desktop_name c;
     desktop_comment := desktop_comment c; desktop_icon := desktop_icon c;
     desktop_categories := v; dependencies := dependencies c;
     menu_section := menu_section c; maintainer := maintainer c;
     email := email c; output_dir := output_dir c |}.
Definition set_dependencies (v : list string) (c : PackageConfig) : PackageConfig :=
  {| name := name c; version := version c; description := description c;
     long_description := long_description c;
     is_metapackage := is_metapackage c; tools := tools c;
     create_desktop := create_desktop c; desktop_name := desktop_name c;
     desktop_comment := desktop_comment c; desktop_icon := desktop_icon c;
     desktop_categories := desktop_categories c; dependencies := v;
     menu_section := menu_section c; maintainer := maintainer c;
     email := email c; output_dir := output_dir c |}.
Definition set_menu_section (v : string) (c : PackageConfig) : PackageConfig :=
  {| name := name c; version := version c; description := description c;
     long_description := long_description c;
     is_metapackage := is_metapackage c; tools := tools c;
     create_desktop := create_desktop c; desktop_name := desktop_name c;
     desktop_comment := desktop_comment c; desktop_icon := desktop_icon c;
     desktop_categories := desktop_categories c;
     dependencies := dependencies c; menu_section := v;
     maintainer := maintainer c; email := email c;
     output_dir := output_dir c |}.
Definition set_maintainer (v : string) (c : PackageConfig) : PackageConfig :=
  {| name := name c; version := version c; description := description c;
     long_description := long_description c;
     is_metapackage := is_metapackage c; tools := tools c;
     create_desktop := create_desktop c; desktop_name := desktop_name c;
     desktop_comment := desktop_comment c; desktop_icon := desktop_icon c;
     desktop_categories := desktop_categories c;
     dependencies := dependencies c; menu_section := menu_section c;
     maintainer := v; email := email c; output_dir := output_dir c |}.
Definition set_email (v : string) (c : PackageConfig) : PackageConfig :=
  {| name := name c; version := version c; description := description c;
     long_description := long_description c;
     is_metapackage := is_metapackage c; tools := tools c;
     create_desktop := create_desktop c; desktop_name := desktop_name c;
     desktop_comment := desktop_comment c; desktop_icon := desktop_icon c;
     desktop_categories := desktop_categories c;
     dependencies := dependencies c; menu_section := menu_section c;
     maintainer := maintainer c; email := v; output_dir := output_dir c |}.
Definition set_output_dir (v : string) (c : PackageConfig) : PackageConfig :=
  {| name := name c; version := version c; description := description c;
     long_description := long_description c;
     is_metapackage := is_metapackage c; tools := tools c;
     create_desktop := create_desktop c; desktop_name := desktop_name c;
     desktop_comment := desktop_comment c; desktop_icon := desktop_icon c;
     desktop_categories := desktop_categories c;
     dependencies := dependencies c; menu_section := menu_section c;
     maintainer := maintainer c; email := email c; output_dir := v |}.

(** The values of the declared types, read out of a loaded document. *)
Definition as_str (v : pyval) : option string :=
  match v with VStr s => Some s | _ => None end.

Definition as_bool (v : pyval) : option bool :=
  match v with VBool b => Some b | _ => None end.

Fixpoint as_strs_list (l : list pyval) : option (list string) :=
  match l with
  | [] => Some []
  | VStr s :: r =>
      match as_strs_list r with Some r' => Some (s :: r') | None => None end
  | _ :: _ => None
  end.

Definition as_strs (v : pyval) : option (list string) :=
  match v with VList l => as_strs_list l | _ => None end.

(** The dataclass fields, in declaration order. *)
Definition field_names : list string :=
  ["name"; "version"; "description"; "long_description"; "is_metapackage";
   "tools"; "create_desktop"; "desktop_name"; "desktop_comment";
   "desktop_icon"; "desktop_categories"; "dependencies"; "menu_section";
   "maintainer"; "email"; "output_dir"].

(** [hasattr(self.config, key)] and [setattr(self.config, key, value)] for a
    string [key].  [None] says [hasattr] is false and the entry is skipped;
    [Some (Some c')] says the field was set.  [Some None] says that the
    typed record cannot follow the entry: the value is of another type than
    the field's, which the code stores all the same, or the key starts with
    two underscores, where it is the interpreter that decides whether the
    object has such an attribute ([__dict__], say, which [setattr] then
    replaces) or not (the entry is then skipped). *)
Definition setattr_config (c : PackageConfig) (key : string) (v : pyval)
  : option (option PackageConfig) :=
  if String.eqb key "name" then
    Some (option_map (fun x => set_name x c) (as_str v))
  else if String.eqb key "version" then
    Some (option_map (fun x => set_version x c) (as_str v))
  else if String.eqb key "description" then
    Some (option_map (fun x => set_description x c) (as_str v))
  else if String.eqb key "long_description" then
    Some (option_map (fun x => set_long_description x c) (as_str v))
  else if String.eqb key "is_metapackage" then
    Some (option_map (fun x => set_is_metapackage x c) (as_bool v))
  else if String.eqb key "tools" then
    Some (option_map (fun x => set_tools x c) (as_strs v))
  else if String.eqb key "create_desktop" then
    Some (option_map (fun x => set_create_desktop x c) (as_bool v))
  else if String.eqb key "desktop_name" then
    Some (option_map (fun x => set_desktop_name x c) (as_str v))
  else if String.eqb key "desktop_comment" then
    Some (option_map (fun x => set_desktop_comment x c) (as_str v))
  else if String.eqb key "desktop_icon" then
    Some (option_map (fun x => set_desktop_icon x c) (as_str v))
  else if String.eqb key "desktop_categories" then
    Some (option_map (fun x => set_desktop_categories x c) (as_str v))
  else if String.eqb key "dependencies" then
    Some (option_map (fun x => set_dependencies x c) (as_strs v))
  else if String.eqb key "menu_section" then
    Some (option_map (fun x => set_menu_section x c) (as_str v))
  else if String.eqb key "maintainer" then
    Some (option_map (fun x => set_maintainer x c) (as_str v))
  else if String.eqb key "email" then
    Some (option_map (fun x => set_email x c) (as_str v))
  else if String.eqb key "output_dir" then
    Some (option_map (fun x => set_output_dir x c) (as_str v))
  else if prefix "__" key then Some None
  else None.

(* ================================================================== *)
(** * Paths *)
(* ================================================================== *)

(** A [pathlib] path is the tuple of its parts; an absolute path starts
    with its root. *)
Definition path : Type := list string.

(** The parts of a path segment: [.] and empty components are dropped. *)
Definition components (s : string) : list string :=
  filter (fun x => negb (is_empty x) && negb (String.eqb x ".")) (split "/"%char s).

Definition is_absolute (s : string) : bool := prefix "/" s.

(** POSIX keeps a root of exactly two slashes apart from [/]. *)
Definition root_of (s : string) : list string :=
  if prefix "///" s then ["/"]
  else if prefix "//" s then ["//"]
  else if prefix "/" s then ["/"]
  else [].

(** [Path(s)] *)
Definition Path (s : string) : path := (root_of s ++ components s)%list.

(** [p / s]: an absolute segment replaces what is on its left. *)
Definition pjoin (p : path) (s : string) : path :=
  if is_absolute s then Path s else (p ++ components s)%list.

Notation "p // s" := (pjoin p s) (at level 40, left associativity).

Definition is_root (s : string) : bool := String.eqb s "/" || String.eqb s "//".

(** [p.name] *)
Definition path_name (p : path) : string :=
  match rev p with
  | [] => ""
  | x :: _ => if is_root x then "" else x
  end.

(** [p.suffix]: from the last dot of the name, unless that dot is the first
    or the last character. *)
Definition path_suffix (p : path) : string :=
  match cut_last "."%char (path_name p) with
  | Some (stem, ext) =>
      if is_empty stem || is_empty ext then "" else "." ++ ext
  | None => ""
  end.

(** [str(p)] *)
Definition path_str (p : path) : string :=
  match p with
  | [] => "."
  | r :: rest => if is_root r then r ++ join "/" rest else join "/" p
  end.

(* ================================================================== *)
(** * The environment: console, log, operating system *)
(* ================================================================== *)

(** The calls that change the file system. *)
Inductive call : Type :=
| Rmtree (p : path)                            (* shutil.rmtree(p) *)
| Mkdir (p : path) (parents exist_ok : bool)   (* p.mkdir(...) *)
| WriteText (p : path) (content : string)      (* p.write_text(content) *)
| Chmod (p : path) (mode : N)                  (* p.chmod(mode) *)
| SymlinkTo (p : path) (target : path)         (* p.symlink_to(target) *)
| YamlDump (p : path) (data : pyval).          (* open(p, 'w'); yaml.dump(data, f) *)

(** What the program needs of the operating system and of the YAML and JSON
    libraries.  A call that changes the file system returns the new state
    and the exception it raised, if any; the others only read the state.
    [Path.exists] answers [False] for a path that is not there and re-raises
    every other [OSError] of [stat], a name that is too long for instance:
    [os_exists] gives the exception or the answer. *)
Class OS (S : Type) : Type := {
  os_run : call -> S -> option exn * S;
  os_exists : path -> S -> exn + bool;            (* p.exists() *)
  os_now : S -> string;                           (* datetime.now().strftime(...) *)
  os_open_read : path -> S -> option exn;         (* open(p, 'r') *)
  os_yaml_safe_load : path -> S -> exn + pyval;   (* yaml.safe_load(f) *)
  os_json_load : path -> S -> exn + pyval         (* json.load(f) *)
}.

(** What is printed.  The theme only decorates, so a printed line is kept as
    the name of the theme function and its argument, without pictographs. *)
Inductive style : Type :=
| Plain | Art | Header | Footer | Item | Separator | Prompt | Error
| Warning | Success | Info | Box | Highlight.

Inductive out : Type :=
| Say (st : style) (txt : string)
| Progress (current total : nat) (step : string).   (* progress_bar, then the step *)

Inductive level : Type := INFO | ERROR.

Record world (S : Type) : Type := mkWorld {
  os_state : S;
  stdin : list string;                  (* the lines input() will return *)
  stdout : list out;
  logfile : list (level * string);      (* what logger wrote *)
  trace : list (call * option exn)      (* the calls made, with how each ended *)
}.

(** [SereniumBuilder]; the theme is left out. *)
Record builder : Type := mkBuilder {
  self_config : PackageConfig;
  self_output_dir : path;
  self_steps_total : nat;
  self_steps_completed : nat;
  self_config_file : option string
}.

Definition with_config (c : PackageConfig) (b : builder) : builder :=
  {| self_config := c; self_output_dir := self_output_dir b;
     self_steps_total := self_steps_total b;
     self_steps_completed := self_steps_completed b;
     self_config_file := self_config_file b |}.

Definition with_steps_completed (n : nat) (b : builder) : builder :=
  {| self_config := self_config b; self_output_dir := self_output_dir b;
     self_steps_total := self_steps_total b;
     self_steps_completed := n;
     self_config_file := self_config_file b |}.

(** A method of the builder: it reads and changes the builder and the
    world, and returns or raises. *)
Definition Method (S A : Type) : Type :=
  builder -> world S -> result A * builder * world S.

Section Program.

Context {S : Type}.

Local Abbreviation M := (Method S).

Definition ret {A} (a : A) : M A := fun b w => (Ok a, b, w).

Definition raise {A} (e : exn) : M A := fun b w => (Raise e, b, w).

Definition unmodelled {A} : M A := fun b w => (Untyped, b, w).

Definition bind {A B} (m : M A) (k : A -> M B) : M B :=
  fun b w =>
    match m b w with
    | (Ok a, b', w') => k a b' w'
    | (Raise e, b', w') => (Raise e, b', w')
    | (Untyped, b', w') => (Untyped, b', w')
    end.

(** [try: m except Exception as e: h e] *)
Definition try_except {A} (m : M A) (h : exn -> M A) : M A :=
  fun b w =>
    match m b w with
    | (Raise e, b', w') => h e b' w'
    | r => r
    end.

End Program.

Declare Scope py_scope.
Delimit Scope py_scope with py.
Notation "x <- m ;; k" := (bind m (fun x => k))
  (at level 61, m at next level, right associativity) : py_scope.
Notation "m ;; k" := (bind m (fun _ => k))
  (at level 61, right associativity) : py_scope.
Local Open Scope py_scope.

Section Methods.

Context {S : Type} {os : OS S}.

Local Abbreviation M := (Method S).

(** ** Primitives *)

Definition set_os_state (s : S) (w : world S) : world S :=
  {| os_state := s; stdin := stdin w; stdout := stdout w;
     logfile := logfile w; trace := trace w |}.

Definition set_stdin (l : list string) (w : world S) : world S :=
  {| os_state := os_state w; stdin := l; stdout := stdout w;
     logfile := logfile w; trace := trace w |}.

Definition add_stdout (o : list out) (w : world S) : world S :=
  {| os_state := os_state w; stdin := stdin w; stdout := (stdout w ++ o)%list;
     logfile := logfile w; trace := trace w |}.

Definition add_log (r : level * string) (w : world S) : world S :=
  {| os_state := os_state w; stdin := stdin w; stdout := stdout w;
     logfile := (logfile w ++ [r])%list; trace := trace w |}.

Definition add_trace (c : call) (r : option exn) (w : world S) : world S :=
  {| os_state := os_state w; stdin := stdin w; stdout := stdout w;
     logfile := logfile w; trace := (trace w ++ [(c, r)])%list |}.

(** [print(self.theme.<st>(txt))] *)
Definition say (st : style) (txt : string) : M unit :=
  fun b w => (Ok tt, b, add_stdout [Say st txt] w).

(** [logger.info(msg)], [logger.error(msg)] *)
Definition log (l : level) (msg : string) : M unit :=
  fun b w => (Ok tt, b, add_log (l, msg) w).

(** [input(self.theme.<st>(prompt))]: the prompt is printed, a line is read;
    at the end of the input [EOFError] is raised. *)
Definition input (st : style) (prompt : string) : M string :=
  fun b w =>
    let w1 := add_stdout [Say st prompt] w in
    match stdin w1 with
    | [] => (Raise EOFError, b, w1)
    | l :: rest => (Ok l, b, set_stdin rest w1)
    end.

(** A call that changes the file system: it is recorded, and what it
    raises is raised. *)
Definition perform (c : call) : M unit :=
  fun b w =>
    let (r, s') := os_run c (os_state w) in
    let w' := add_trace c r (set_os_state s' w) in
    match r with
    | None => (Ok tt, b, w')
    | Some e => (Raise e, b, w')
    end.

Definition exists_ (p : path) : M bool :=
  fun b w =>
    match os_exists p (os_state w) with
    | inr found => (Ok found, b, w)
    | inl e => (Raise e, b, w)
    end.

Definition now : M string :=
  fun b w => (Ok (os_now (os_state w)), b, w).

Definition get_config : M PackageConfig :=
  fun b w => (Ok (self_config b), b, w).

(** [self.config.<field> = v] *)
Definition assign (f : PackageConfig -> PackageConfig) : M unit :=
  fun b w => (Ok tt, with_config (f (self_config b)) b, w).

Definition get_self : M builder := fun b w => (Ok b, b, w).

(** ** [load_config_from_file] *)

(** One turn of [for key, value in data.items()].  At an entry that the
    typed record cannot follow the model stops with [Untyped]; the code
    goes on with the next entry. *)
Definition load_item (key value : pyval) : M unit :=
  match key with
  | VStr k =>
      c <- get_config ;;
      match setattr_config c k value with
      | None => ret tt
      | Some (Some c') => assign (fun _ => c')
      | Some None => unmodelled
      end
  | _ => raise (OtherError "TypeError" "attribute name must be string")
  end.

Fixpoint load_items (items : list (pyval * pyval)) : M unit :=
  match items with
  | [] => ret tt
  | (key, value) :: rest => load_item key value ;; load_items rest
  end.

(** [data.items()] raises [AttributeError] unless [data] is a mapping. *)
Definition items_of (data : pyval) : M (list (pyval * pyval)) :=
  match data with
  | VDict items => ret items
  | v => raise (OtherError "AttributeError"
                  ("'" ++ type_name v ++ "' object has no attribute 'items'"))
  end.

(** The body of the [with open(config_path, 'r') as f] block. *)
Definition read_config (config_path : path) : M pyval :=
  fun b w =>
    match os_open_read config_path (os_state w) with
    | Some e => (Raise e, b, w)
    | None =>
        let suffix := lower (path_suffix config_path) in
        if String.eqb suffix ".yaml" || String.eqb suffix ".yml" then
          match os_yaml_safe_load config_path (os_state w) with
          | inl e => (Raise e, b, w)
          | inr data => (Ok data, b, w)
          end
        else if String.eqb suffix ".json" then
          match os_json_load config_path (os_state w) with
          | inl e => (Raise e, b, w)
          | inr data => (Ok data, b, w)
          end
        else
          (Raise (ValidationError
                    "Unsupported config file format. Use .yaml, .yml, or .json"),
           b, w)
    end.

Definition load_config_from_file (config_file : string) : M unit :=
  let config_path := Path config_file in
  found <- exists_ config_path ;;
  if negb found then
    raise (FileNotFoundError ("Configuration file not found: " ++ config_file))
  else
    try_except
      (data <- read_config config_path ;;
       items <- items_of data ;;
       load_items items ;;
       log INFO ("Configuration loaded from " ++ config_file))
      (fun e =>
         log ERROR ("Failed to load configuration: " ++ exn_str e) ;;
         raise (ValidationError ("Failed to load configuration: " ++ exn_str e))).

(** [SereniumBuilder.__init__], with [Path.cwd()] given as [cwd]. *)
Definition new_builder (cwd : path) (config_file : option string) : builder :=
  {| self_config := default_config; self_output_dir := cwd;
     self_steps_total := 7; self_steps_completed := 0;
     self_config_file := config_file |}.

Definition init (cwd : path) (config_file : option string) (w : world S)
  : result unit * builder * world S :=
  match config_file with
  | Some f =>
      if is_empty f then (Ok tt, new_builder cwd config_file, w)
      else load_config_from_file f (new_builder cwd config_file) w
  | None => (Ok tt, new_builder cwd config_file, w)
  end.

End Methods.

(* ================================================================== *)
(** * The interactive path: [get_user_input] *)
(* ================================================================== *)

(** A [while True] loop around [input]: each turn takes one line, so the
    loop is a recursion on the lines left.  It gives what the loop ends
    with, the lines left, and what was printed. *)
Definition console (A : Type) : Type :=
  list string -> result A * list string * list out.

(** The loops for the name, the version and the e-mail address: prompt, read
    (sanitizing, with the field's default if there is one), validate; a
    [ValidationError] is printed and the prompt repeated. *)
Fixpoint ask_valid (prompt : string) (read : string -> string)
    (validate : string -> result pyval) (lines : list string)
  : result string * list string * list out :=
  match lines with
  | [] => (Raise EOFError, [], [Say Prompt prompt])
  | l :: rest =>
      let x := read l in
      match validate x with
      | Ok _ => (Ok x, rest, [Say Prompt prompt])
      | Raise (ValidationError m) =>
          let '(r, rest', o) := ask_valid prompt read validate rest in
          (r, rest', Say Prompt prompt :: Say Error m :: o)
      | Raise e => (Raise e, rest, [Say Prompt prompt])
      | Untyped => (Untyped, rest, [Say Prompt prompt])
      end
  end.

(** The loop for the package type; it ends with [package_type == "2"]. *)
Fixpoint ask_package_type (lines : list string)
  : result bool * list string * list out :=
  match lines with
  | [] => (Raise EOFError, [], [Say Prompt "Choose type [1/2]: "])
  | l :: rest =>
      let package_type := strip l in
      if String.eqb package_type "1" || String.eqb package_type "2" then
        (Ok (String.eqb package_type "2"), rest, [Say Prompt "Choose type [1/2]: "])
      else
        let '(r, rest', o) := ask_package_type rest in
        (r, rest', Say Prompt "Choose type [1/2]: "
                   :: Say Error "Please enter 1 or 2" :: o)
  end.

(** [[t.strip() for t in s.split(',') if t.strip()] if s else []] *)
Definition comma_list (s : string) : list string :=
  if is_empty s then []
  else filter (fun t => negb (is_empty t)) (map strip (split ","%char s)).

Section Interactive.

Context {S : Type} {os : OS S}.

Local Abbreviation M := (Method S).

Definition run_console {A} (f : console A) : M A :=
  fun b w =>
    let '(r, rest, o) := f (stdin w) in
    (r, b, add_stdout o (set_stdin rest w)).

(** The questions asked for a regular package only. *)
Definition ask_regular : M unit :=
  say Plain "" ;;
  say Item "Tools and Files" ;;
  say Separator "" ;;
  l <- input Prompt "Tools to include (comma-separated, e.g., nmap, wireshark, john): " ;;
  assign (set_tools (comma_list (sanitize_input l))) ;;
  say Plain "" ;;
  say Item "Desktop Entry Configuration" ;;
  say Separator "" ;;
  l <- input Prompt "Create desktop entry? [y/N]: " ;;
  assign (set_create_desktop (String.eqb (lower (strip l)) "y")) ;;
  c <- get_config ;;
  if create_desktop c then
    l <- input Prompt "Desktop entry name: " ;;
    assign (set_desktop_name (sanitize_input l)) ;;
    l <- input Prompt "Desktop comment: " ;;
    assign (set_desktop_comment (sanitize_input l)) ;;
    l <- input Prompt "Icon name (optional): " ;;
    assign (set_desktop_icon (sanitize_input (or_else l "applications-system"))) ;;
    l <- input Prompt "Categories (e.g., System;Security): " ;;
    assign (set_desktop_categories (sanitize_input (or_else l "System")))
  else ret tt.

Definition get_user_input : M PackageConfig :=
  say Art "" ;;
  say Header "Serenium Package Builder" ;;
  say Plain "" ;;
  say Item "Package Configuration" ;;
  say Separator "" ;;
  name <- run_console (ask_valid "Package name (e.g., serenium-toolkit): "
                         sanitize_input validate_package_name) ;;
  assign (set_name name) ;;
  version <- run_console (ask_valid "Version (e.g., 1.0.0): "
                            (fun l => sanitize_input (or_else l "1.0.0"))
                            validate_version) ;;
  assign (set_version version) ;;
  l <- input Prompt "Short description: " ;;
  assign (set_description (sanitize_input l)) ;;
  l <- input Prompt "Long description (optional): " ;;
  c <- get_config ;;
  assign (set_long_description (or_else (sanitize_input l) (description c))) ;;
  say Plain "" ;;
  say Item "Package Type Selection" ;;
  say Separator "" ;;
  say Item "1. Regular package (with files)" ;;
  say Item "2. Metapackage (dependencies only)" ;;
  meta <- run_console ask_package_type ;;
  assign (set_is_metapackage meta) ;;
  c <- get_config ;;
  (if negb (is_metapackage c) then ask_regular
   else
     assign (set_tools []) ;;
     assign (set_create_desktop false)) ;;
  say Plain "" ;;
  say Item "Dependencies" ;;
  say Separator "" ;;
  l <- input Prompt "Dependencies (comma-separated, e.g., python3, git): " ;;
  assign (set_dependencies (comma_list (sanitize_input l))) ;;
  say Plain "" ;;
  say Item "Menu Placement" ;;
  say Separator "" ;;
  l <- input Prompt "Menu section (e.g., 01-System): " ;;
  assign (set_menu_section (sanitize_input (or_else l "99-Misc"))) ;;
  say Plain "" ;;
  say Item "Maintainer Information" ;;
  say Separator "" ;;
  l <- input Prompt "Maintainer name: " ;;
  assign (set_maintainer (sanitize_input (or_else l "Serenium Team"))) ;;
  email <- run_console (ask_valid "Maintainer email: "
                          (fun l => sanitize_input (or_else l "team@serenium.org"))
                          validate_email) ;;
  assign (set_email email) ;;
  get_config.

End Interactive.

(* ================================================================== *)
(** * The emitters *)
(* ================================================================== *)

(** ** The texts *)

(** The expression inside the braces of the [Depends:] line of both control
    templates: [', '.join(deps) if deps else '${{misc:Depends}}'].  The
    string after [else] is an ordinary literal inside the replacement field,
    so its braces are not escapes. *)
Definition depends_value (c : PackageConfig) : string :=
  match dependencies c with
  | [] => "${{misc:Depends}}"
  | deps => join ", " deps
  end.

Definition depends_line (c : PackageConfig) : string :=
  "Depends: " ++ depends_value c.

Definition changelog_text (c : PackageConfig) (timestamp : string) : string :=
  text [ name c ++ " (" ++ version c ++ ") unstable; urgency=medium";
         "";
         "  * Initial release";
         "  * " ++ description c;
         "";
         " -- " ++ maintainer c ++ " <" ++ email c ++ ">  " ++ timestamp ].

(** The two control templates differ in the [Section:] line only. *)
Definition control_lines (section : string) (c : PackageConfig) : list string :=
  [ "Source: " ++ name c;
    "Section: " ++ section;
    "Priority: optional";
    "Maintainer: " ++ maintainer c ++ " <" ++ email c ++ ">";
    "Build-Depends: debhelper-compat (= 13)";
    "Standards-Version: 4.6.0";
    "";
    "Package: " ++ name c;
    "Architecture: all";
    depends_line c;
    "Description: " ++ description c;
    " " ++ long_description c ].

Definition control_text (c : PackageConfig) : string :=
  if is_metapackage c then text (control_lines "metapackages" c)
  else text (control_lines "misc" c).

Definition rules_text : string :=
  text [ "#!/usr/bin/make -f"; "%:"; tab ++ "dh $@" ].

Definition desktop_entry_text (c : PackageConfig) : string :=
  text [ "[Desktop Entry]";
         "Name=" ++ desktop_name c;
         "Comment=" ++ desktop_comment c;
         "Exec=" ++ name c;
         "Icon=" ++ desktop_icon c;
         "Terminal=false";
         "Type=Application";
         "Categories=" ++ desktop_categories c;
         "StartupNotify=true" ].

Definition launcher_text (c : PackageConfig) : string :=
  text [ "#!/bin/bash";
         "# " ++ name c ++ " launcher";
         "# Generated by Serenium Package Builder";
         "";
         "echo " ++ dq ++ name c ++ " - " ++ description c ++ dq;
         "echo " ++ dq ++ dq;
         "echo " ++ dq ++ "Available tools:" ++ dq ]
  ++ List.fold_left (fun script tool => script ++ "echo '  - " ++ tool ++ "'" ++ nl)
       (tools c) ""
  ++ text [ "";
            "echo " ++ dq ++ dq;
            "echo " ++ dq ++ "Use 'dpkg -L serenium-toolkit' to see all installed files." ++ dq ].

Definition build_script_text (c : PackageConfig) : string :=
  text [ "#!/bin/bash";
         "# Build script for " ++ name c;
         "# Generated by Serenium Package Builder";
         "";
         "set -e";
         "";
         "PACKAGE_NAME=" ++ dq ++ name c ++ dq;
         "PACKAGE_VERSION=" ++ dq ++ version c ++ dq;
         "";
         "echo " ++ dq ++ "Building $PACKAGE_NAME version $PACKAGE_VERSION..." ++ dq;
         "";
         "# Clean previous builds";
         "rm -f ../${PACKAGE_NAME}_*.deb ../${PACKAGE_NAME}_*.tar.gz ../${PACKAGE_NAME}_*.dsc ../${PACKAGE_NAME}_*.changes";
         "";
         "# Build the package";
         "dpkg-buildpackage -us -uc -b";
         "";
         "echo " ++ dq ++ "Build complete!" ++ dq;
         "echo " ++ dq ++ "Package file: ../${PACKAGE_NAME}_${PACKAGE_VERSION}_all.deb" ++ dq;
         "echo " ++ dq ++ dq;
         "echo " ++ dq ++ "To install:" ++ dq;
         "echo " ++ dq ++ "  sudo dpkg -i ../${PACKAGE_NAME}_${PACKAGE_VERSION}_all.deb" ++ dq;
         "echo " ++ dq ++ "  sudo apt-get install -f  # Fix dependencies if needed" ++ dq ].

(** A heading and one bullet per entry, then an empty line; nothing for an
    empty list. *)
Definition bullet_section (heading : string) (entries : list string) : string :=
  match entries with
  | [] => ""
  | _ =>
      List.fold_left (fun readme e => readme ++ "- " ++ e ++ nl) entries
        (heading ++ nl)
      ++ nl
  end.

Definition readme_text (c : PackageConfig) : string :=
  text [ "# " ++ name c;
         "";
         description c;
         "";
         "## Package Information";
         "- **Version**: " ++ version c;
         "- **Type**: " ++ (if is_metapackage c then "Metapackage" else "Regular Package");
         "- **Maintainer**: " ++ maintainer c ++ " <" ++ email c ++ ">";
         "" ]
  ++ bullet_section "## Included Tools" (tools c)
  ++ bullet_section "## Dependencies" (dependencies c)
  ++ text [ "## Building";
            "";
            "To build this package:";
            "";
            "```bash";
            "./build.sh";
            "```";
            "";
            "## Installation";
            "";
            "To install the built package:";
            "";
            "```bash";
            "sudo dpkg -i ../" ++ name c ++ "_" ++ version c ++ "_all.deb";
            "sudo apt-get install -f  # Fix dependencies if needed";
            "```";
            "";
            "## Removal";
            "";
            "To remove this package:";
            "";
            "```bash";
            "sudo apt-get remove " ++ name c;
            "```";
            "";
            "---";
            "Generated by Serenium Package Builder" ].

Definition VStrs (l : list string) : pyval := VList (map VStr l).

(** [config_data] of [save_config]: fifteen keys, [output_dir] not among
    them. *)
Definition config_data (c : PackageConfig) : list (pyval * pyval) :=
  [ (VStr "name", VStr (name c));
    (VStr "version", VStr (version c));
    (VStr "description", VStr (description c));
    (VStr "long_description", VStr (long_description c));
    (VStr "is_metapackage", VBool (is_metapackage c));
    (VStr "tools", VStrs (tools c));
    (VStr "create_desktop", VBool (create_desktop c));
    (VStr "desktop_name", VStr (desktop_name c));
    (VStr "desktop_comment", VStr (desktop_comment c));
    (VStr "desktop_icon", VStr (desktop_icon c));
    (VStr "desktop_categories", VStr (desktop_categories c));
    (VStr "dependencies", VStrs (dependencies c));
    (VStr "menu_section", VStr (menu_section c));
    (VStr "maintainer", VStr (maintainer c));
    (VStr "email", VStr (email c)) ].

(** [_format_package_summary] *)
Definition format_package_summary (c : PackageConfig) : string :=
  join nl
    (List.concat
       [ [ "Package: " ++ name c;
           "Version: " ++ version c;
           "Type: " ++ (if is_metapackage c then "Metapackage" else "Regular Package") ];
         match tools c with [] => [] | t => ["Tools: " ++ join ", " t] end;
         match dependencies c with [] => [] | d => ["Dependencies: " ++ join ", " d] end;
         if create_desktop c then ["Desktop Entry: " ++ desktop_name c] else [];
         [ "Menu Section: " ++ menu_section c ] ]).

(** ** The emitting methods *)

Section Emitters.

Context {S : Type} {os : OS S}.

Local Abbreviation M := (Method S).

Definition create_debian_structure (package_path : path) : M unit :=
  log INFO "Creating Debian packaging structure" ;;
  let debian_dir := package_path // "debian" in
  perform (Mkdir debian_dir true true) ;;
  c <- get_config ;;
  timestamp <- now ;;
  perform (WriteText (debian_dir // "changelog") (changelog_text c timestamp)) ;;
  perform (WriteText (debian_dir // "control") (control_text c)) ;;
  perform (WriteText (debian_dir // "rules") rules_text) ;;
  perform (Chmod (debian_dir // "rules") 493) ;;
  perform (WriteText (debian_dir // "compat") "13") ;;
  let source_dir := debian_dir // "source" in
  perform (Mkdir source_dir false true) ;;
  perform (WriteText (source_dir // "format") "3.0 (native)").

Definition create_desktop_entry (package_path : path) : M unit :=
  c <- get_config ;;
  if negb (create_desktop c) then ret tt
  else
    log INFO "Creating desktop entry" ;;
    let desktop_dir := package_path // "usr" // "share" // "applications" in
    perform (Mkdir desktop_dir true true) ;;
    let desktop_file := desktop_dir // (name c ++ ".desktop") in
    perform (WriteText desktop_file (desktop_entry_text c)).

Definition menu_dir (package_path : path) (c : PackageConfig) : path :=
  package_path // "usr" // "share" // "serenium-menu" // "applications"
    // menu_section c.

Definition create_menu_structure (package_path : path) : M unit :=
  log INFO "Creating menu structure" ;;
  c <- get_config ;;
  perform (Mkdir (menu_dir package_path c) true true) ;;
  if create_desktop c then
    let desktop_file := menu_dir package_path c // (name c ++ ".desktop") in
    let target_path := Path "../../../applications" // (name c ++ ".desktop") in
    perform (SymlinkTo desktop_file target_path)
  else ret tt.

Definition create_package_files (package_path : path) : M unit :=
  c <- get_config ;;
  if is_metapackage c then ret tt
  else
    log INFO "Creating package files" ;;
    let usr_bin := package_path // "usr" // "bin" in
    perform (Mkdir usr_bin true true) ;;
    match tools c with
    | [] => ret tt
    | _ =>
        let launcher_file := usr_bin // name c in
        perform (WriteText launcher_file (launcher_text c)) ;;
        perform (Chmod launcher_file 493)
    end.

Definition create_build_script (package_path : path) : M unit :=
  log INFO "Creating build script" ;;
  c <- get_config ;;
  let build_file := package_path // "build.sh" in
  perform (WriteText build_file (build_script_text c)) ;;
  perform (Chmod build_file 493).

Definition create_readme (package_path : path) : M unit :=
  log INFO "Creating README" ;;
  c <- get_config ;;
  perform (WriteText (package_path // "README.md") (readme_text c)).

Definition save_config (package_path : path) : M unit :=
  c <- get_config ;;
  let config_file := package_path // "serenium-config.yaml" in
  perform (YamlDump config_file (VDict (config_data c))).

(** [_update_progress] *)
Definition update_progress (step : string) : M unit :=
  fun b w =>
    let b' := with_steps_completed (self_steps_completed b + 1) b in
    (Ok tt, b',
     add_stdout [Progress (self_steps_completed b') (self_steps_total b') step] w).

(** The body of the [try] block of [build_package]. *)
Definition build_steps (package_path : path) : M unit :=
  update_progress "Creating Debian packaging structure" ;;
  create_debian_structure package_path ;;
  update_progress "Creating package files" ;;
  create_package_files package_path ;;
  update_progress "Creating desktop entry" ;;
  create_desktop_entry package_path ;;
  update_progress "Setting up menu structure" ;;
  create_menu_structure package_path ;;
  update_progress "Creating build script" ;;
  create_build_script package_path ;;
  update_progress "Generating documentation" ;;
  create_readme package_path ;;
  update_progress "Saving configuration" ;;
  save_config package_path ;;
  update_progress "Finalizing package" ;;
  c <- get_config ;;
  say Plain "" ;;
  say Success ("Package scaffold created at: " ++ path_str package_path) ;;
  say Plain "" ;;
  say Box (format_package_summary c) ;;
  say Plain "" ;;
  say Header "Next Steps" ;;
  say Item "Navigate to package directory:" ;;
  say Highlight ("cd " ++ path_str package_path) ;;
  say Plain "" ;;
  say Item "Build the package:" ;;
  say Highlight "./build.sh" ;;
  say Plain "" ;;
  say Footer "Happy packaging!" ;;
  log INFO ("Package " ++ name c ++ " version " ++ version c ++ " created successfully").

Definition package_path_of (b : builder) : path :=
  self_output_dir b // (name (self_config b) ++ "-" ++ version (self_config b)).

(** [build_package].  [proceed] is false where the source returns early. *)
Definition build_package : M unit :=
  say Plain "" ;;
  say Header "Building Package Structure" ;;
  say Plain "" ;;
  self <- get_self ;;
  let package_path := package_path_of self in
  already <- exists_ package_path ;;
  proceed <-
    (if already then
       response <- input Warning ("Directory " ++ path_str package_path
                                  ++ " already exists. Overwrite? [y/N]: ") ;;
       if negb (String.eqb (lower (strip response)) "y") then
         say Error "Build aborted by user." ;;
         ret false
       else
         perform (Rmtree package_path) ;;
         ret true
     else ret true) ;;
  if negb proceed then ret tt
  else
    perform (Mkdir package_path true true) ;;
    try_except (build_steps package_path)
      (fun e =>
         log ERROR ("Failed to build package: " ++ exn_str e) ;;
         say Error ("Build failed: " ++ exn_str e) ;;
         raise e).

End Emitters.

(** ** [main], from the creation of the builder to the build

    The configuration comes from the file alone when the file gives a name
    and a description, and from the prompts otherwise. *)
Section Main.

Context {S : Type} {os : OS S}.

Local Abbreviation M := (Method S).

Definition uses_file (config : option string) (c : PackageConfig) : bool :=
  match config with
  | Some f => negb (is_empty f) && negb (is_empty (name c))
              && negb (is_empty (description c))
  | None => false
  end.

(** The record the build will use. *)
Definition acquire (config : option string) : M PackageConfig :=
  c <- get_config ;;
  if uses_file config c then
    say Info "Using configuration from file" ;;
    ret c
  else get_user_input.

(** [builder = SereniumBuilder(selected_theme, args.config)] and the choice
    between the two paths. *)
Definition configure (cwd : path) (config : option string) (w : world S)
  : result PackageConfig * builder * world S :=
  match init cwd config w with
  | (Ok _, b, w1) => acquire config b w1
  | (Raise e, b, w1) => (Raise e, b, w1)
  | (Untyped, b, w1) => (Untyped, b, w1)
  end.

Definition main (cwd : path) (config : option string) (w : world S)
  : result unit * builder * world S :=
  match configure cwd config w with
  | (Ok _, b, w1) => build_package b w1
  | (Raise e, b, w1) => (Raise e, b, w1)
  | (Untyped, b, w1) => (Untyped, b, w1)
  end.

End Main.

(** ** [create_sample_config] *)

(** [sample_config], a [dict]: its entries in the order written. *)
Definition sample_config : list (pyval * pyval) :=
  [ (VStr "name", VStr "sample-package");
    (VStr "version", VStr "1.0.0");
    (VStr "description", VStr "A sample package created with Serenium");
    (VStr "long_description",
     VStr "This is a longer description of what the package does and its purpose.");
    (VStr "is_metapackage", VBool false);
    (VStr "tools", VList [VStr "tool1"; VStr "tool2"]);
    (VStr "create_desktop", VBool true);
    (VStr "desktop_name", VStr "Sample Package");
    (VStr "desktop_comment", VStr "Launch the sample package");
    (VStr "desktop_icon", VStr "applications-system");
    (VStr "desktop_categories", VStr "System");
    (VStr "dependencies", VList [VStr "python3"; VStr "python3-yaml"]);
    (VStr "menu_section", VStr "01-System");
    (VStr "maintainer", VStr "Your Name");
    (VStr "email", VStr "your.email@example.com") ].

Section Sample.

Context {S : Type} {os : OS S}.

Definition create_sample_config : Method S unit :=
  perform (YamlDump (Path "sample-config.yaml") (VDict sample_config)) ;;
  say Plain "Sample configuration created: sample-config.yaml".

End Sample.

(* ================================================================== *)
(** * A file system in memory *)
(* ================================================================== *)

(** An instance of [OS] to run the program on: directories, text files,
    documents (a file that the YAML and JSON loaders read back as the data
    dumped into it) and symbolic links, under the paths as they are given.
    It stands in for the real system in examples; the theorems below hold
    for every instance. *)
Module MemFS.

Inductive node : Type :=
| Dir
| File (content : string) (mode : N)
| Doc (data : pyval) (mode : N)
| Link (target : path).

Record t : Type := mk {
  files : list (path * node);
  clock : string
}.

Definition path_eqb (p q : path) : bool :=
  if list_eq_dec string_dec p q then true else false.

Fixpoint assoc (p : path) (l : list (path * node)) : option node :=
  match l with
  | [] => None
  | (q, n) :: r => if path_eqb p q then Some n else assoc p r
  end.

(** The working directory [[]] and the root are always there. *)
Definition lookup (p : path) (fs : t) : option node :=
  match p with
  | [] => Some Dir
  | ["/"] => Some Dir
  | _ => assoc p (files fs)
  end.

Definition put (p : path) (n : node) (fs : t) : t :=
  {| files := (p, n) :: files fs; clock := clock fs |}.

Fixpoint is_prefix (p q : path) : bool :=
  match p, q with
  | [], _ => true
  | a :: p', b :: q' => String.eqb a b && is_prefix p' q'
  | _ :: _, [] => false
  end.

(** The ancestors of [p], nearest to the root first, [p] itself last. *)
Definition prefixes (p : path) : list path :=
  map (fun n => firstn n p) (seq 1 (length p)).

Definition err (kind : string) (p : path) : option exn :=
  Some (OtherError kind (path_str p)).

Fixpoint make_dirs (ps : list path) (fs : t) : option exn * t :=
  match ps with
  | [] => (None, fs)
  | p :: rest =>
      match lookup p fs with
      | Some Dir => make_dirs rest fs
      | Some _ => (err "NotADirectoryError" p, fs)
      | None => make_dirs rest (put p Dir fs)
      end
  end.

Definition mkdir (p : path) (parents exist_ok : bool) (fs : t) : option exn * t :=
  match lookup p fs with
  | Some Dir => if exist_ok then (None, fs) else (err "FileExistsError" p, fs)
  | Some _ => (err "FileExistsError" p, fs)
  | None =>
      match lookup (removelast p) fs with
      | Some Dir => (None, put p Dir fs)
      | Some _ => (err "NotADirectoryError" p, fs)
      | None =>
          if parents then make_dirs (prefixes p) fs
          else (Some (FileNotFoundError (path_str p)), fs)
      end
  end.

(** Writing keeps the mode of a file that is there; a new file gets 0o644. *)
Definition write (p : path) (mk_node : N -> node) (fs : t) : option exn * t :=
  match lookup (removelast p) fs with
  | Some Dir =>
      match lookup p fs with
      | Some Dir => (err "IsADirectoryError" p, fs)
      | Some (Link _) => (err "OSError" p, fs)
      | Some (File _ m) | Some (Doc _ m) => (None, put p (mk_node m) fs)
      | None => (None, put p (mk_node 420%N) fs)
      end
  | Some _ => (err "NotADirectoryError" p, fs)
  | None => (Some (FileNotFoundError (path_str p)), fs)
  end.

Definition chmod (p : path) (m : N) (fs : t) : option exn * t :=
  match lookup p fs with
  | Some (File s _) => (None, put p (File s m) fs)
  | Some (Doc d _) => (None, put p (Doc d m) fs)
  | Some _ => (None, fs)
  | None => (Some (FileNotFoundError (path_str p)), fs)
  end.

Definition symlink_to (p target : path) (fs : t) : option exn * t :=
  match lookup p fs with
  | Some _ => (err "FileExistsError" p, fs)
  | None =>
      match lookup (removelast p) fs with
      | Some Dir => (None, put p (Link target) fs)
      | Some _ => (err "NotADirectoryError" p, fs)
      | None => (Some (FileNotFoundError (path_str p)), fs)
      end
  end.

Definition rmtree (p : path) (fs : t) : option exn * t :=
  match lookup p fs with
  | Some Dir =>
      (None, {| files := filter (fun e => negb (is_prefix p (fst e))) (files fs);
                clock := clock fs |})
  | Some (Link _) => (err "OSError" p, fs)
  | Some _ => (err "NotADirectoryError" p, fs)
  | None => (Some (FileNotFoundError (path_str p)), fs)
  end.

Definition run (c : call) (fs : t) : option exn * t :=
  match c with
  | Rmtree p => rmtree p fs
  | Mkdir p parents exist_ok => mkdir p parents exist_ok fs
  | WriteText p s => write p (File s) fs
  | Chmod p m => chmod p m fs
  | SymlinkTo p target => symlink_to p target fs
  | YamlDump p d => write p (Doc d) fs
  end.

(** [stat] refuses a component of more than 255 characters, and
    [Path.exists] lets that [OSError] through. *)
Definition name_too_long (p : path) : bool :=
  existsb (fun x => Nat.ltb 255 (String.length x)) p.

Definition exists_ (p : path) (fs : t) : exn + bool :=
  if name_too_long p then inl (OtherError "OSError" (path_str p))
  else inr (match lookup p fs with Some _ => true | None => false end).

Definition open_read (p : path) (fs : t) : option exn :=
  match lookup p fs with
  | Some (File _ _) | Some (Doc _ _) => None
  | Some Dir => err "IsADirectoryError" p
  | Some (Link _) => err "OSError" p
  | None => Some (FileNotFoundError (path_str p))
  end.

Definition load (p : path) (fs : t) : exn + pyval :=
  match lookup p fs with
  | Some (Doc d _) => inr d
  | _ => inl (OtherError "ParseError" (path_str p))
  end.

#[global] Instance os : OS t := {|
  os_run := run;
  os_exists := exists_;
  os_now := clock;
  os_open_read := open_read;
  os_yaml_safe_load := load;
  os_json_load := load
|}.

Definition empty : t := {| files := []; clock := "Mon, 01 Jan 2024 00:00:00 " |}.

(** A world over this file system, with the given input lines. *)
Definition world_of (fs : t) (lines : list string) : world t :=
  {| os_state := fs; stdin := lines; stdout := []; logfile := []; trace := [] |}.

End MemFS.

(* ================================================================== *)
(** * Notions used in the statements *)
(* ================================================================== *)

(** The characters removed by the loop of [sanitize_input]. *)
Definition is_control (c : ascii) : bool := N.leb (code c) 5.

Definition first_is_space (s : string) : bool :=
  match s with String c _ => isspace c | EmptyString => false end.

Fixpoint last_is_space (s : string) : bool :=
  match s with
  | EmptyString => false
  | String c EmptyString => isspace c
  | String _ r => last_is_space r
  end.

(** The names the specification says [validate_package_name] refuses. *)
Definition name_rejected (name : string) : Prop :=
  name = ""
  \/ 255 < String.length name
  \/ (exists c, In c invalid_chars /\ occurs c name = true)
  \/ first_isalnum name = false
  \/ occurs " "%char name = true.

(** ** The calls of a complete build

    What each emitter asks of the file system when nothing fails, as a
    function of the record; the lemmas of the last part prove that the
    emitters make exactly these calls. *)

Definition oks (cs : list call) : list (call * option exn) :=
  map (fun c => (c, None)) cs.

Definition debian_calls (pkg : path) (c : PackageConfig) (timestamp : string)
  : list call :=
  [ Mkdir (pkg // "debian") true true;
    WriteText (pkg // "debian" // "changelog") (changelog_text c timestamp);
    WriteText (pkg // "debian" // "control") (control_text c);
    WriteText (pkg // "debian" // "rules") rules_text;
    Chmod (pkg // "debian" // "rules") 493;
    WriteText (pkg // "debian" // "compat") "13";
    Mkdir (pkg // "debian" // "source") false true;
    WriteText (pkg // "debian" // "source" // "format") "3.0 (native)" ].

Definition package_files_calls (pkg : path) (c : PackageConfig) : list call :=
  if is_metapackage c then []
  else
    Mkdir (pkg // "usr" // "bin") true true
    :: match tools c with
       | [] => []
       | _ => [ WriteText (pkg // "usr" // "bin" // name c) (launcher_text c);
                Chmod (pkg // "usr" // "bin" // name c) 493 ]
       end.

Definition desktop_calls (pkg : path) (c : PackageConfig) : list call :=
  if create_desktop c then
    [ Mkdir (pkg // "usr" // "share" // "applications") true true;
      WriteText (pkg // "usr" // "share" // "applications" // (name c ++ ".desktop"))
        (desktop_entry_text c) ]
  else [].

Definition menu_symlink (pkg : path) (c : PackageConfig) : call :=
  SymlinkTo (menu_dir pkg c // (name c ++ ".desktop"))
    (Path "../../../applications" // (name c ++ ".desktop")).

Definition menu_calls (pkg : path) (c : PackageConfig) : list call :=
  Mkdir (menu_dir pkg c) true true
  :: (if create_desktop c then [menu_symlink pkg c] else []).

Definition build_script_calls (pkg : path) (c : PackageConfig) : list call :=
  [ WriteText (pkg // "build.sh") (build_script_text c);
    Chmod (pkg // "build.sh") 493 ].

Definition readme_calls (pkg : path) (c : PackageConfig) : list call :=
  [ WriteText (pkg // "README.md") (readme_text c) ].

Definition save_calls (pkg : path) (c : PackageConfig) : list call :=
  [ YamlDump (pkg // "serenium-config.yaml") (VDict (config_data c)) ].

Definition emission_calls (pkg : path) (c : PackageConfig) (timestamp : string)
  : list call :=
  (debian_calls pkg c timestamp ++ package_files_calls pkg c
   ++ desktop_calls pkg c ++ menu_calls pkg c ++ build_script_calls pkg c
   ++ readme_calls pkg c ++ save_calls pkg c)%list.

(** ** Fields by name *)

(** [getattr(c, key)] for the sixteen fields, as a Python value. *)
Definition get_field (key : string) (c : PackageConfig) : pyval :=
  if String.eqb key "name" then VStr (name c)
  else if String.eqb key "version" then VStr (version c)
  else if String.eqb key "description" then VStr (description c)
  else if String.eqb key "long_description" then VStr (long_description c)
  else if String.eqb key "is_metapackage" then VBool (is_metapackage c)
  else if String.eqb key "tools" then VStrs (tools c)
  else if String.eqb key "create_desktop" then VBool (create_desktop c)
  else if String.eqb key "desktop_name" then VStr (desktop_name c)
  else if String.eqb key "desktop_comment" then VStr (desktop_comment c)
  else if String.eqb key "desktop_icon" then VStr (desktop_icon c)
  else if String.eqb key "desktop_categories" then VStr (desktop_categories c)
  else if String.eqb key "dependencies" then VStrs (dependencies c)
  else if String.eqb key "menu_section" then VStr (menu_section c)
  else if String.eqb key "maintainer" then VStr (maintainer c)
  else if String.eqb key "email" then VStr (email c)
  else if String.eqb key "output_dir" then VStr (output_dir c)
  else VNone.

(** Whether a loaded mapping has the string [key] among its keys. *)
Definition has_key (key : string) (items : list (pyval * pyval)) : bool :=
  existsb (fun kv => match fst kv with
                     | VStr k => String.eqb key k
                     | _ => false
                     end) items.

(** ** Runs that differ in the step counter only *)

(** A printed line without the count of its progress report. *)
Definition forget_count (o : out) : out :=
  match o with
  | Progress _ total step => Progress 0 total step
  | Say st txt => Say st txt
  end.

Definition same_builder (b1 b2 : builder) : Prop :=
  self_config b1 = self_config b2
  /\ self_output_dir b1 = self_output_dir b2
  /\ self_steps_total b1 = self_steps_total b2
  /\ self_config_file b1 = self_config_file b2.

Definition same_world {S : Type} (w1 w2 : world S) : Prop :=
  os_state w1 = os_state w2
  /\ stdin w1 = stdin w2
  /\ logfile w1 = logfile w2
  /\ trace w1 = trace w2
  /\ map forget_count (stdout w1) = map forget_count (stdout w2).

(** Two methods that, from states alike but for the counter, end the same
    way in states alike but for the counter. *)
Definition agree {S A : Type} (m1 m2 : Method S A) : Prop :=
  forall b1 b2 w1 w2,
    same_builder b1 b2 -> same_world w1 w2 ->
    fst (fst (m1 b1 w1)) = fst (fst (m2 b2 w2))
    /\ same_builder (snd (fst (m1 b1 w1))) (snd (fst (m2 b2 w2)))
    /\ same_world (snd (m1 b1 w1)) (snd (m2 b2 w2)).

(** ** The shapes the validators accept *)

(** A non-empty run of decimal digits. *)
Definition digits (s : string) : Prop := s <> "" /\ all isdecimal s = true.

(** [<digits>.<digits>.<digits>] and then anything. *)
Definition version_shape (v : string) : Prop :=
  exists a b c rest,
    v = a ++ "." ++ b ++ "." ++ c ++ rest /\ digits a /\ digits b /\ digits c.

(** [<local>@<host>.<letters>], with at most one newline after it. *)
Definition email_shape (s : string) : Prop :=
  exists local host tld tail,
    s = local ++ "@" ++ host ++ "." ++ tld ++ tail
    /\ (tail = "" \/ tail = nl)
    /\ local <> "" /\ all is_local_char local = true
    /\ host <> "" /\ all is_domain_char host = true
    /\ 2 <= String.length tld /\ all is_ascii_letter tld = true.

(** ** The lines that answer the two descriptions *)

(** The lines left by a loop that reads until what it read is accepted. *)
Fixpoint after_accepted (read : string -> string)
    (validate : string -> result pyval) (lines : list string) : list string :=
  match lines with
  | [] => []
  | l :: rest =>
      match validate (read l) with
      | Ok _ => rest
      | _ => after_accepted read validate rest
      end
  end.

(** The lines left when the loops for the name and for the version have
    ended: the first answers the prompt for the description, the second the
    prompt for the long description. *)
Definition after_version (lines : list string) : list string :=
  after_accepted (fun l => sanitize_input (or_else l "1.0.0")) validate_version
    (after_accepted sanitize_input validate_package_name lines).

(** ** Sanitized text *)

(** A text that [sanitize_input] leaves as it is. *)
Definition sanitized (s : string) : Prop := sanitize_input s = s.

(** ** A conversation *)

(** [w'] comes from [w] by reading lines and printing, and by nothing else:
    the file system, the calls recorded and the log are those of [w], the
    lines left are a suffix of the lines of [w], and the output of [w] is a
    prefix of the output. *)
Definition talked {S} (w w' : world S) : Prop :=
  os_state w' = os_state w /\ trace w' = trace w /\ logfile w' = logfile w
  /\ (exists k, stdin w' = skipn k (stdin w))
  /\ (exists o, stdout w' = (stdout w ++ o)%list).

(** How a conversation can end: with a value, or with [EOFError] when no
    line is left. *)
Definition ended {S A} (r : result A) (w' : world S) : Prop :=
  match r with
  | Ok _ => True
  | Raise e => e = EOFError /\ stdin w' = []
  | Untyped => False
  end.

(** A method that only talks, and a prompt loop that ends with a value or,
    when the lines are used up, with [EOFError]. *)
Definition talks {S A} (m : Method S A) : Prop :=
  forall b w r b' w', m b w = (r, b', w') -> talked w w' /\ ended r w'.

Definition well_behaved {A} (f : console A) : Prop :=
  forall lines r rest o,
    f lines = (r, rest, o) ->
    (exists k, rest = skipn k lines)
    /\ match r with
       | Ok _ => True
       | Raise e => e = EOFError /\ rest = []
       | Untyped => False
       end.

(** ** Documents that the typed record can follow *)

Definition str_fields : list string :=
  ["name"; "version"; "description"; "long_description"; "desktop_name";
   "desktop_comment"; "desktop_icon"; "desktop_categories"; "menu_section";
   "maintainer"; "email"; "output_dir"].

Definition bool_fields : list string := ["is_metapackage"; "create_desktop"].

Definition list_fields : list string := ["tools"; "dependencies"].

Definition is_str (v : pyval) : bool :=
  match v with VStr _ => true | _ => false end.

(** An entry [key: value], [key] a string, that the typed record follows:
    [value] is of the declared type of the field [key], or [key] is no
    field and does not start with two underscores, so that it names no
    attribute and the loop skips the entry.  What is left out is what
    [setattr_config] answers [Some None] to. *)
Definition typed_entry (key : string) (value : pyval) : bool :=
  if existsb (String.eqb key) str_fields then is_str value
  else if existsb (String.eqb key) bool_fields then
    match value with VBool _ => true | _ => false end
  else if existsb (String.eqb key) list_fields then
    match value with VList l => forallb is_str l | _ => false end
  else negb (prefix "__" key).

(** A loaded document all of whose entries with a string key are such; a
    document that is no mapping has no entries. *)
Definition typed_document (data : pyval) : Prop :=
  match data with
  | VDict items => forall k v, In (VStr k, v) items -> typed_entry k v = true
  | _ => True
  end.

(** ** Entries of a loaded mapping *)

(** An entry that gives a field of [c] under its name, and an entry whose
    key is a string that names no attribute of the record. *)
Definition field_of (c : PackageConfig) (kv : pyval * pyval) : Prop :=
  exists k, In k field_names /\ kv = (VStr k, get_field k c).

Definition unknown_key (kv : pyval * pyval) : Prop :=
  exists k, fst kv = VStr k /\ ~ In k field_names /\ prefix "__" k = false.

(** ** The calls of a run *)

(** The path a call works on. *)
Definition target (c : call) : path :=
  match c with
  | Rmtree p | Mkdir p _ _ | WriteText p _ | Chmod p _ | SymlinkTo p _
  | YamlDump p _ => p
  end.

(** The calls that need the directory of their path to be there: those that
    create a file or a link, and [mkdir] without [parents]. *)
Definition needs_parent (c : call) : bool :=
  match c with
  | WriteText _ _ | YamlDump _ _ | SymlinkTo _ _ | Mkdir _ false _ => true
  | _ => false
  end.

(** A method that makes its calls in turn and stops at the first that
    raises, with what that call raised; it reads no line. *)
Definition stops_at_failure {S A} (m : Method S A) : Prop :=
  forall b w r b' w',
    m b w = (r, b', w') ->
    stdin w' = stdin w
    /\ match r with
       | Ok _ => exists cs, trace w' = (trace w ++ oks cs)%list
       | Raise e => exists cs c, trace w' = (trace w ++ oks cs ++ [(c, Some e)])%list
       | Untyped => False
       end.

(** The calls recorded between [w] and [w']. *)
Definition made {S} (w w' : world S) : list call :=
  map fst (skipn (length (trace w)) (trace w')).

(** The files whose mode is set, with the mode. *)
Definition chmods (cs : list call) : list (path * N) :=
  flat_map (fun c => match c with Chmod p m => [(p, m)] | _ => [] end) cs.

(** Each call of [cs] that needs the directory of its path comes after a
    [mkdir] of that directory, [seen] being the directories made before. *)
Fixpoint parents_made (seen : list path) (cs : list call) : Prop :=
  match cs with
  | [] => True
  | c :: rest =>
      (needs_parent c = true -> In (removelast (target c)) seen)
      /\ parents_made (match c with Mkdir p _ _ => p :: seen | _ => seen end) rest
  end.

(** [p] is [pkg] followed by components none of which is [..]. *)
Definition inside (pkg p : path) : Prop :=
  exists rest, p = (pkg ++ rest)%list /\ ~ In ".." rest.

(** Where a relative [link] leads from the directory [dir], component by
    component: [..] goes to the parent. *)
Fixpoint resolve (dir link : path) : path :=
  match link with
  | [] => dir
  | x :: rest =>
      if String.eqb x ".." then resolve (removelast dir) rest
      else resolve (dir ++ [x])%list rest
  end.

(** ** Records that agree on what the prompts set *)

(** What the prompts always set, first the fields asked before the type of
    the package is known. *)
Definition same_basics (c1 c2 : PackageConfig) : Prop :=
  name c1 = name c2 /\ version c1 = version c2
  /\ description c1 = description c2
  /\ long_description c1 = long_description c2
  /\ is_metapackage c1 = is_metapackage c2.

(** The tools and the desktop entry; its four fields count when there is
    one. *)
Definition same_contents (c1 c2 : PackageConfig) : Prop :=
  tools c1 = tools c2 /\ create_desktop c1 = create_desktop c2
  /\ (create_desktop c1 = true ->
      desktop_name c1 = desktop_name c2
      /\ desktop_comment c1 = desktop_comment c2
      /\ desktop_icon c1 = desktop_icon c2
      /\ desktop_categories c1 = desktop_categories c2).

Definition same_answers (c1 c2 : PackageConfig) : Prop :=
  same_basics c1 c2 /\ same_contents c1 c2
  /\ dependencies c1 = dependencies c2 /\ menu_section c1 = menu_section c2
  /\ maintainer c1 = maintainer c2 /\ email c1 = email c2.

Definition cfg_rel : Type := PackageConfig -> PackageConfig -> Prop.

(** Two runs from the same world, on builders whose records are related by
    [P]: they end the same way in the same world, and if they end well the
    values and the records are related by [Q]. *)
Definition related {S A} (P : cfg_rel) (m1 m2 : Method S A)
    (Q : A -> A -> cfg_rel) : Prop :=
  forall b1 b2 w,
    P (self_config b1) (self_config b2) ->
    match m1 b1 w, m2 b2 w with
    | (Ok a1, b1', w1), (Ok a2, b2', w2) =>
        Q a1 a2 (self_config b1') (self_config b2') /\ w1 = w2
    | (Raise e1, _, w1), (Raise e2, _, w2) => e1 = e2 /\ w1 = w2
    | _, _ => False
    end.

(** ** The sample configuration *)

(** The record whose fields are the entries of [sample_config]. *)
Definition sample_record : PackageConfig :=
  {| name := "sample-package"; version := "1.0.0";
     description := "A sample package created with Serenium";
     long_description :=
       "This is a longer description of what the package does and its purpose.";
     is_metapackage := false; tools := ["tool1"; "tool2"];
     create_desktop := true; desktop_name := "Sample Package";
     desktop_comment := "Launch the sample package";
     desktop_icon := "applications-system"; desktop_categories := "System";
     dependencies := ["python3"; "python3-yaml"]; menu_section := "01-System";
     maintainer := "Your Name"; email := "your.email@example.com";
     output_dir := "." |}.

(** ** Data for the concrete runs *)

(** The record of the repository's tests, with the two dependencies. *)
Definition test_config : PackageConfig :=
  set_dependencies ["python3"; "git"]
    (set_description "Test package" (set_name "test-package" default_config)).

Definition builder_of (c : PackageConfig) : builder :=
  with_config c (new_builder ["/"; "work"] None).

(** A file system where the target directory of [test_config] exists. *)
Definition fs_with_target : MemFS.t :=
  MemFS.put ["/"; "work"; "test-package-1.0.0"] MemFS.Dir
    (MemFS.put ["/"; "work"] MemFS.Dir MemFS.empty).

(** The progress reports among what was printed. *)
Definition progress_reports (o : list out) : list (nat * nat) :=
  flat_map (fun x => match x with
                     | Progress current total _ => [(current, total)]
                     | Say _ _ => []
                     end) o.

(** A complete build of [c] on the empty file system. *)
Definition fresh_build (c : PackageConfig)
  : result unit * builder * world MemFS.t :=
  build_package (builder_of c) (MemFS.world_of MemFS.empty []).

(** A configuration file for a metapackage that also names a tool and asks
    for a desktop entry, and does not give a long description. *)
Definition meta_document : pyval :=
  VDict [ (VStr "name", VStr "meta");
          (VStr "description", VStr "A metapackage");
          (VStr "is_metapackage", VBool true);
          (VStr "tools", VList [VStr "nmap"]);
          (VStr "create_desktop", VBool true) ].

Definition fs_with_config : MemFS.t :=
  MemFS.put ["cfg.yaml"] (MemFS.Doc meta_document 420) MemFS.empty.

(** The answers of a user who asks for a metapackage and leaves every
    optional answer, the two descriptions among them, blank. *)
Definition blank_answers : list string :=
  ["pkg"; ""; ""; ""; "2"; ""; ""; ""; ""].

(** The answers for a regular package with a description and no long
    description. *)
Definition regular_answers : list string :=
  ["pkg"; "1.2.3"; "A package"; ""; "1"; "nmap, john"; "n"; "python3, git";
   "01-System"; "Me"; "me@example.org"].

(** The answers for a regular package with a desktop entry; some carry
    blanks and control characters. *)
Definition desktop_answers : list string :=
  ["  pkg "; "bad version"; "2.0.1"; String "007" "A package"; " long ";
   "3"; "1"; "nmap , ,john"; " Y "; " Pkg"; "";
   ""; "Security;"; ""; ""; ""; "nobody"; "me@example.org"].

(** A JSON file that gives a name no prompt would accept, and a key that
    is no field; and a file with an extension that is not read. *)
Definition partial_document : pyval :=
  VDict [ (VStr "name", VStr "Bad Name!");
          (VStr "colour", VStr "blue");
          (VStr "dependencies", VList [VStr "git"]) ].

Definition fs_with_documents : MemFS.t :=
  MemFS.put ["cfg.JSON"] (MemFS.Doc partial_document 420)
    (MemFS.put ["notes.txt"] (MemFS.File "name: x" 420) MemFS.empty).

(** A name of 255 letters: [validate_package_name] accepts it, and with the
    version added the directory of the package has a longer name than a
    file system takes. *)
Definition long_name : string := string_of_list_ascii (repeat "a"%char 255).


(** A record with a desktop entry. *)
Definition desktop_config : PackageConfig :=
  set_desktop_name "Test" (set_create_desktop true (set_tools ["nmap"] test_config)).

(* ================================================================== *)
(** * Properties *)
(* ================================================================== *)

(** * The cases of the repository's tests *)

Example test_sanitize_input :
  sanitize_input "  test  " = "test"
  /\ sanitize_input ("test" ++ String "000" (String "001" "")) = "test"
  /\ sanitize_input "" = ""
  /\ sanitize_input "normal text" = "normal text".
Proof. repeat split. Qed.

Example test_validate_package_name :
  map validate_package_name
    ["serenium-tool"; "test123"; "my_package"; "a"; "123package"; "package@name"]
  = repeat (Ok (VBool true)) 6
  /\ validate_package_name "" = Raise (ValidationError "Package name cannot be empty")
  /\ validate_package_name "Test Package"
     = Raise (ValidationError "Package name cannot contain spaces")
  /\ validate_package_name "package!"
     = Raise (ValidationError "Package name contains invalid characters: ").
Proof. repeat split. Qed.

Example test_validate_version :
  map validate_version
    ["1.0.0"; "0.1.0"; "10.20.30"; "1.0.0-alpha"; "2.1.3-beta.2"; "1.0.0garbage"]
  = repeat (Ok (VBool true)) 6
  /\ map validate_version ["1.0"; "v1.0.0"; "not-a-version"]
     = repeat (Raise (ValidationError
                        "Version must follow semantic versioning (e.g., 1.0.0)")) 3
  /\ validate_version "" = Raise (ValidationError "Version cannot be empty").
Proof. repeat split. Qed.

Example test_validate_email :
  map validate_email
    ["test@example.com"; "user.name@domain.org"; "user+tag@example.co.uk"; ""]
  = repeat (Ok (VBool true)) 4
  /\ map validate_email ["invalid"; "@example.com"; "test@"; "test.example.com"]
     = repeat (Raise (ValidationError "Invalid email format")) 4.
Proof. repeat split. Qed.

(** A complete build of the record of the tests leaves the files the tests
    look for, with the modes they check. *)
Example test_build_package :
  let fs := os_state (snd (fresh_build test_config)) in
  let pkg := ["/"; "work"; "test-package-1.0.0"] in
  MemFS.lookup (pkg ++ ["debian"; "rules"])%list fs = Some (MemFS.File rules_text 493)
  /\ MemFS.lookup (pkg ++ ["debian"; "compat"])%list fs = Some (MemFS.File "13" 420)
  /\ MemFS.lookup (pkg ++ ["debian"; "source"; "format"])%list fs
     = Some (MemFS.File "3.0 (native)" 420)
  /\ MemFS.lookup (pkg ++ ["build.sh"])%list fs
     = Some (MemFS.File (build_script_text test_config) 493)
  /\ MemFS.lookup (pkg ++ ["usr"; "bin"])%list fs = Some MemFS.Dir
  /\ MemFS.lookup (pkg ++ ["usr"; "bin"; "test-package"])%list fs = None.
Proof. cbv zeta. vm_compute. repeat split. Qed.

(** * Strings *)

Lemma append_assoc (a b c : string) : (a ++ b) ++ c = a ++ b ++ c.
Proof. induction a as [|x a IH]; simpl; [reflexivity | now rewrite IH]. Qed.

Lemma is_empty_true (s : string) : is_empty s = true <-> s = "".
Proof. destruct s; simpl; split; congruence. Qed.

Lemma keep_keep p q s : keep p (keep q s) = keep (fun c => q c && p c) s.
Proof.
  induction s as [|c s IH]; simpl; [reflexivity|].
  destruct (q c); simpl; [destruct (p c); simpl; now rewrite IH | exact IH].
Qed.

Lemma keep_ext p q s : (forall c, p c = q c) -> keep p s = keep q s.
Proof.
  intros E. induction s as [|c s IH]; simpl; [reflexivity|].
  rewrite E, IH. reflexivity.
Qed.

Lemma keep_all p s : all p s = true -> keep p s = s.
Proof.
  induction s as [|c s IH]; simpl; [reflexivity|].
  intros H. apply andb_true_iff in H as [Hc Hs]. rewrite Hc, IH; auto.
Qed.

Lemma all_keep p s : all p (keep p s) = true.
Proof.
  induction s as [|c s IH]; simpl; [reflexivity|].
  destruct (p c) eqn:E; simpl; [rewrite E|]; auto.
Qed.

Lemma dangerous_chars_spec c :
  existsb (Ascii.eqb c) dangerous_chars = is_control c.
Proof. destruct c as [[] [] [] [] [] [] [] []]; reflexivity. Qed.

Lemma remove_dangerous s :
  fold_left (fun t c => remove_char c t) dangerous_chars s
  = keep (fun c => negb (is_control c)) s.
Proof.
  unfold dangerous_chars, remove_char. simpl. rewrite !keep_keep.
  apply keep_ext. intros c. rewrite <- dangerous_chars_spec.
  unfold dangerous_chars. simpl. rewrite !negb_orb. simpl.
  rewrite andb_true_r, !andb_assoc. reflexivity.
Qed.

(** ** Stripping *)

Lemma lstrip_split s : exists a, s = a ++ lstrip s /\ all isspace a = true.
Proof.
  induction s as [|c s (a & E & Ha)]; simpl.
  - exists ""; auto.
  - destruct (isspace c) eqn:Hc.
    + exists (String c a); simpl. rewrite Hc, Ha, <- E. auto.
    + exists ""; auto.
Qed.

Lemma rstrip_split s : exists b, s = rstrip s ++ b /\ all isspace b = true.
Proof.
  induction s as [|c s (b & E & Hb)]; simpl.
  - exists ""; auto.
  - destruct (rstrip s) as [|d r] eqn:R.
    + simpl in E. subst b. destruct (isspace c) eqn:Hc.
      * exists (String c s); simpl. now rewrite Hc, Hb.
      * exists s. auto.
    + exists b. split; [|exact Hb]. simpl in *. congruence.
Qed.

Lemma lstrip_first s : first_is_space (lstrip s) = false.
Proof.
  induction s as [|c s IH]; simpl; [reflexivity|].
  destruct (isspace c) eqn:Hc; simpl; auto.
Qed.

Lemma rstrip_last s : last_is_space (rstrip s) = false.
Proof.
  induction s as [|c s IH]; simpl; [reflexivity|].
  destruct (rstrip s) as [|d r] eqn:R.
  - destruct (isspace c) eqn:Hc; simpl; auto.
  - simpl in *. exact IH.
Qed.

Lemma lstrip_last s : last_is_space s = false -> last_is_space (lstrip s) = false.
Proof.
  induction s as [|c s IH]; [auto|].
  intros H. simpl lstrip. destruct (isspace c) eqn:Hc; [|exact H].
  apply IH. destruct s; [reflexivity | exact H].
Qed.

Lemma lstrip_id s : first_is_space s = false -> lstrip s = s.
Proof. destruct s as [|c s]; simpl; [auto|]. now intros ->. Qed.

Lemma rstrip_id s : last_is_space s = false -> rstrip s = s.
Proof.
  induction s as [|c s IH]; simpl; [auto|].
  intros H. destruct s as [|d r].
  - simpl. now rewrite H.
  - rewrite (IH H). reflexivity.
Qed.

Lemma strip_first s : first_is_space (strip s) = false.
Proof. apply lstrip_first. Qed.

Lemma strip_last s : last_is_space (strip s) = false.
Proof. apply lstrip_last, rstrip_last. Qed.

Lemma strip_id s :
  first_is_space s = false -> last_is_space s = false -> strip s = s.
Proof. intros F L. unfold strip. rewrite (rstrip_id _ L). now apply lstrip_id. Qed.

Lemma strip_split s :
  exists a b, s = a ++ strip s ++ b /\ all isspace a = true /\ all isspace b = true.
Proof.
  destruct (rstrip_split s) as (b & E & Hb).
  destruct (lstrip_split (rstrip s)) as (a & E' & Ha).
  exists a, b. repeat split; auto.
  unfold strip. rewrite <- append_assoc, <- E'. exact E.
Qed.

Lemma all_lstrip p s : all p s = true -> all p (lstrip s) = true.
Proof.
  induction s as [|c s IH]; simpl; [auto|].
  intros H. destruct (isspace c); [|exact H].
  apply andb_true_iff in H as [_ H]. auto.
Qed.

Lemma all_rstrip p s : all p s = true -> all p (rstrip s) = true.
Proof.
  induction s as [|c s IH]; simpl; [auto|].
  intros H. apply andb_true_iff in H as [Hc H]. specialize (IH H).
  destruct (rstrip s); [destruct (isspace c); simpl; now rewrite ?Hc|].
  simpl in *. now rewrite Hc.
Qed.

Lemma all_strip p s : all p s = true -> all p (strip s) = true.
Proof. intros H. now apply all_lstrip, all_rstrip. Qed.

(** C9: [sanitize_input s] is [s] without the characters U+0000..U+0005
    and then without the white space at its two ends: the filtered string
    is the result between two runs of white space, and the result neither
    starts nor ends with white space.  No such character is left in it, and
    sanitizing it again changes nothing. *)
Theorem sanitize_input_spec (s : string) :
  let r := sanitize_input s in
  (exists a b,
      keep (fun c => negb (is_control c)) s = a ++ r ++ b
      /\ all isspace a = true /\ all isspace b = true)
  /\ first_is_space r = false
  /\ last_is_space r = false
  /\ all (fun c => negb (is_control c)) r = true
  /\ sanitize_input r = r.
Proof.
  assert (G : forall t, sanitize_input t = strip (keep (fun c => negb (is_control c)) t)).
  { intros t. unfold sanitize_input. destruct t; [reflexivity|].
    simpl is_empty. cbv iota. now rewrite remove_dangerous. }
  cbv zeta. rewrite !G.
  set (k := keep _ s).
  assert (A : all (fun c => negb (is_control c)) (strip k) = true)
    by apply all_strip, all_keep.
  repeat split.
  - apply strip_split.
  - apply strip_first.
  - apply strip_last.
  - exact A.
  - rewrite (keep_all _ _ A). apply strip_id; [apply strip_first | apply strip_last].
Qed.

(** * [validate_package_name] *)

Lemma any_exists p s :
  any p s = true <-> exists c, occurs c s = true /\ p c = true.
Proof.
  induction s as [|d s IH]; simpl.
  - split; [discriminate | intros (c & H & _); discriminate].
  - rewrite orb_true_iff, IH. split.
    + intros [H | (c & Hc & Hp)].
      * exists d. now rewrite Ascii.eqb_refl.
      * exists c. now rewrite Hc, orb_true_r.
    + intros (c & Hc & Hp). apply orb_true_iff in Hc as [E | Hc].
      * apply Ascii.eqb_eq in E. subst. now left.
      * right. now exists c.
Qed.

Lemma is_invalid_char_In c : is_invalid_char c = true <-> In c invalid_chars.
Proof.
  unfold is_invalid_char. rewrite existsb_exists. split.
  - intros (x & Hx & E). apply Ascii.eqb_eq in E. now subst.
  - intros H. exists c. now rewrite Ascii.eqb_refl.
Qed.

(** C7 (as amended): [validate_package_name] raises [ValidationError]
    exactly when the name is empty, or longer than 255 characters, or holds
    one of the eighteen characters of [invalid_chars], or does not start
    with an alphanumeric character, or holds a space; on every other name
    it returns [True]. *)
Theorem validate_package_name_spec (name : string) :
  ((exists msg, validate_package_name name = Raise (ValidationError msg))
   <-> name_rejected name)
  /\ (~ name_rejected name -> validate_package_name name = Ok (VBool true)).
Proof.
  unfold name_rejected, validate_package_name.
  destruct (is_empty name) eqn:E.
  { apply is_empty_true in E. split; [split; eauto | tauto]. }
  assert (N : name <> "") by (intros ->; discriminate).
  destruct (Nat.ltb_spec 255 (String.length name)) as [L | L].
  { split; [split; eauto | tauto]. }
  destruct (any is_invalid_char name) eqn:A.
  { apply any_exists in A as (c & Hc & Hi). apply is_invalid_char_In in Hi.
    split; [split; eauto 6 | intros H; exfalso; apply H; eauto 6]. }
  assert (A' : ~ exists c, In c invalid_chars /\ occurs c name = true).
  { intros (c & Hi & Hc). apply is_invalid_char_In in Hi.
    assert (any is_invalid_char name = true) by (apply any_exists; eauto).
    congruence. }
  destruct (first_isalnum name) eqn:F; simpl.
  2:{ split; [split; eauto 6 | tauto]. }
  destruct (occurs " "%char name) eqn:Sp.
  { split; [split; eauto 6 | tauto]. }
  split; [|reflexivity].
  split.
  - intros (msg & H). discriminate.
  - intros [H | [H | [H | [H | H]]]]; try congruence; try lia; tauto.
Qed.

(** C7, counterexample: on the valid name [abc] the call returns [True],
    not the string it was given. *)
Lemma validate_package_name_returns_True :
  validate_package_name "abc" = Ok (VBool true)
  /\ validate_package_name "abc" <> Ok (VStr "abc").
Proof. split; [reflexivity | discriminate]. Qed.

(** * The overwrite question of [build_package] *)

(** C3: when the target directory exists and the answer to the overwrite
    question, stripped and lowered, is not [y], [build_package] returns
    normally; the builder (its step counter too), the state of the
    operating system, the record of calls made and the log are what they
    were: no call that changes the file system is made and no emitter runs.
    Only the question and three lines are printed, and one line of input is
    read. *)
Theorem build_package_cancel {S : Type} {os : OS S}
    (b : builder) (w : world S) (response : string) (rest : list string) :
  os_exists (package_path_of b) (os_state w) = inr true ->
  stdin w = response :: rest ->
  lower (strip response) <> "y" ->
  build_package b w =
    (Ok tt, b,
     {| os_state := os_state w;
        stdin := rest;
        stdout := stdout w ++
          [ Say Plain ""; Say Header "Building Package Structure"; Say Plain "";
            Say Warning ("Directory " ++ path_str (package_path_of b)
                         ++ " already exists. Overwrite? [y/N]: ");
            Say Error "Build aborted by user." ];
        logfile := logfile w;
        trace := trace w |}).
Proof.
  intros Hex Hin Hno.
  destruct w as [s i o l t]. simpl in Hex, Hin. subst i.
  unfold build_package, bind, say, get_self, exists_, input, ret. simpl.
  rewrite Hex. simpl.
  destruct (String.eqb_spec (lower (strip response)) "y") as [E | _];
    [contradiction|].
  simpl. unfold add_stdout, set_stdin. simpl.
  rewrite <- !app_assoc. reflexivity.
Qed.

(** A run of [build_package_cancel]: the directory
    [/work/test-package-1.0.0] is there and the answer is [n]. *)
Lemma build_package_cancel_witness :
  os_exists (package_path_of (builder_of test_config)) fs_with_target = inr true
  /\ lower (strip "n") <> "y"
  /\ exists o, build_package (builder_of test_config)
                 (MemFS.world_of fs_with_target ["n"]) =
       (Ok tt, builder_of test_config,
        {| os_state := fs_with_target; stdin := []; stdout := o;
           logfile := []; trace := [] |}).
Proof.
  assert (N : lower (strip "n") <> "y") by discriminate.
  split; [reflexivity|]. split; [exact N|].
  eexists.
  exact (@build_package_cancel MemFS.t MemFS.os (builder_of test_config)
           (MemFS.world_of fs_with_target ["n"]) "n" [] eq_refl eq_refl N).
Defined.

(** * Running the methods *)

Section Runs.

Context {S : Type} {os : OS S}.

Lemma bind_inv {A B} (m : Method S A) (k : A -> Method S B) b w y b' w' :
  bind m k b w = (Ok y, b', w') ->
  exists a b1 w1, m b w = (Ok a, b1, w1) /\ k a b1 w1 = (Ok y, b', w').
Proof.
  unfold bind. destruct (m b w) as [[[a | e |] b1] w1]; intros H;
    [eauto | discriminate | discriminate].
Qed.

Lemma perform_inv c b w y b' w' :
  perform c b w = (Ok y, b', w') ->
  b' = b /\ trace w' = (trace w ++ [(c, None)])%list
  /\ stdin w' = stdin w /\ logfile w' = logfile w /\ stdout w' = stdout w.
Proof.
  unfold perform. destruct (os_run c (os_state w)) as [[e |] s']; intros H;
    inversion H; subst; simpl; auto.
Qed.

Lemma exists_inv p b w found b' w' :
  exists_ p b w = (Ok found, b', w') ->
  b' = b /\ w' = w /\ os_exists p (os_state w) = inr found.
Proof.
  unfold exists_. destruct (os_exists p (os_state w)); intros H;
    inversion H; subst; auto.
Qed.

End Runs.

(** A call whose result is a fixed triple gives the three equations. *)
Ltac prim_inv H :=
  unfold log, say, get_config, get_self, now, ret, assign,
    update_progress in H;
  cbv beta zeta in H;
  first [ injection H as <- <- <- | injection H as <- <- ].

(** One step of a run that ended well: the first call of a sequence, and
    what is left of it. *)
Ltac step H :=
  let a := fresh "a" in let b1 := fresh "b" in let w1 := fresh "w" in
  let H1 := fresh "H" in
  apply bind_inv in H; destruct H as (a & b1 & w1 & H1 & H);
  first
    [ apply perform_inv in H1; destruct H1 as (-> & ? & ? & ? & ?)
    | apply exists_inv in H1; destruct H1 as (-> & -> & ?)
    | prim_inv H1 ].

Ltac last_step H :=
  first
    [ apply perform_inv in H; destruct H as (-> & ? & ? & ? & ?)
    | prim_inv H ].

Section Emission.

Context {S : Type} {os : OS S}.

Lemma create_debian_structure_ok pkg b (w : world S) b' w' :
  create_debian_structure pkg b w = (Ok tt, b', w') ->
  b' = b /\ exists timestamp,
    trace w' = (trace w ++ oks (debian_calls pkg (self_config b) timestamp))%list.
Proof.
  unfold create_debian_structure. intros H.
  do 10 step H. last_step H.
  split; [reflexivity|]. eexists.
  simpl in *. unfold oks, debian_calls. simpl.
  repeat match goal with E : trace _ = _ |- _ => rewrite E; clear E end.
  rewrite <- !app_assoc. reflexivity.
Qed.

Ltac finish_trace :=
  simpl in *;
  repeat match goal with E : trace _ = _ |- _ => rewrite E; clear E end;
  rewrite <- ?app_assoc, ?app_nil_r; reflexivity.

Lemma create_package_files_ok pkg b (w : world S) b' w' :
  create_package_files pkg b w = (Ok tt, b', w') ->
  b' = b /\ trace w' = (trace w ++ oks (package_files_calls pkg (self_config b)))%list.
Proof.
  unfold create_package_files, package_files_calls. intros H.
  step H. destruct (is_metapackage (self_config b)).
  - last_step H. split; [reflexivity | finish_trace].
  - do 2 step H. destruct (tools (self_config b)).
    + last_step H. split; [reflexivity | finish_trace].
    + step H. last_step H. split; [reflexivity | finish_trace].
Qed.

Lemma create_desktop_entry_ok pkg b (w : world S) b' w' :
  create_desktop_entry pkg b w = (Ok tt, b', w') ->
  b' = b /\ trace w' = (trace w ++ oks (desktop_calls pkg (self_config b)))%list.
Proof.
  unfold create_desktop_entry, desktop_calls. intros H.
  step H. destruct (create_desktop (self_config b)); simpl in H.
  - do 2 step H. last_step H. split; [reflexivity | finish_trace].
  - last_step H. split; [reflexivity | finish_trace].
Qed.

Lemma create_menu_structure_ok pkg b (w : world S) b' w' :
  create_menu_structure pkg b w = (Ok tt, b', w') ->
  b' = b /\ trace w' = (trace w ++ oks (menu_calls pkg (self_config b)))%list.
Proof.
  unfold create_menu_structure, menu_calls, menu_symlink. intros H.
  do 3 step H. destruct (create_desktop (self_config b)).
  - last_step H. split; [reflexivity | finish_trace].
  - last_step H. split; [reflexivity | finish_trace].
Qed.

Lemma create_build_script_ok pkg b (w : world S) b' w' :
  create_build_script pkg b w = (Ok tt, b', w') ->
  b' = b /\ trace w' = (trace w ++ oks (build_script_calls pkg (self_config b)))%list.
Proof.
  unfold create_build_script, build_script_calls. intros H.
  do 3 step H. last_step H. split; [reflexivity | finish_trace].
Qed.

Lemma create_readme_ok pkg b (w : world S) b' w' :
  create_readme pkg b w = (Ok tt, b', w') ->
  b' = b /\ trace w' = (trace w ++ oks (readme_calls pkg (self_config b)))%list.
Proof.
  unfold create_readme, readme_calls. intros H.
  do 2 step H. last_step H. split; [reflexivity | finish_trace].
Qed.

Lemma save_config_ok pkg b (w : world S) b' w' :
  save_config pkg b w = (Ok tt, b', w') ->
  b' = b /\ trace w' = (trace w ++ oks (save_calls pkg (self_config b)))%list.
Proof.
  unfold save_config, save_calls. intros H.
  step H. last_step H. split; [reflexivity | finish_trace].
Qed.

End Emission.

Section Build.

Context {S : Type} {os : OS S}.

Lemma input_inv st prompt b (w : world S) l b' w' :
  input st prompt b w = (Ok l, b', w') ->
  b' = b /\ trace w' = trace w /\ os_state w' = os_state w
  /\ logfile w' = logfile w /\ exists rest, stdin w = l :: rest /\ stdin w' = rest.
Proof.
  unfold input. simpl. destruct (stdin w) as [|x rest] eqn:E; intros H;
    inversion H; subst; simpl; eauto 7.
Qed.

Lemma try_except_inv {A} (m : Method S A) h b w y b' w' :
  try_except m h b w = (Ok y, b', w') ->
  m b w = (Ok y, b', w')
  \/ exists e b1 w1, m b w = (Raise e, b1, w1) /\ h e b1 w1 = (Ok y, b', w').
Proof.
  unfold try_except. destruct (m b w) as [[[a | e |] b1] w1]; intros H;
    [left; exact H | right; eauto | discriminate].
Qed.

(** A run of the [try] block that ends well made the calls of
    [emission_calls], all of them without an exception, and reported eight
    steps. *)
Lemma build_steps_ok pkg b (w : world S) b' w' :
  build_steps pkg b w = (Ok tt, b', w') ->
  self_config b' = self_config b
  /\ self_steps_completed b' = self_steps_completed b + 8
  /\ self_steps_total b' = self_steps_total b
  /\ exists timestamp,
       trace w' = (trace w ++ oks (emission_calls pkg (self_config b) timestamp))%list.
Proof.
  unfold build_steps. intros H.
  step H. apply bind_inv in H as ([] & ? & ? & H1 & H).
  apply create_debian_structure_ok in H1 as (-> & ts & T1).
  step H. apply bind_inv in H as ([] & ? & ? & H2 & H).
  apply create_package_files_ok in H2 as (-> & T2).
  step H. apply bind_inv in H as ([] & ? & ? & H3 & H).
  apply create_desktop_entry_ok in H3 as (-> & T3).
  step H. apply bind_inv in H as ([] & ? & ? & H4 & H).
  apply create_menu_structure_ok in H4 as (-> & T4).
  step H. apply bind_inv in H as ([] & ? & ? & H5 & H).
  apply create_build_script_ok in H5 as (-> & T5).
  step H. apply bind_inv in H as ([] & ? & ? & H6 & H).
  apply create_readme_ok in H6 as (-> & T6).
  step H. apply bind_inv in H as ([] & ? & ? & H7 & H).
  apply save_config_ok in H7 as (-> & T7).
  do 15 step H. last_step H.
  cbn [trace add_stdout add_log with_steps_completed self_config
       self_steps_completed self_steps_total] in *.
  repeat split; try lia.
  exists ts. unfold emission_calls, oks in *.
  rewrite T7, T6, T5, T4, T3, T2, T1. rewrite !map_app, <- !app_assoc.
  reflexivity.
Qed.

(** A run of [build_package] that ends well either stopped at the overwrite
    question, having made no call, or made the calls of a complete build:
    [rmtree] if the directory was there, the [mkdir] of the target, then
    those of the emitters. *)
Lemma build_package_ok b (w : world S) b' w' :
  build_package b w = (Ok tt, b', w') ->
  (b' = b /\ trace w' = trace w)
  \/ (self_config b' = self_config b
      /\ self_steps_completed b' = self_steps_completed b + 8
      /\ self_steps_total b' = self_steps_total b
      /\ exists pre timestamp,
           (pre = [] \/ pre = [Rmtree (package_path_of b)])
           /\ trace w' =
                (trace w ++
                 oks (pre ++ Mkdir (package_path_of b) true true
                          :: emission_calls (package_path_of b) (self_config b)
                               timestamp))%list).
Proof.
  unfold build_package. intros H.
  do 5 step H.
  apply bind_inv in H as (proceed & b1 & w1 & H1 & H).
  assert (P : b1 = b /\
              ((proceed = false /\ trace w1 = trace w)
               \/ (proceed = true /\ exists pre,
                     (pre = [] \/ pre = [Rmtree (package_path_of b)])
                     /\ trace w1 = (trace w ++ oks pre)%list))).
  { match type of H1 with
    | (if ?x then _ else _) _ _ = _ => destruct x
    end.
    - apply bind_inv in H1 as (response & ? & ? & Hin & H1).
      apply input_inv in Hin as (-> & T & _).
      destruct (negb _).
      + step H1. last_step H1. split; [reflexivity|]. left. auto.
      + step H1. last_step H1. split; [reflexivity|]. right.
        split; [reflexivity|]. exists [Rmtree (package_path_of b)].
        split; [now right|]. cbn [trace add_stdout] in *.
        match goal with E : trace ?x = _ |- trace ?x = _ => rewrite E end.
        rewrite T. reflexivity.
    - last_step H1. split; [reflexivity|]. right.
      split; [reflexivity|]. exists []. split; [now left|].
      cbn [trace add_stdout oks map]. now rewrite app_nil_r. }
  destruct P as (-> & [(-> & T) | (-> & pre & Hpre & T)]); simpl in H.
  - last_step H. left. auto.
  - right. step H.
    apply try_except_inv in H as [H | (e & b2 & w2 & _ & H)].
    + apply build_steps_ok in H as (C & N & Tot & ts & T').
      repeat split; auto. exists pre, ts. split; [exact Hpre|].
      rewrite T'. match goal with E : trace _ = _ |- _ => rewrite E end.
      rewrite T. unfold oks. rewrite map_app, <- !app_assoc. reflexivity.
    + unfold bind, log, say, raise in H. discriminate.
Qed.

End Build.

(** * Substrings *)

Lemma prefix_append sub a b : prefix sub a = true -> prefix sub (a ++ b) = true.
Proof.
  revert a. induction sub as [|x sub IH]; intros a H.
  - destruct a, b; reflexivity.
  - destruct a as [|y a]; simpl in *; [discriminate|].
    destruct (Ascii.ascii_dec x y); [auto | discriminate].
Qed.

Lemma contains_append_l sub a b :
  contains sub a = true -> contains sub (a ++ b) = true.
Proof.
  induction a as [|y a IH]; cbn [contains append]; intros H.
  - rewrite orb_false_r in H.
    pose proof (prefix_append sub "" b H) as P. cbn [append] in P.
    destruct b; cbn [contains]; now rewrite P.
  - apply orb_true_iff in H as [H | H].
    + apply (prefix_append _ _ b) in H. cbn [append] in H. now rewrite H.
    + rewrite (IH H). apply orb_true_r.
Qed.

Lemma contains_append_r sub a b :
  contains sub b = true -> contains sub (a ++ b) = true.
Proof.
  intros H. induction a as [|y a IH]; cbn [contains append]; [exact H|].
  rewrite IH. apply orb_true_r.
Qed.

Lemma contains_text_here sub l ls :
  contains sub l = true -> contains sub (text (l :: ls)) = true.
Proof. intros H. cbn [text fold_right]. now apply contains_append_l. Qed.

Lemma contains_text_skip sub l ls :
  contains sub (text ls) = true -> contains sub (text (l :: ls)) = true.
Proof. intros H. cbn [text fold_right]. now do 2 apply contains_append_r. Qed.

(** * What a complete build writes *)

Section Written.

Context {S : Type} {os : OS S}.

(** The calls of a run of [build_package] that ended well and made a call:
    all succeeded, those of [emission_calls] are among them, and apart from
    them there are only the [rmtree] and the [mkdir] of the target. *)
Lemma build_package_emits b (w : world S) b' w' :
  build_package b w = (Ok tt, b', w') ->
  trace w' <> trace w ->
  exists new timestamp,
    trace w' = (trace w ++ oks new)%list
    /\ (forall c, In c (emission_calls (package_path_of b) (self_config b) timestamp)
                  -> In c new)
    /\ (forall c, In c new ->
          c = Rmtree (package_path_of b)
          \/ c = Mkdir (package_path_of b) true true
          \/ In c (emission_calls (package_path_of b) (self_config b) timestamp)).
Proof.
  intros H N. apply build_package_ok in H as [(_ & T) | (_ & _ & _ & pre & ts & P & T)];
    [contradiction|].
  exists (pre ++ Mkdir (package_path_of b) true true
              :: emission_calls (package_path_of b) (self_config b) ts)%list, ts.
  split; [exact T|]. split.
  - intros c Hc. apply in_or_app. right. now right.
  - intros c Hc. apply in_app_or in Hc as [Hc | [Hc | Hc]]; auto.
    destruct P as [-> | ->]; [contradiction|].
    destruct Hc as [<- | []]. now left.
Qed.

End Written.

(** * The dependency list in the control file and in the README *)

Lemma control_has_depends_line (c : PackageConfig) :
  contains (depends_line c) (control_text c) = true.
Proof.
  assert (P : forall s, prefix s s = true).
  { induction s as [|x s IH]; [reflexivity|]. simpl.
    destruct (Ascii.ascii_dec x x); [exact IH | congruence]. }
  assert (Q : forall s, contains s s = true).
  { intros s. destruct s; cbn [contains]; now rewrite P. }
  unfold control_text, control_lines.
  destruct (is_metapackage c);
    do 9 apply contains_text_skip; apply contains_text_here, Q.
Qed.

(** C1 (as amended): with the dependencies [python3] and [git], a complete
    build writes a [debian/control] that holds [python3, git] (in its line
    [Depends: python3, git]) and a [README.md] that lists the two
    dependencies as two bullet lines. *)
Theorem dependencies_in_control_and_readme {S : Type} {os : OS S}
    (b : builder) (w : world S) (b' : builder) (w' : world S) :
  dependencies (self_config b) = ["python3"; "git"] ->
  build_package b w = (Ok tt, b', w') ->
  trace w' <> trace w ->
  exists new control readme,
    trace w' = (trace w ++ oks new)%list
    /\ In (WriteText (package_path_of b // "debian" // "control") control) new
    /\ In (WriteText (package_path_of b // "README.md") readme) new
    /\ contains "Depends: python3, git" control = true
    /\ contains "python3, git" control = true
    /\ contains ("## Dependencies" ++ nl ++ "- python3" ++ nl ++ "- git" ++ nl ++ nl)
         readme = true.
Proof.
  intros D H N.
  destruct (build_package_emits _ _ H N) as (new & ts & T & I & _).
  exists new, (control_text (self_config b)), (readme_text (self_config b)).
  split; [exact T|].
  split. { apply I. unfold emission_calls, debian_calls. simpl. auto. }
  split. { apply I. unfold emission_calls. rewrite !in_app_iff.
           do 5 right. left. now left. }
  pose proof (control_has_depends_line (self_config b)) as C.
  unfold depends_line, depends_value in C. rewrite D in C.
  split; [exact C|]. split.
  - unfold control_text, control_lines, depends_line, depends_value. rewrite D.
    destruct (is_metapackage (self_config b));
      do 9 apply contains_text_skip; apply contains_text_here; reflexivity.
  - unfold readme_text. rewrite D.
    apply contains_append_r, contains_append_r, contains_append_l. reflexivity.
Qed.

(** A run of [dependencies_in_control_and_readme]: the record of the tests,
    built on the empty file system. *)
Lemma dependencies_in_control_and_readme_witness :
  let b := builder_of test_config in
  let w := MemFS.world_of MemFS.empty [] in
  let r := build_package b w in
  dependencies (self_config b) = ["python3"; "git"]
  /\ r = (Ok tt, snd (fst r), snd r)
  /\ trace (snd r) <> trace w
  /\ exists new control readme,
       trace (snd r) = (trace w ++ oks new)%list
       /\ In (WriteText (package_path_of b // "debian" // "control") control) new
       /\ In (WriteText (package_path_of b // "README.md") readme) new
       /\ contains "Depends: python3, git" control = true
       /\ contains "python3, git" control = true
       /\ contains ("## Dependencies" ++ nl ++ "- python3" ++ nl ++ "- git" ++ nl ++ nl)
            readme = true.
Proof.
  cbv zeta.
  set (b := builder_of test_config). set (w := MemFS.world_of MemFS.empty []).
  assert (H : build_package b w
              = (Ok tt, snd (fst (build_package b w)), snd (build_package b w)))
    by (vm_compute; reflexivity).
  assert (N : trace (snd (build_package b w)) <> trace w)
    by (vm_compute; discriminate).
  split; [reflexivity|]. split; [exact H|]. split; [exact N|].
  exact (dependencies_in_control_and_readme b w eq_refl H N).
Defined.

(** C1, counterexample: for the record of the tests, whose dependencies are
    [python3] and [git], the build writes a [README.md] in which
    [python3, git] does not occur. *)
Lemma readme_lacks_joined_dependencies :
  dependencies test_config = ["python3"; "git"]
  /\ fst (fst (fresh_build test_config)) = Ok tt
  /\ MemFS.lookup ["/"; "work"; "test-package-1.0.0"; "README.md"]
       (os_state (snd (fresh_build test_config)))
     = Some (MemFS.File (readme_text test_config) 420)
  /\ contains "python3, git" (readme_text test_config) = false.
Proof. vm_compute. repeat split. Qed.

(** * The placeholder of an empty dependency list *)

(** C4, the code at an empty list: the [Depends:] line of both variants
    ends with the placeholder written with doubled braces. *)
Lemma depends_placeholder_has_doubled_braces :
  let c := set_dependencies [] test_config in
  let m := set_is_metapackage true c in
  depends_line c = "Depends: ${{misc:Depends}}"
  /\ depends_line c <> "Depends: ${misc:Depends}"
  /\ contains (nl ++ "Depends: ${{misc:Depends}}" ++ nl) (control_text c) = true
  /\ contains (nl ++ "Depends: ${{misc:Depends}}" ++ nl) (control_text m) = true
  /\ contains "${misc:Depends}" (control_text c) = false
  /\ contains "${misc:Depends}" (control_text m) = false.
Proof. cbv zeta. vm_compute. repeat split. discriminate. Qed.

(** The other half of the line: a non-empty list is joined by [, ]. *)
Lemma depends_line_of_list (c : PackageConfig) :
  dependencies c <> [] ->
  depends_line c = "Depends: " ++ join ", " (dependencies c)
  /\ contains (depends_line c) (control_text c) = true.
Proof.
  intros N. split; [|apply control_has_depends_line].
  unfold depends_line, depends_value. destruct (dependencies c); congruence.
Qed.

(** * The step counter *)

(** C5, the code on a complete build by a new builder: eight steps are
    reported out of a total of seven, the last as 8 of 7. *)
Lemma progress_counter_passes_total :
  let r := fresh_build test_config in
  fst (fst r) = Ok tt
  /\ self_steps_completed (builder_of test_config) = 0
  /\ self_steps_total (snd (fst r)) = 7
  /\ self_steps_completed (snd (fst r)) = 8
  /\ progress_reports (stdout (snd r))
     = [(1, 7); (2, 7); (3, 7); (4, 7); (5, 7); (6, 7); (7, 7); (8, 7)].
Proof. cbv zeta. vm_compute. repeat split. Qed.

(** * The menu directory *)

Lemma menu_dir_relative (pkg : path) (c : PackageConfig) :
  is_absolute (menu_section c) = false ->
  menu_dir pkg c
  = (pkg ++ ["usr"; "share"; "serenium-menu"; "applications"]
         ++ components (menu_section c))%list.
Proof.
  intros R. unfold menu_dir. unfold pjoin at 1. rewrite R.
  cbn. rewrite <- !app_assoc. reflexivity.
Qed.




(** * The interactive path *)

Section Prompts.

Context {S : Type}.

Lemma input_builder st prompt b (w : world S) l b' w' :
  input st prompt b w = (Ok l, b', w') -> b' = b.
Proof.
  unfold input. simpl. destruct (stdin w); intros H; inversion H; reflexivity.
Qed.

Lemma run_console_builder {A} (f : console A) b (w : world S) a b' w' :
  run_console f b w = (Ok a, b', w') -> b' = b.
Proof.
  unfold run_console. destruct (f (stdin w)) as [[r rest] o].
  intros H. inversion H. reflexivity.
Qed.

End Prompts.

(** A step that reads from the console leaves the builder as it is. *)
Ltac ask H :=
  let a := fresh "a" in let b1 := fresh "b" in let w1 := fresh "w" in
  let H1 := fresh "H" in
  apply bind_inv in H; destruct H as (a & b1 & w1 & H1 & H);
  first [ apply input_builder in H1 | apply run_console_builder in H1 ];
  subst b1.

(** The fields of a record after assignments, without computing on the
    values assigned. *)
Ltac fields :=
  cbn [set_name set_version set_description set_long_description
       set_is_metapackage set_tools set_create_desktop set_desktop_name
       set_desktop_comment set_desktop_icon set_desktop_categories
       set_dependencies set_menu_section set_maintainer set_email
       set_output_dir
       name version description long_description is_metapackage tools
       create_desktop desktop_name desktop_comment desktop_icon
       desktop_categories dependencies menu_section maintainer email
       output_dir self_config with_config] in *.

Section Interactive_facts.

Context {S : Type}.

(** The questions for a regular package leave the type of the package, the
    description and the long description as they are. *)
Lemma ask_regular_ok b (w : world S) b' w' :
  ask_regular b w = (Ok tt, b', w') ->
  is_metapackage (self_config b') = is_metapackage (self_config b)
  /\ description (self_config b') = description (self_config b)
  /\ long_description (self_config b') = long_description (self_config b).
Proof.
  unfold ask_regular. intros H.
  do 3 step H. ask H. do 4 step H. ask H. do 2 step H.
  cbn [self_config with_config] in H.
  match type of H with
  | (if create_desktop ?c then _ else _) _ _ = _ => destruct (create_desktop c)
  end.
  - ask H. step H. ask H. step H. ask H. step H. ask H. last_step H.
    fields. auto.
  - last_step H. fields. auto.
Qed.

Lemma or_else_empty (x d : string) : or_else x d = "" -> d = "".
Proof. unfold or_else. destruct x; cbn [is_empty]; [auto | discriminate]. Qed.

(** What [get_user_input] returns is the record of the builder; a
    metapackage has neither tools nor a desktop entry, and the long
    description is a sanitized answer or, if that is empty, the
    description. *)
Lemma get_user_input_ok b (w : world S) c b' w' :
  get_user_input b w = (Ok c, b', w') ->
  c = self_config b'
  /\ (is_metapackage c = true -> tools c = [] /\ create_desktop c = false)
  /\ (exists answer,
        long_description c = or_else (sanitize_input answer) (description c)).
Proof.
  unfold get_user_input. intros H.
  do 5 step H. ask H. step H. ask H. step H. ask H. step H. ask H.
  do 2 step H. do 5 step H. ask H. do 2 step H.
  apply bind_inv in H as ([] & ? & ? & B & H).
  do 3 step H. ask H. step H. do 3 step H. ask H. step H. do 3 step H.
  ask H. step H. ask H. step H. last_step H.
  split; [reflexivity|].
  cbn [self_config with_config] in *.
  match type of B with
  | (if negb (is_metapackage ?c) then _ else _) _ _ = _ =>
      destruct (is_metapackage c) eqn:Meta; cbn [negb] in B
  end.
  - step B. last_step B. fields. split; [auto|]. eexists. reflexivity.
  - apply ask_regular_ok in B as (M & D & L). fields.
    rewrite M, D, L. split; [congruence|]. eexists. reflexivity.
Qed.

End Interactive_facts.

(** C2 (as amended): a record that [get_user_input] returns, if it is a
    metapackage, has no tools and no desktop entry. *)
Theorem metapackage_has_no_tools_interactive {S : Type}
    (b : builder) (w : world S) (c : PackageConfig) (b' : builder) (w' : world S) :
  get_user_input b w = (Ok c, b', w') ->
  is_metapackage c = true ->
  tools c = [] /\ create_desktop c = false.
Proof. intros H. apply (get_user_input_ok _ _ H). Qed.

(** A run of [metapackage_has_no_tools_interactive], from a builder whose
    record already has tools and a desktop entry. *)
Lemma metapackage_has_no_tools_interactive_witness :
  let b := builder_of (set_create_desktop true (set_tools ["nmap"] test_config)) in
  let w := MemFS.world_of MemFS.empty blank_answers in
  let r := get_user_input b w in
  (exists c, r = (Ok c, snd (fst r), snd r)
             /\ is_metapackage c = true
             /\ tools c = [] /\ create_desktop c = false).
Proof.
  cbv zeta.
  set (b := builder_of (set_create_desktop true (set_tools ["nmap"] test_config))).
  set (w := MemFS.world_of MemFS.empty blank_answers).
  eexists.
  assert (H : get_user_input b w
              = (Ok (self_config (snd (fst (get_user_input b w)))),
                 snd (fst (get_user_input b w)), snd (get_user_input b w)))
    by (vm_compute; reflexivity).
  split; [exact H|].
  assert (M : is_metapackage (self_config (snd (fst (get_user_input b w)))) = true)
    by (vm_compute; reflexivity).
  split; [exact M|].
  exact (metapackage_has_no_tools_interactive b w H M).
Defined.

(** C2, counterexample: the record loaded from a file that says
    [is_metapackage: true], [tools: [nmap]] and [create_desktop: true] is
    used as it is. *)
Lemma metapackage_from_file_keeps_tools :
  let r := configure ["/"; "work"] (Some "cfg.yaml")
             (MemFS.world_of fs_with_config []) in
  let c := self_config (snd (fst r)) in
  fst (fst r) = Ok c
  /\ is_metapackage c = true
  /\ tools c = ["nmap"]
  /\ create_desktop c = true.
Proof. cbv zeta. vm_compute. repeat split. Qed.

Lemma ask_valid_rest prompt read validate lines x rest o :
  ask_valid prompt read validate lines = (Ok x, rest, o) ->
  rest = after_accepted read validate lines.
Proof.
  revert o. induction lines as [|l lines IH]; intros o;
    cbn [ask_valid after_accepted]; [discriminate|].
  destruct (validate (read l)) as [v | e |].
  - intros E. now injection E as <- <- <-.
  - destruct e; try discriminate.
    destruct (ask_valid prompt read validate lines) as [[r rest'] o'].
    intros E. injection E as -> -> <-. now apply (IH o').
  - discriminate.
Qed.

Section Lines.

Context {S : Type}.

Lemma run_console_world {A} (f : console A) b (w : world S) a b' w' :
  run_console f b w = (Ok a, b', w') ->
  b' = b /\ exists rest o, f (stdin w) = (Ok a, rest, o) /\ stdin w' = rest.
Proof.
  unfold run_console. destruct (f (stdin w)) as [[r rest] o].
  intros H. injection H as -> <- <-. eauto.
Qed.

Lemma input_line st prompt b (w : world S) l b' w' :
  input st prompt b w = (Ok l, b', w') ->
  b' = b /\ stdin w = l :: stdin w'.
Proof.
  intros H. apply input_inv in H as (-> & _ & _ & _ & rest & I & ->). auto.
Qed.

(** The answers behind the two descriptions of the record that
    [get_user_input] returns. *)
Lemma get_user_input_descriptions b (w : world S) c b' w' :
  get_user_input b w = (Ok c, b', w') ->
  exists short answer rest,
    after_version (stdin w) = short :: answer :: rest
    /\ description c = sanitize_input short
    /\ long_description c = or_else (sanitize_input answer) (description c).
Proof.
  unfold get_user_input. intros H.
  do 5 step H.
  apply bind_inv in H as (n & ? & w1 & F1 & H).
  apply run_console_world in F1 as (-> & rest1 & o1 & F1 & I1).
  step H.
  apply bind_inv in H as (v & ? & w2 & F2 & H).
  apply run_console_world in F2 as (-> & rest2 & o2 & F2 & I2).
  step H.
  apply bind_inv in H as (short & ? & w3 & F3 & H).
  apply input_line in F3 as (-> & I3).
  step H.
  apply bind_inv in H as (answer & ? & w4 & F4 & H).
  apply input_line in F4 as (-> & I4).
  do 2 step H. do 5 step H. ask H. do 2 step H.
  apply bind_inv in H as ([] & ? & ? & B & H).
  do 3 step H. ask H. step H. do 3 step H. ask H. step H. do 3 step H.
  ask H. step H. ask H. step H. last_step H.
  exists short, answer, (stdin w4).
  apply ask_valid_rest in F1, F2. cbn [stdin add_stdout] in *.
  split.
  { unfold after_version. rewrite <- F1, <- I1, <- F2, <- I2, I3, I4.
    reflexivity. }
  cbn [self_config with_config] in *.
  match type of B with
  | (if negb (is_metapackage ?c) then _ else _) _ _ = _ =>
      destruct (is_metapackage c) eqn:Meta; cbn [negb] in B
  end.
  - step B. last_step B. fields. split; reflexivity.
  - apply ask_regular_ok in B as (M & D & L). fields.
    rewrite D, L. split; reflexivity.
Qed.

End Lines.

(** C6 (as amended): in a record that [get_user_input] returns, the
    description is the sanitized line read at its prompt, the first line
    left by the loops for the name and the version, and the long
    description is the sanitized line read next or, when that is empty, the
    description; so it is not empty when the description is not. *)
Theorem long_description_interactive {S : Type}
    (b : builder) (w : world S) (c : PackageConfig) (b' : builder) (w' : world S) :
  get_user_input b w = (Ok c, b', w') ->
  (exists short answer rest,
      after_version (stdin w) = short :: answer :: rest
      /\ description c = sanitize_input short
      /\ long_description c = or_else (sanitize_input answer) (description c)
      /\ (sanitize_input answer = "" -> long_description c = description c)
      /\ (sanitize_input answer <> "" -> long_description c = sanitize_input answer))
  /\ (description c <> "" -> long_description c <> "").
Proof.
  intros H.
  destruct (@get_user_input_descriptions _ _ _ _ _ _ H) as (short & answer & rest & A & D & L).
  split.
  - exists short, answer, rest. repeat split; try assumption.
    + intros E. rewrite L, E. reflexivity.
    + intros N. rewrite L. unfold or_else.
      destruct (sanitize_input answer); [contradiction | reflexivity].
  - intros N E. apply N. rewrite L in E. exact (or_else_empty _ _ E).
Qed.

(** A run of [long_description_interactive]: the long description is left
    blank and comes out as the description. *)
Lemma long_description_interactive_witness :
  let b := builder_of default_config in
  let w := MemFS.world_of MemFS.empty regular_answers in
  let r := get_user_input b w in
  (exists c, r = (Ok c, snd (fst r), snd r)
             /\ description c = "A package"
             /\ long_description c = "A package"
             /\ (exists short answer rest,
                    after_version (stdin w) = short :: answer :: rest
                    /\ description c = sanitize_input short
                    /\ long_description c
                       = or_else (sanitize_input answer) (description c)
                    /\ (sanitize_input answer = ""
                        -> long_description c = description c)
                    /\ (sanitize_input answer <> ""
                        -> long_description c = sanitize_input answer))
             /\ (description c <> "" -> long_description c <> "")).
Proof.
  cbv zeta.
  set (b := builder_of default_config).
  set (w := MemFS.world_of MemFS.empty regular_answers).
  eexists.
  assert (H : get_user_input b w
              = (Ok (self_config (snd (fst (get_user_input b w)))),
                 snd (fst (get_user_input b w)), snd (get_user_input b w)))
    by (vm_compute; reflexivity).
  split; [exact H|].
  split; [vm_compute; reflexivity|].
  split; [vm_compute; reflexivity|].
  exact (long_description_interactive b w H).
Defined.

(** C6, counterexample: the long description is empty after the prompts
    when both descriptions are left blank, and after loading a file that
    gives a description and no long description. *)
Lemma long_description_can_be_empty :
  let asked := configure ["/"; "work"] None
                 (MemFS.world_of MemFS.empty blank_answers) in
  let loaded := configure ["/"; "work"] (Some "cfg.yaml")
                  (MemFS.world_of fs_with_config []) in
  (fst (fst asked) = Ok (self_config (snd (fst asked)))
   /\ long_description (self_config (snd (fst asked))) = "")
  /\ (fst (fst loaded) = Ok (self_config (snd (fst loaded)))
      /\ description (self_config (snd (fst loaded))) = "A metapackage"
      /\ long_description (self_config (snd (fst loaded))) = "").
Proof. cbv zeta. vm_compute. repeat split. Qed.

(** * Saving the record and loading it again *)

Lemma as_strs_VStrs (l : list string) : as_strs (VStrs l) = Some l.
Proof.
  unfold as_strs, VStrs. induction l as [|x l IH]; simpl; [reflexivity|].
  now rewrite IH.
Qed.

Lemma VStrs_inj (l l' : list string) : VStrs l = VStrs l' -> l = l'.
Proof.
  intros H. assert (E : as_strs (VStrs l) = as_strs (VStrs l')) by now rewrite H.
  rewrite !as_strs_VStrs in E. congruence.
Qed.

(** Two records with the same sixteen fields are the same record. *)
Lemma config_ext (x y : PackageConfig) :
  (forall k, In k field_names -> get_field k x = get_field k y) -> x = y.
Proof.
  intros H. apply Forall_forall in H. destruct x, y. unfold field_names in H.
  repeat match goal with
  | F : Forall _ (_ :: _) |- _ =>
      let E := fresh "E" in
      apply Forall_cons_iff in F as [E F]; cbn in E
  end.
  repeat match goal with
  | E : VStrs _ = VStrs _ |- _ => apply VStrs_inj in E
  | E : VStr _ = VStr _ |- _ => injection E as E
  | E : VBool _ = VBool _ |- _ => injection E as E
  end.
  subst. reflexivity.
Qed.

(** [setattr] with the value of a field of [c]: that field becomes the one
    of [c], the others stay. *)
Lemma setattr_field (c x : PackageConfig) (k : string) :
  In k field_names ->
  exists x', setattr_config x k (get_field k c) = Some (Some x')
             /\ get_field k x' = get_field k c
             /\ forall k', In k' field_names -> k' <> k ->
                           get_field k' x' = get_field k' x.
Proof.
  intros I. unfold field_names in I. cbn [In] in I.
  repeat (destruct I as [<- | I];
    [ eexists; split;
      [ unfold setattr_config, get_field; cbn [String.eqb Ascii.eqb Bool.eqb];
        rewrite ?as_strs_VStrs; cbn [as_str as_bool option_map]; reflexivity
      | split; [reflexivity|];
        intros k' I' N; unfold field_names in I'; cbn [In] in I';
        repeat (destruct I' as [<- | I']; [first [reflexivity | congruence]|]);
        contradiction ]
    | ]).
  contradiction.
Qed.

Lemma has_key_perm k (l l' : list (pyval * pyval)) :
  Permutation l l' -> has_key k l = has_key k l'.
Proof.
  intros P. unfold has_key. induction P; simpl; auto.
  - now rewrite IHP.
  - rewrite !orb_assoc. f_equal. apply orb_comm.
  - congruence.
Qed.

Section Loading.

Context {S : Type} {os : OS S}.

(** Loading a mapping whose entries are fields of [c] under their names:
    the loop ends well, and each field is the one of [c] if its name is a
    key and is left alone if not. *)
Lemma load_items_fields (c : PackageConfig) (items : list (pyval * pyval)) :
  (forall kv, In kv items ->
     exists k, In k field_names /\ kv = (VStr k, get_field k c)) ->
  forall b (w : world S),
  exists x',
    load_items items b w = (Ok tt, with_config x' b, w)
    /\ forall k, In k field_names ->
         get_field k x' = if has_key k items then get_field k c
                          else get_field k (self_config b).
Proof.
  induction items as [|kv items IH]; intros E b w.
  - exists (self_config b). split; [destruct b; reflexivity | reflexivity].
  - destruct (E kv (or_introl eq_refl)) as (k0 & I0 & ->).
    destruct (setattr_field c (self_config b) I0) as (x1 & Hset & Same & Other).
    destruct (IH (fun kv' H => E kv' (or_intror H)) (with_config x1 b) w)
      as (x' & L & F).
    exists x'. split.
    + cbn [load_items]. unfold bind at 1. unfold load_item, bind at 1.
      unfold get_config. rewrite Hset. unfold assign.
      cbn [self_config with_config] in *.
      replace (with_config x1 b) with (with_config x1 (with_config x1 b)) in L
        by (destruct b; reflexivity).
      destruct b. exact L.
    + intros k I. rewrite (F k I). cbn [has_key existsb fst].
      fold (has_key k items). cbn [self_config with_config].
      destruct (has_key k items); [now rewrite orb_true_r|].
      rewrite orb_false_r. destruct (String.eqb_spec k k0) as [-> | N].
      * exact Same.
      * now apply Other.
Qed.

End Loading.

Lemma path_suffix_config_file (pkg : path) :
  lower (path_suffix (pkg // "serenium-config.yaml")) = ".yaml".
Proof.
  assert (E : pkg // "serenium-config.yaml"
              = (pkg ++ ["serenium-config.yaml"])%list) by reflexivity.
  unfold path_suffix, path_name. rewrite E, rev_app_distr. reflexivity.
Qed.

Section Round_trip.

Context {S : Type} {os : OS S}.

(** C8 (as amended): [save_config] dumps the mapping [config_data] of the
    record into [serenium-config.yaml].  If the file is then found and
    opened, and the YAML loader gives back the dumped mapping, in whatever
    order of keys, then [load_config_from_file] on a new builder ends well
    and the record it leaves is the saved one in every field but
    [output_dir], which is not saved and has its default. *)
Theorem save_then_load
    (pkg : path) (b : builder) (w : world S) (b1 : builder) (w1 : world S)
    (config_file : string) (loaded : list (pyval * pyval)) (cwd : path) :
  save_config pkg b w = (Ok tt, b1, w1) ->
  Path config_file = pkg // "serenium-config.yaml" ->
  os_exists (Path config_file) (os_state w1) = inr true ->
  os_open_read (Path config_file) (os_state w1) = None ->
  os_yaml_safe_load (Path config_file) (os_state w1) = inr (VDict loaded) ->
  Permutation (config_data (self_config b)) loaded ->
  trace w1 = (trace w ++ [(YamlDump (pkg // "serenium-config.yaml")
                             (VDict (config_data (self_config b))), None)])%list
  /\ exists b2 w2,
       load_config_from_file config_file (new_builder cwd (Some config_file)) w1
       = (Ok tt, b2, w2)
       /\ self_config b2 = set_output_dir "." (self_config b).
Proof.
  intros Sv P Ex Op Ld Perm. set (c := self_config b) in *.
  split. { apply save_config_ok in Sv as (_ & T). exact T. }
  destruct (@load_items_fields S c loaded) with
    (b := new_builder cwd (Some config_file)) (w := w1) as (x' & L & F).
  { intros kv I. apply (Permutation_in _ (Permutation_sym Perm)) in I.
    unfold config_data in I. cbn [In] in I.
    repeat (destruct I as [<- | I];
            [ match goal with
              | |- exists k, _ /\ (VStr ?k0, _) = _ => exists k0
              end;
              split; [|reflexivity]; unfold field_names; cbn [In];
              repeat (first [left; reflexivity | right])
            | ]).
    contradiction. }
  exists (with_config x' (new_builder cwd (Some config_file))).
  eexists. split.
  - unfold load_config_from_file. unfold bind at 1. unfold exists_ at 1.
    rewrite Ex. cbn [negb]. unfold try_except.
    unfold bind at 1. unfold read_config. rewrite Op.
    rewrite P, path_suffix_config_file. cbn [String.eqb Ascii.eqb Bool.eqb orb].
    rewrite <- P, Ld. unfold bind at 1. cbn [items_of]. unfold ret at 1.
    unfold bind at 1. rewrite L. unfold log. reflexivity.
  - cbn [self_config with_config]. apply config_ext. intros k I.
    rewrite (F k I), <- (has_key_perm k Perm).
    unfold field_names in I. cbn [In] in I.
    repeat (destruct I as [<- | I]; [reflexivity|]). contradiction.
Qed.

End Round_trip.

(** A run of [save_then_load] on the file system in memory, where a dumped
    document is read back as it is. *)
Lemma save_then_load_witness :
  let pkg := ["/"; "work"; "test-package-1.0.0"] in
  let b := builder_of test_config in
  let w := MemFS.world_of fs_with_target [] in
  let r := save_config pkg b w in
  let f := "/work/test-package-1.0.0/serenium-config.yaml" in
  r = (Ok tt, snd (fst r), snd r)
  /\ Path f = pkg // "serenium-config.yaml"
  /\ os_exists (Path f) (os_state (snd r)) = inr true
  /\ os_open_read (Path f) (os_state (snd r)) = None
  /\ os_yaml_safe_load (Path f) (os_state (snd r)) = inr (VDict (config_data test_config))
  /\ exists b2 w2,
       load_config_from_file f (new_builder ["/"; "work"] (Some f)) (snd r)
       = (Ok tt, b2, w2)
       /\ self_config b2 = set_output_dir "." test_config.
Proof.
  cbv zeta.
  set (pkg := ["/"; "work"; "test-package-1.0.0"]).
  set (b := builder_of test_config).
  set (w := MemFS.world_of fs_with_target []).
  set (f := "/work/test-package-1.0.0/serenium-config.yaml").
  assert (H : save_config pkg b w
              = (Ok tt, snd (fst (save_config pkg b w)), snd (save_config pkg b w)))
    by (vm_compute; reflexivity).
  assert (P : Path f = pkg // "serenium-config.yaml") by (vm_compute; reflexivity).
  assert (E : os_exists (Path f) (os_state (snd (save_config pkg b w))) = inr true)
    by (vm_compute; reflexivity).
  assert (O : os_open_read (Path f) (os_state (snd (save_config pkg b w))) = None)
    by (vm_compute; reflexivity).
  assert (L : os_yaml_safe_load (Path f) (os_state (snd (save_config pkg b w)))
              = inr (VDict (config_data test_config)))
    by (vm_compute; reflexivity).
  repeat (split; [assumption|]).
  exact (proj2 (save_then_load pkg b w f ["/"; "work"] H P E O L
                  (Permutation_refl _))).
Defined.

(** C8, counterexample: a record whose [output_dir] is [/tmp/out], saved
    and loaded again into a new builder, comes back with [output_dir] set
    to [.]. *)
Lemma output_dir_is_not_saved :
  let c := set_output_dir "/tmp/out" test_config in
  let pkg := ["/"; "work"; "test-package-1.0.0"] in
  let f := "/work/test-package-1.0.0/serenium-config.yaml" in
  let saved := save_config pkg (builder_of c) (MemFS.world_of fs_with_target []) in
  let loaded := load_config_from_file f (new_builder ["/"; "work"] (Some f)) (snd saved) in
  fst (fst saved) = Ok tt
  /\ fst (fst loaded) = Ok tt
  /\ output_dir c = "/tmp/out"
  /\ output_dir (self_config (snd (fst loaded))) = "."
  /\ self_config (snd (fst loaded)) <> c.
Proof. cbv zeta. vm_compute. repeat split. discriminate. Qed.

(** * The step counter does not steer the build *)

Section Counter.

Context {S : Type} {os : OS S}.

Lemma agree_bind {A B} (m1 m2 : Method S A) (k1 k2 : A -> Method S B) :
  agree m1 m2 -> (forall a, agree (k1 a) (k2 a)) -> agree (bind m1 k1) (bind m2 k2).
Proof.
  intros Hm Hk b1 b2 w1 w2 Hb Hw. unfold bind.
  destruct (Hm b1 b2 w1 w2 Hb Hw) as (R & Hb' & Hw').
  destruct (m1 b1 w1) as [[r1 b1'] w1'], (m2 b2 w2) as [[r2 b2'] w2'].
  cbn [fst snd] in *. subst r2.
  destruct r1; [apply Hk; assumption | cbn; auto | cbn; auto].
Qed.

Lemma agree_try_except {A} (m1 m2 : Method S A) (h1 h2 : exn -> Method S A) :
  agree m1 m2 -> (forall e, agree (h1 e) (h2 e)) ->
  agree (try_except m1 h1) (try_except m2 h2).
Proof.
  intros Hm Hh b1 b2 w1 w2 Hb Hw. unfold try_except.
  destruct (Hm b1 b2 w1 w2 Hb Hw) as (R & Hb' & Hw').
  destruct (m1 b1 w1) as [[r1 b1'] w1'], (m2 b2 w2) as [[r2 b2'] w2'].
  cbn [fst snd] in *. subst r2.
  destruct r1; [cbn; auto | apply Hh; assumption | cbn; auto].
Qed.

(** A method that neither reads nor writes the counter. *)
Ltac plain_call :=
  let Hb := fresh in let Hw := fresh in
  intros ? ? ? ? Hb Hw;
  destruct Hb as (? & ? & ? & ?), Hw as (? & ? & ? & ? & ?);
  unfold same_builder, same_world; cbn in *;
  rewrite ?map_app; cbn;
  repeat match goal with E : _ = _ |- _ => rewrite E end;
  auto 12.

Lemma agree_ret {A} (a : A) : agree (S := S) (ret a) (ret a).
Proof. unfold ret. plain_call. Qed.

Lemma agree_raise {A} (e : exn) : agree (S := S) (A := A) (raise e) (raise e).
Proof. unfold raise. plain_call. Qed.

Lemma agree_say st txt : agree (S := S) (say st txt) (say st txt).
Proof. unfold say. plain_call. Qed.

Lemma agree_log l msg : agree (S := S) (log l msg) (log l msg).
Proof. unfold log. plain_call. Qed.

Lemma agree_get_config : agree (S := S) get_config get_config.
Proof. unfold get_config. plain_call. Qed.

Lemma agree_now : agree now now.
Proof. unfold now. plain_call. Qed.

Lemma agree_exists p : agree (exists_ p) (exists_ p).
Proof.
  intros b1 b2 w1 w2 Hb Hw. unfold exists_.
  destruct Hw as (E & Hw). rewrite E.
  destruct (os_exists p (os_state w2)); cbn [fst snd];
    (split; [reflexivity|]); (split; [exact Hb|]);
    unfold same_world; auto.
Qed.

Lemma agree_update_progress step :
  agree (S := S) (update_progress step) (update_progress step).
Proof. unfold update_progress. plain_call. Qed.

Lemma agree_input st prompt : agree (S := S) (input st prompt) (input st prompt).
Proof.
  intros b1 b2 w1 w2 Hb (E1 & E2 & E3 & E4 & E5). unfold input.
  cbn [stdin add_stdout]. rewrite E2.
  destruct (stdin w2) eqn:In2; unfold same_world; cbn; rewrite ?map_app, ?E5;
    repeat split; try apply Hb; auto; congruence.
Qed.

Lemma agree_perform c : agree (perform c) (perform c).
Proof.
  intros b1 b2 w1 w2 Hb (E1 & E2 & E3 & E4 & E5). unfold perform.
  rewrite E1. destruct (os_run c (os_state w2)) as [[e|] s'];
    unfold same_world; cbn; rewrite ?E4;
    repeat split; try apply Hb; auto.
Qed.

Lemma agree_get_self {B} (k1 k2 : builder -> Method S B) :
  (forall s1 s2, same_builder s1 s2 -> agree (k1 s1) (k2 s2)) ->
  agree (bind get_self k1) (bind get_self k2).
Proof.
  intros Hk b1 b2 w1 w2 Hb Hw. unfold bind, get_self. now apply Hk.
Qed.

Ltac agree_steps :=
  cbv zeta;
  repeat first
    [ apply agree_bind; [|intros]
    | apply agree_try_except; [|intros]
    | apply agree_ret | apply agree_raise | apply agree_say | apply agree_log
    | apply agree_get_config | apply agree_now | apply agree_exists
    | apply agree_update_progress | apply agree_input | apply agree_perform
    | match goal with
      | |- agree (if ?c then _ else _) _ => destruct c
      | |- agree (match ?l with [] => _ | _ :: _ => _ end) _ => destruct l
      end ].

Lemma agree_build_steps pkg : agree (build_steps pkg) (build_steps pkg).
Proof.
  unfold build_steps, create_debian_structure, create_package_files,
    create_desktop_entry, create_menu_structure, create_build_script,
    create_readme, save_config.
  agree_steps.
Qed.

Lemma agree_build_package : agree build_package build_package.
Proof.
  unfold build_package. do 3 (apply agree_bind; [apply agree_say | intros _]).
  apply agree_get_self. intros s1 s2 Hs.
  assert (E : package_path_of s1 = package_path_of s2).
  { unfold package_path_of. destruct Hs as (-> & -> & _). reflexivity. }
  cbv zeta. rewrite E.
  repeat first [ apply agree_build_steps | progress agree_steps ].
Qed.

(** X20: whatever the counter is set to before it, [build_package] ends the
    same way, having made the same calls, left the same record, log and
    input, and printed the same lines but for the counts in the progress
    reports. *)
Lemma build_package_ignores_counter (b : builder) (n : nat) (w : world S) :
  let r := build_package b w in
  let r' := build_package (with_steps_completed n b) w in
  fst (fst r) = fst (fst r')
  /\ self_config (snd (fst r)) = self_config (snd (fst r'))
  /\ trace (snd r) = trace (snd r')
  /\ os_state (snd r) = os_state (snd r')
  /\ logfile (snd r) = logfile (snd r')
  /\ stdin (snd r) = stdin (snd r')
  /\ map forget_count (stdout (snd r)) = map forget_count (stdout (snd r')).
Proof.
  cbv zeta.
  pose proof agree_build_package as A. unfold agree in A.
  destruct (A b (with_steps_completed n b) w w)
    as (R & (C & _) & (E1 & E2 & E3 & E4 & E5)).
  - unfold same_builder. cbn. auto.
  - unfold same_world. auto.
  - auto 8.
Qed.

End Counter.

(** * The version pattern *)

Lemma drop_digits_append (a s : string) :
  all isdecimal a = true ->
  match s with String y _ => isdecimal y | EmptyString => false end = false ->
  drop_digits (a ++ s) = s.
Proof.
  intros A N. induction a as [|x a IH]; cbn [append].
  - destruct s as [|y s]; [reflexivity|]. cbn [drop_digits]. now rewrite N.
  - cbn [all] in A. apply andb_true_iff in A as [Hx A].
    cbn [drop_digits]. rewrite Hx. auto.
Qed.

Lemma drop_digits_split (s : string) :
  exists a, s = a ++ drop_digits s /\ all isdecimal a = true.
Proof.
  induction s as [|x s (a & E & A)]; cbn [drop_digits].
  - now exists "".
  - destruct (isdecimal x) eqn:Hx.
    + exists (String x a). cbn. now rewrite Hx, A, <- E.
    + now exists "".
Qed.

Lemma digits1_some (s r : string) :
  digits1 s = Some r -> exists a, digits a /\ s = a ++ r.
Proof.
  destruct s as [|x s]; cbn [digits1]; [discriminate|].
  destruct (isdecimal x) eqn:Hx; [|discriminate].
  intros E. injection E as <-. destruct (drop_digits_split s) as (a & E & A).
  exists (String x a). repeat split; [discriminate | cbn; now rewrite Hx | ].
  cbn. now rewrite <- E.
Qed.

Lemma digits1_dot (a s : string) :
  digits a -> digits1 (a ++ String "."%char s) = Some (String "."%char s).
Proof.
  intros [N A]. destruct a as [|x a]; [contradiction|].
  cbn [all] in A. apply andb_true_iff in A as [Hx A].
  cbn [append digits1]. rewrite Hx. f_equal.
  apply (drop_digits_append a (String "."%char s) A). reflexivity.
Qed.

Lemma digits1_any (a s : string) : digits a -> digits1 (a ++ s) <> None.
Proof.
  intros [N A]. destruct a as [|x a]; [contradiction|].
  cbn [all] in A. apply andb_true_iff in A as [Hx _].
  cbn [append digits1]. rewrite Hx. discriminate.
Qed.

Lemma dot_some (s r : string) : dot s = Some r -> s = "." ++ r.
Proof.
  destruct s as [|x s]; cbn [dot]; [discriminate|].
  destruct x as [[] [] [] [] [] [] [] []]; try discriminate.
  intros E. now injection E as <-.
Qed.

Lemma matches_version_shape (v : string) :
  matches_version v = true <-> version_shape v.
Proof.
  unfold matches_version, version_shape. split.
  - destruct (digits1 v) as [s1|] eqn:E1; [|discriminate].
    destruct (dot s1) as [s2|] eqn:D1; [|discriminate].
    destruct (digits1 s2) as [s3|] eqn:E2; [|discriminate].
    destruct (dot s3) as [s4|] eqn:D2; [|discriminate].
    destruct (digits1 s4) as [s5|] eqn:E3; [|discriminate].
    intros _.
    apply digits1_some in E1 as (a & Ha & ->), E2 as (b & Hb & ->),
      E3 as (c & Hc & ->).
    apply dot_some in D1 as ->. apply dot_some in D2 as ->.
    exists a, b, c, s5. auto.
  - intros (a & b & c & rest & -> & Ha & Hb & Hc).
    change (a ++ "." ++ b ++ "." ++ c ++ rest)
      with (a ++ String "."%char (b ++ String "."%char (c ++ rest))).
    rewrite (digits1_dot _ Ha). cbn [dot].
    rewrite (digits1_dot _ Hb). cbn [dot].
    destruct (digits1 (c ++ rest)) eqn:E; [reflexivity|].
    now apply digits1_any in E.
Qed.

(** X1: [validate_version] returns [True] exactly on the strings that start
    with three non-empty runs of decimal digits separated by two dots,
    whatever follows them, and raises [ValidationError] on every other
    string. *)
Theorem validate_version_spec (v : string) :
  (validate_version v = Ok (VBool true) <-> version_shape v)
  /\ (~ version_shape v ->
      exists msg, validate_version v = Raise (ValidationError msg)).
Proof.
  unfold validate_version. destruct (is_empty v) eqn:E.
  - apply is_empty_true in E. subst v.
    assert (N : ~ version_shape "").
    { intros (a & b & c & rest & E & (Na & _) & _).
      destruct a; [contradiction | discriminate]. }
    split; [split; [discriminate | contradiction] | eauto].
  - destruct (matches_version v) eqn:M; cbn [negb].
    + apply matches_version_shape in M. split; [tauto | contradiction].
    + assert (N : ~ version_shape v).
      { intros H. apply matches_version_shape in H. congruence. }
      split; [split; [discriminate | contradiction] | eauto].
Qed.

(** * The e-mail pattern *)

Lemma cut_first_some c s a b :
  cut_first c s = Some (a, b) -> s = a ++ String c b.
Proof.
  revert a. induction s as [|d s IH]; intros a; cbn [cut_first]; [discriminate|].
  destruct (Ascii.eqb_spec d c) as [-> | N].
  - intros E. injection E as <- <-. reflexivity.
  - destruct (cut_first c s) as [[a' b']|]; [|discriminate].
    intros E. injection E as <- <-. cbn. now rewrite (IH a' eq_refl).
Qed.

Lemma cut_first_append c a b :
  occurs c a = false -> cut_first c (a ++ String c b) = Some (a, b).
Proof.
  induction a as [|d a IH]; cbn [append cut_first occurs]; intros H.
  - now rewrite Ascii.eqb_refl.
  - apply orb_false_iff in H as [N H]. rewrite Ascii.eqb_sym, N, (IH H).
    reflexivity.
Qed.

Lemma cut_last_some c s a b :
  cut_last c s = Some (a, b) -> s = a ++ String c b.
Proof.
  revert a. induction s as [|d s IH]; intros a; cbn [cut_last]; [discriminate|].
  destruct (cut_last c s) as [[a' b']|].
  - intros E. injection E as <- <-. cbn. now rewrite (IH a' eq_refl).
  - destruct (Ascii.eqb_spec d c) as [-> | N]; [|discriminate].
    intros E. injection E as <- <-. reflexivity.
Qed.

Lemma cut_last_none c s : occurs c s = false -> cut_last c s = None.
Proof.
  induction s as [|d s IH]; cbn [cut_last occurs]; [reflexivity|].
  intros H. apply orb_false_iff in H as [N H]. rewrite (IH H).
  now rewrite Ascii.eqb_sym, N.
Qed.

Lemma cut_last_append c a b :
  occurs c b = false -> cut_last c (a ++ String c b) = Some (a, b).
Proof.
  intros H. induction a as [|d a IH]; cbn [append cut_last].
  - now rewrite (cut_last_none _ _ H), Ascii.eqb_refl.
  - now rewrite IH.
Qed.

Lemma chomp_cases s : s = chomp s \/ s = chomp s ++ nl.
Proof.
  induction s as [|c s IH]; [now left|].
  destruct s as [|d s].
  - cbn [chomp]. destruct (Ascii.eqb_spec c "010"%char) as [-> | N];
      [now right | now left].
  - change (chomp (String c (String d s))) with (String c (chomp (String d s))).
    destruct IH as [E | E]; [left | right]; cbn [append]; now rewrite <- E.
Qed.

Lemma chomp_append_nl s : chomp (s ++ nl) = s.
Proof.
  induction s as [|c s IH]; [reflexivity|].
  cbn [append]. destruct (s ++ nl) eqn:E.
  - destruct s; discriminate.
  - change (String c (chomp (String a s0)) = String c s). now rewrite IH.
Qed.

Lemma all_occurs p c s : all p s = true -> p c = false -> occurs c s = false.
Proof.
  intros A N. induction s as [|d s IH]; [reflexivity|].
  cbn [all occurs] in *. apply andb_true_iff in A as [Hd A].
  rewrite (IH A), orb_false_r. destruct (Ascii.eqb_spec c d); congruence.
Qed.

Lemma matches_domain_shape (s : string) :
  matches_domain s = true <->
  exists host tld,
    s = host ++ "." ++ tld
    /\ host <> "" /\ all is_domain_char host = true
    /\ 2 <= String.length tld /\ all is_ascii_letter tld = true.
Proof.
  unfold matches_domain. split.
  - destruct (cut_last "."%char s) as [[host tld]|] eqn:C; [|discriminate].
    apply cut_last_some in C. intros H.
    apply andb_true_iff in H as [H L]. apply andb_true_iff in H as [H T].
    apply andb_true_iff in H as [E D]. apply Nat.leb_le in T.
    exists host, tld. repeat split; auto.
    intros ->. discriminate.
  - intros (host & tld & -> & N & D & T & L).
    change (host ++ "." ++ tld) with (host ++ String "."%char tld).
    rewrite cut_last_append by (now apply (all_occurs _ _ _ L)).
    rewrite D, L. apply Nat.leb_le in T. rewrite T.
    destruct host; [contradiction | reflexivity].
Qed.

Lemma append_nil_r (s : string) : s ++ "" = s.
Proof. induction s as [|c s IH]; cbn; [reflexivity | now rewrite IH]. Qed.

Lemma matches_email_shape (s : string) : matches_email s = true <-> email_shape s.
Proof.
  unfold matches_email, email_shape. split.
  - destruct (cut_first "@"%char s) as [[local rest]|] eqn:C; [|discriminate].
    apply cut_first_some in C. intros H.
    apply andb_true_iff in H as [H M]. apply andb_true_iff in H as [E A].
    assert (N : local <> "") by (intros ->; discriminate).
    apply orb_true_iff in M as [M | M];
      apply matches_domain_shape in M as (host & tld & R & Hh & D & T & L).
    + exists local, host, tld, "". rewrite append_nil_r, C, R.
      repeat split; auto.
    + exists local, host, tld, (if String.eqb rest (chomp rest) then "" else nl).
      destruct (chomp_cases rest) as [Q | Q].
      * rewrite <- Q, String.eqb_refl, append_nil_r, C, Q, R.
        repeat split; auto.
      * destruct (String.eqb_spec rest (chomp rest)) as [Q' | _].
        -- rewrite append_nil_r, C, Q', R. repeat split; auto.
        -- rewrite C, Q, R, !append_assoc. repeat split; auto.
  - intros (local & host & tld & tail & -> & Tl & N & A & Hh & D & T & L).
    change (local ++ "@" ++ host ++ "." ++ tld ++ tail)
      with (local ++ String "@"%char (host ++ "." ++ tld ++ tail)).
    rewrite cut_first_append by (now apply (all_occurs _ _ _ A)).
    rewrite A. destruct local; [contradiction|]. cbn [is_empty negb andb].
    assert (M : matches_domain (host ++ "." ++ tld) = true).
    { apply matches_domain_shape. exists host, tld. auto. }
    destruct Tl as [-> | ->].
    + rewrite append_nil_r, M. reflexivity.
    + replace (host ++ "." ++ tld ++ nl) with ((host ++ "." ++ tld) ++ nl)
        by now rewrite !append_assoc.
      rewrite chomp_append_nl, M. apply orb_true_r.
Qed.

(** X2: [validate_email] returns [True] on the empty string and on the
    strings made of a non-empty local part of letters, digits and [._%+-],
    an [@], a non-empty host of letters, digits, dots and hyphens, a dot and
    at least two letters, with at most one newline after them; on every
    other string it raises [ValidationError]. *)
Theorem validate_email_spec (s : string) :
  (validate_email s = Ok (VBool true) <-> s = "" \/ email_shape s)
  /\ (~ (s = "" \/ email_shape s) ->
      validate_email s = Raise (ValidationError "Invalid email format")).
Proof.
  unfold validate_email. destruct (is_empty s) eqn:E.
  - apply is_empty_true in E. split; [tauto | intros H; exfalso; auto].
  - assert (N : s <> "") by (intros ->; discriminate).
    destruct (matches_email s) eqn:M; cbn [negb].
    + apply matches_email_shape in M. split; [tauto | intros H; exfalso; auto].
    + assert (~ email_shape s).
      { intros H. apply matches_email_shape in H. congruence. }
      split; [split; [discriminate | tauto] | reflexivity].
Qed.

(** * Comma-separated answers *)

Lemma split_no_sep sep s x : In x (split sep s) -> occurs sep x = false.
Proof.
  revert x. induction s as [|c s IH]; intros x; cbn [split].
  - intros [<- | []]. reflexivity.
  - destruct (Ascii.eqb_spec c sep) as [-> | N].
    + intros [<- | H]; [reflexivity | auto].
    + destruct (split sep s) as [|p ps] eqn:E.
      * intros [<- | []]. cbn.
        destruct (Ascii.eqb_spec sep c); [congruence | reflexivity].
      * intros [<- | H]; [|apply IH; now right].
        cbn [occurs]. rewrite (IH p (or_introl eq_refl)), orb_false_r.
        destruct (Ascii.eqb_spec sep c); [congruence | reflexivity].
Qed.

Lemma occurs_append c a b : occurs c (a ++ b) = occurs c a || occurs c b.
Proof.
  induction a as [|d a IH]; cbn [append occurs]; [reflexivity|].
  now rewrite IH, orb_assoc.
Qed.

Lemma occurs_strip c s : occurs c s = false -> occurs c (strip s) = false.
Proof.
  intros H. destruct (strip_split s) as (a & b & E & _).
  rewrite E, !occurs_append in H.
  apply orb_false_iff in H as [_ H]. now apply orb_false_iff in H as [H _].
Qed.

(** X3: every entry of a list read from a comma-separated answer (the tools
    and the dependencies of [get_user_input]) is non-empty, neither starts
    nor ends with white space and holds no comma; an empty answer gives the
    empty list. *)
Theorem comma_list_entries (s t : string) :
  (In t (comma_list s) ->
   t <> "" /\ first_is_space t = false /\ last_is_space t = false
   /\ occurs ","%char t = false)
  /\ comma_list "" = [].
Proof.
  split; [|reflexivity].
  unfold comma_list. destruct (is_empty s); [contradiction|].
  intros H. apply filter_In in H as [H N]. apply in_map_iff in H as (x & <- & H).
  repeat split.
  - intros E. rewrite E in N. discriminate.
  - apply strip_first.
  - apply strip_last.
  - apply occurs_strip. now apply (split_no_sep ","%char s).
Qed.

(** * What the prompts return *)

Lemma sanitize_input_strip (s : string) :
  sanitize_input s = strip (keep (fun c => negb (is_control c)) s).
Proof.
  unfold sanitize_input. destruct s; [reflexivity|].
  cbn [is_empty]. now rewrite remove_dangerous.
Qed.

Lemma sanitized_intro (t : string) :
  all (fun c => negb (is_control c)) t = true ->
  first_is_space t = false -> last_is_space t = false -> sanitized t.
Proof.
  intros A F L. unfold sanitized.
  rewrite sanitize_input_strip, (keep_all _ _ A). now apply strip_id.
Qed.

Lemma sanitize_input_clean (s : string) :
  all (fun c => negb (is_control c)) (sanitize_input s) = true.
Proof. rewrite sanitize_input_strip. apply all_strip, all_keep. Qed.

Lemma sanitized_sanitize_input (s : string) : sanitized (sanitize_input s).
Proof.
  apply sanitized_intro; [apply sanitize_input_clean | |];
    rewrite sanitize_input_strip; [apply strip_first | apply strip_last].
Qed.

Lemma all_split p sep s x : all p s = true -> In x (split sep s) -> all p x = true.
Proof.
  revert x. induction s as [|c s IH]; intros x A; cbn [split].
  - intros [<- | []]. reflexivity.
  - cbn [all] in A. apply andb_true_iff in A as [Hc A].
    destruct (Ascii.eqb c sep).
    + intros [<- | H]; [reflexivity | auto].
    + destruct (split sep s) as [|q qs] eqn:E.
      * intros [<- | []]. cbn. now rewrite Hc.
      * intros [<- | H]; [|apply IH; [assumption | now right]].
        cbn [all]. rewrite Hc. apply IH; [assumption | now left].
Qed.

Lemma sanitized_comma_list (s : string) :
  Forall sanitized (comma_list (sanitize_input s)).
Proof.
  apply Forall_forall. intros t H. unfold comma_list in H.
  destruct (is_empty (sanitize_input s)); [contradiction|].
  apply filter_In in H as [H _]. apply in_map_iff in H as (x & <- & H).
  apply sanitized_intro; [|apply strip_first | apply strip_last].
  apply all_strip. apply (all_split _ ","%char (sanitize_input s));
    [apply sanitize_input_clean | exact H].
Qed.

Lemma ask_valid_ok prompt read validate lines x rest o :
  ask_valid prompt read validate lines = (Ok x, rest, o) ->
  (exists v, validate x = Ok v) /\ exists l, x = read l.
Proof.
  revert o. induction lines as [|l lines IH]; intros o; cbn [ask_valid];
    [discriminate|].
  destruct (validate (read l)) as [v | e |] eqn:V.
  - intros E. injection E as <- <- <-. eauto.
  - destruct e; try discriminate.
    destruct (ask_valid prompt read validate lines) as [[r rest'] o'].
    intros E. injection E as -> -> <-. now apply (IH o').
  - discriminate.
Qed.

Lemma validator_returns_True :
  (forall x v, validate_package_name x = Ok v -> v = VBool true)
  /\ (forall x v, validate_version x = Ok v -> v = VBool true)
  /\ (forall x v, validate_email x = Ok v -> v = VBool true).
Proof.
  repeat split; intros x v; unfold validate_package_name, validate_version,
    validate_email;
    repeat match goal with
    | |- context [if ?c then _ else _] => destruct c
    end; congruence.
Qed.

Section Answers.

Context {S : Type}.

Lemma run_console_inv {A} (f : console A) b (w : world S) a b' w' :
  run_console f b w = (Ok a, b', w') ->
  b' = b /\ exists rest o, f (stdin w) = (Ok a, rest, o).
Proof.
  unfold run_console. destruct (f (stdin w)) as [[r rest] o].
  intros H. injection H as -> <- <-. eauto.
Qed.

End Answers.

(** A prompt loop: the builder stays, and what the loop returned is kept. *)
Ltac ask_loop H F :=
  let a := fresh "a" in let b1 := fresh "b" in let w1 := fresh "w" in
  let H1 := fresh "H" in
  apply bind_inv in H; destruct H as (a & b1 & w1 & H1 & H);
  apply run_console_inv in H1; destruct H1 as (-> & ? & ? & F).

Section Answers_facts.

Context {S : Type}.

(** The questions for a regular package change the tools and the desktop
    fields only; what they store is sanitized. *)
Lemma ask_regular_frame b (w : world S) b' w' :
  ask_regular b w = (Ok tt, b', w') ->
  let c := self_config b in
  let c' := self_config b' in
  (name c' = name c /\ version c' = version c
   /\ description c' = description c
   /\ long_description c' = long_description c)
  /\ Forall sanitized (tools c')
  /\ (create_desktop c' = true ->
      sanitized (desktop_name c') /\ sanitized (desktop_comment c')
      /\ sanitized (desktop_icon c') /\ sanitized (desktop_categories c')).
Proof.
  unfold ask_regular. intros H.
  do 3 step H. ask H. do 4 step H. ask H. do 2 step H.
  cbn [self_config with_config] in H.
  match type of H with
  | (if create_desktop ?c then _ else _) _ _ = _ =>
      destruct (create_desktop c) eqn:D
  end.
  - ask H. step H. ask H. step H. ask H. step H. ask H. last_step H.
    cbv zeta. fields. repeat split; auto using sanitized_sanitize_input.
    apply sanitized_comma_list.
  - last_step H. cbv zeta. fields. cbn [create_desktop set_create_desktop] in D.
    repeat split; auto; try congruence. apply sanitized_comma_list.
Qed.

End Answers_facts.

Section Record_returned.

Context {S : Type}.

Lemma or_else_sanitized (x d : string) :
  sanitized x -> sanitized d -> sanitized (or_else x d).
Proof. unfold or_else. now destruct (is_empty x). Qed.

(** The record that [get_user_input] returns: the name, the version and the
    e-mail address are answers that their validators accepted, and every
    text in it is a sanitized answer. *)
Lemma get_user_input_record b (w : world S) c b' w' :
  get_user_input b w = (Ok c, b', w') ->
  (validate_package_name (name c) = Ok (VBool true)
   /\ validate_version (version c) = Ok (VBool true)
   /\ validate_email (email c) = Ok (VBool true))
  /\ (sanitized (name c) /\ sanitized (version c) /\ sanitized (description c)
      /\ sanitized (long_description c) /\ sanitized (menu_section c)
      /\ sanitized (maintainer c) /\ sanitized (email c))
  /\ (Forall sanitized (tools c) /\ Forall sanitized (dependencies c))
  /\ (create_desktop c = true ->
      sanitized (desktop_name c) /\ sanitized (desktop_comment c)
      /\ sanitized (desktop_icon c) /\ sanitized (desktop_categories c)).
Proof.
  unfold get_user_input. intros H.
  do 5 step H. ask_loop H Fname. step H. ask_loop H Fversion. step H.
  ask H. step H. ask H.
  do 2 step H. do 5 step H. ask H. do 2 step H.
  apply bind_inv in H as ([] & ? & ? & B & H).
  do 3 step H. ask H. step H. do 3 step H. ask H. step H. do 3 step H.
  ask H. step H. ask_loop H Femail. step H. last_step H.
  apply ask_valid_ok in Fname as ((vn & N) & (ln & ->)).
  apply ask_valid_ok in Fversion as ((vv & V) & (lv & ->)).
  apply ask_valid_ok in Femail as ((ve & E) & (le & ->)).
  destruct validator_returns_True as (TN & TV & TE).
  rewrite (TN _ _ N) in N. rewrite (TV _ _ V) in V. rewrite (TE _ _ E) in E.
  cbn [self_config with_config] in *.
  match type of B with
  | (if negb (is_metapackage ?c) then _ else _) _ _ = _ =>
      destruct (is_metapackage c) eqn:Meta; cbn [negb] in B
  end.
  - step B. last_step B. fields.
    repeat split; auto using sanitized_sanitize_input, or_else_sanitized,
      sanitized_comma_list; discriminate.
  - apply ask_regular_frame in B. cbv zeta in B.
    destruct B as ((Bn & Bv & Bd & Bl) & Bt & Bk). fields.
    rewrite Bn, Bv, Bd, Bl.
    repeat split; auto using sanitized_sanitize_input, or_else_sanitized,
      sanitized_comma_list; now apply Bk.
Qed.

End Record_returned.

(** X4: in a record that [get_user_input] returns, the package name, the
    version and the maintainer's e-mail address pass [validate_package_name],
    [validate_version] and [validate_email]: each loop ends only on an
    answer that its validator accepted. *)
Theorem get_user_input_validated {S : Type}
    (b : builder) (w : world S) (c : PackageConfig) (b' : builder) (w' : world S) :
  get_user_input b w = (Ok c, b', w') ->
  validate_package_name (name c) = Ok (VBool true)
  /\ validate_version (version c) = Ok (VBool true)
  /\ validate_email (email c) = Ok (VBool true).
Proof. intros H. apply (get_user_input_record _ _ H). Qed.

(** A run of [get_user_input_validated] in which the first answer to the
    version prompt is rejected. *)
Lemma get_user_input_validated_witness :
  let b := builder_of default_config in
  let w := MemFS.world_of MemFS.empty desktop_answers in
  let r := get_user_input b w in
  exists c, r = (Ok c, snd (fst r), snd r)
            /\ version c = "2.0.1"
            /\ validate_package_name (name c) = Ok (VBool true)
            /\ validate_version (version c) = Ok (VBool true)
            /\ validate_email (email c) = Ok (VBool true).
Proof.
  cbv zeta.
  set (b := builder_of default_config).
  set (w := MemFS.world_of MemFS.empty desktop_answers).
  eexists.
  assert (H : get_user_input b w
              = (Ok (self_config (snd (fst (get_user_input b w)))),
                 snd (fst (get_user_input b w)), snd (get_user_input b w)))
    by (vm_compute; reflexivity).
  split; [exact H|].
  split; [vm_compute; reflexivity|].
  exact (get_user_input_validated b w H).
Defined.



(** * The conversation of [get_user_input] *)

Lemma triple_eta {A B C} (x : A * B * C) : x = (fst (fst x), snd (fst x), snd x).
Proof. now destruct x as [[a b] c]. Qed.

Lemma validator_raises_ValidationError :
  forall validate,
    In validate [validate_package_name; validate_version; validate_email] ->
    forall x, match validate x with
              | Ok _ | Raise (ValidationError _) => True
              | _ => False
              end.
Proof.
  intros validate [<- | [<- | [<- | []]]] x;
    unfold validate_package_name, validate_version, validate_email;
    repeat match goal with
    | |- context [if ?c then _ else _] => destruct c
    end; exact I.
Qed.

Section Conversation.

Context {S : Type}.

Lemma talked_refl (w : world S) : talked w w.
Proof.
  repeat split; [now exists 0 | exists []; now rewrite app_nil_r].
Qed.

Lemma talked_trans (w1 w2 w3 : world S) :
  talked w1 w2 -> talked w2 w3 -> talked w1 w3.
Proof.
  intros (A1 & A2 & A3 & (k1 & A4) & (o1 & A5))
         (B1 & B2 & B3 & (k2 & B4) & (o2 & B5)).
  repeat split; try congruence.
  - exists (k1 + k2). rewrite B4, A4, skipn_skipn. f_equal. apply Nat.add_comm.
  - exists (o1 ++ o2)%list. now rewrite B5, A5, app_assoc.
Qed.

Lemma talks_ret {A} (a : A) : talks (ret (S := S) a).
Proof.
  intros b w r b' w' H. injection H as <- <- <-.
  split; [apply talked_refl | exact I].
Qed.

Lemma talks_bind {A B} (m : Method S A) (k : A -> Method S B) :
  talks m -> (forall a, talks (k a)) -> talks (bind m k).
Proof.
  intros Hm Hk b w r b' w'. unfold bind.
  destruct (m b w) as [[[a | e |] b1] w1] eqn:E; intros H;
    destruct (Hm _ _ _ _ _ E) as (T & En).
  - destruct (Hk a _ _ _ _ _ H) as (T' & En').
    split; [exact (talked_trans T T') | exact En'].
  - injection H as <- <- <-. now split.
  - contradiction.
Qed.

Lemma talks_say st txt : talks (say (S := S) st txt).
Proof.
  intros b w r b' w' H. injection H as <- <- <-.
  split; [|exact I]. repeat split; [now exists 0 | now eexists].
Qed.

Lemma talks_input st prompt : talks (input (S := S) st prompt).
Proof.
  intros b w r b' w'. unfold input. cbn [stdin add_stdout].
  destruct (stdin w) as [|l rest] eqn:E; intros H; injection H as <- <- <-;
    cbn [ended stdin os_state trace logfile stdout add_stdout set_stdin].
  - repeat split; auto; [exists 0; now rewrite E | now eexists].
  - repeat split; [exists 1; now rewrite E | now eexists].
Qed.

Lemma talks_assign f : talks (assign (S := S) f).
Proof.
  intros b w r b' w' H. injection H as <- <- <-.
  split; [apply talked_refl | exact I].
Qed.

Lemma talks_get_config : talks (get_config (S := S)).
Proof.
  intros b w r b' w' H. injection H as <- <- <-.
  split; [apply talked_refl | exact I].
Qed.

Lemma talks_run_console {A} (f : console A) :
  well_behaved f -> talks (run_console (S := S) f).
Proof.
  intros Hf b w r b' w'. unfold run_console.
  destruct (f (stdin w)) as [[r0 rest] o] eqn:E.
  destruct (Hf _ _ _ _ E) as ((k & K) & En).
  intros H. injection H as <- <- <-.
  cbn [stdin os_state trace logfile stdout add_stdout set_stdin].
  split.
  - repeat split; [now exists k | now exists o].
  - destruct r0; cbn [ended stdin add_stdout set_stdin]; auto.
Qed.

Lemma ask_valid_well_behaved prompt read validate :
  (forall x, match validate x with
             | Ok _ | Raise (ValidationError _) => True
             | _ => False
             end) ->
  well_behaved (ask_valid prompt read validate).
Proof.
  intros V lines. induction lines as [|l lines IH]; intros r rest o;
    cbn [ask_valid].
  - intros H. injection H as <- <- <-. split; [now exists 0 | auto].
  - specialize (V (read l)).
    destruct (validate (read l)) as [v | [] |]; try contradiction.
    + intros H. injection H as <- <- <-. split; [now exists 1 | exact I].
    + destruct (ask_valid prompt read validate lines) as [[r1 rest1] o1].
      intros H. injection H as <- <- <-.
      destruct (IH _ _ _ eq_refl) as ((k & K) & En).
      split; [now exists (Datatypes.S k) | exact En].
Qed.

Lemma ask_package_type_well_behaved : well_behaved ask_package_type.
Proof.
  intros lines. induction lines as [|l lines IH]; intros r rest o;
    cbn [ask_package_type].
  - intros H. injection H as <- <- <-. split; [now exists 0 | auto].
  - destruct (String.eqb (strip l) "1" || String.eqb (strip l) "2").
    + intros H. injection H as <- <- <-. split; [now exists 1 | exact I].
    + destruct (ask_package_type lines) as [[r1 rest1] o1].
      intros H. injection H as <- <- <-.
      destruct (IH _ _ _ eq_refl) as ((k & K) & En).
      split; [now exists (Datatypes.S k) | exact En].
Qed.

End Conversation.

(** Goes through a method made of prompts, assignments and prints. *)
Ltac conversation :=
  repeat first
    [ apply talks_say | apply talks_input | apply talks_assign
    | apply talks_get_config | apply talks_ret
    | apply talks_run_console;
        first [ apply ask_package_type_well_behaved
              | apply ask_valid_well_behaved;
                apply validator_raises_ValidationError; cbn [In]; tauto ]
    | apply talks_bind; [|intros ?]
    | match goal with
      | |- talks (if ?c then _ else _) => destruct c
      end ].

Section Conversation_facts.

Context {S : Type}.

Lemma talks_ask_regular : talks (ask_regular (S := S)).
Proof. unfold ask_regular. conversation. Qed.

Lemma talks_get_user_input : talks (get_user_input (S := S)).
Proof. unfold get_user_input. conversation. Qed.

End Conversation_facts.



(** * Loading a configuration file *)

Lemma VStrs_typed (l : list string) : as_strs (VStrs l) = Some l.
Proof. apply as_strs_VStrs. Qed.

(** [setattr] changes the field it names, and no other. *)
Lemma setattr_frame (c c' : PackageConfig) (k0 : string) (v : pyval) :
  setattr_config c k0 v = Some (Some c') ->
  forall k, k <> k0 -> get_field k c' = get_field k c.
Proof.
  unfold setattr_config. intros H k N.
  repeat match type of H with
  | (if String.eqb k0 ?f then _ else _) = _ =>
      destruct (String.eqb_spec k0 f) as [-> | ?];
      [ match type of H with
        | Some (option_map _ ?x) = _ =>
            destruct x; cbn [option_map] in H; [|discriminate];
            injection H as <-; unfold get_field;
            repeat match goal with
            | |- context [String.eqb k ?g] =>
                destruct (String.eqb_spec k g) as [-> | ?];
                [first [reflexivity | congruence]|]
            end; reflexivity
        end
      | ]
  end.
  destruct (prefix "__" k0); discriminate.
Qed.

Section Loading_facts.

Context {S : Type} {os : OS S}.

(** One entry of the mapping: the world stays; if the key is a string and
    the turn ends well, the fields under other names stay. *)
Lemma load_item_frame key value b (w : world S) r b' w' :
  load_item key value b w = (r, b', w') ->
  w' = w
  /\ (r = Ok tt ->
      forall k, (forall k0, key = VStr k0 -> k <> k0) ->
                get_field k (self_config b') = get_field k (self_config b)).
Proof.
  unfold load_item. destruct key as [| | |k0| |];
    try (intros H; injection H as <- <- <-; split; [reflexivity | discriminate]).
  unfold bind, get_config.
  destruct (setattr_config (self_config b) k0 value) as [[c'|]|] eqn:E;
    intros H; injection H as <- <- <-; split; try reflexivity;
    try discriminate.
  - intros _ k N. cbn [self_config with_config].
    apply (@setattr_frame _ _ _ _ E). now apply N.
Qed.

Lemma load_items_frame items b (w : world S) r b' w' :
  load_items items b w = (r, b', w') ->
  w' = w
  /\ (r = Ok tt ->
      forall k, has_key k items = false ->
                get_field k (self_config b') = get_field k (self_config b)).
Proof.
  revert b w. induction items as [|[key value] items IH]; intros b w;
    cbn [load_items].
  - intros H. injection H as <- <- <-. auto.
  - unfold bind at 1.
    destruct (load_item key value b w) as [[[[] | e |] b1] w1] eqn:E;
      destruct (load_item_frame _ _ _ _ E) as (-> & F1); intros H.
    + destruct (IH _ _ H) as (-> & F2). split; [reflexivity|].
      intros -> k K. cbn [has_key existsb fst] in K.
      apply orb_false_iff in K as (K1 & K2).
      rewrite (F2 eq_refl k K2). apply (F1 eq_refl).
      intros k0 ->. intros ->. now rewrite String.eqb_refl in K1.
    + injection H as <- <- <-. split; [reflexivity | discriminate].
    + injection H as <- <- <-. split; [reflexivity | discriminate].
Qed.

Lemma read_config_quiet p b (w : world S) r b' w' :
  read_config p b w = (r, b', w') -> b' = b /\ w' = w.
Proof.
  unfold read_config.
  repeat match goal with
  | |- context [match ?x with _ => _ end] => destruct x
  end; intros H; injection H as <- <- <-; auto.
Qed.

Lemma items_of_quiet data b (w : world S) r b' w' :
  items_of data b w = (r, b', w') -> b' = b /\ w' = w.
Proof.
  destruct data; intros H; injection H as <- <- <-; auto.
Qed.

(** The body of the [try] block: the world is the one before, with one
    [INFO] record more if the body ends well. *)
Lemma load_body config_file b (w : world S) r b' w' :
  (data <- read_config (Path config_file) ;;
   items <- items_of data ;;
   load_items items ;;
   log INFO ("Configuration loaded from " ++ config_file)) b w = (r, b', w') ->
  match r with
  | Ok _ => w' = add_log (INFO, "Configuration loaded from " ++ config_file) w
  | _ => w' = w
  end.
Proof.
  unfold bind at 1.
  destruct (read_config (Path config_file) b w) as [[[data | e |] b1] w1] eqn:R;
    destruct (read_config_quiet _ _ _ R) as (-> & ->);
    [|intros H; now injection H as <- <- <-..].
  unfold bind at 1.
  destruct (items_of data b w) as [[[items | e |] b1] w1] eqn:I;
    destruct (items_of_quiet _ _ _ I) as (-> & ->);
    [|intros H; now injection H as <- <- <-..].
  unfold bind at 1.
  destruct (load_items items b w) as [[[[] | e |] b1] w1] eqn:L;
    destruct (load_items_frame _ _ _ L) as (-> & _);
    [|intros H; now injection H as <- <- <-..].
  unfold log. intros H. now injection H as <- <- <-.
Qed.

End Loading_facts.

(** What [typed_entry] accepts, [setattr_config] stores or skips. *)
Lemma as_strs_list_typed (l : list pyval) :
  forallb is_str l = true -> as_strs_list l <> None.
Proof.
  induction l as [|v l IH]; cbn [forallb as_strs_list]; [discriminate|].
  intros H. apply andb_true_iff in H as (V & H).
  destruct v; try discriminate V.
  destruct (as_strs_list l); [discriminate | now apply IH].
Qed.

Lemma typed_entry_setattr (c : PackageConfig) (k : string) (v : pyval) :
  typed_entry k v = true -> setattr_config c k v <> Some None.
Proof.
  unfold typed_entry, setattr_config, str_fields, bool_fields, list_fields.
  repeat match goal with
  | |- _ -> (if String.eqb k ?f then _ else _) <> _ =>
      destruct (String.eqb_spec k f) as [-> | ?];
      [ cbn [existsb String.eqb Ascii.eqb Bool.eqb orb andb];
        destruct v; cbn [is_str as_str as_bool as_strs option_map];
        intros T; try discriminate T; try discriminate;
        apply as_strs_list_typed in T;
        match goal with
        | |- Some (option_map _ ?x) <> _ => destruct x
        end; first [now elim T | cbn [option_map]; discriminate]
      | ]
  end.
  cbn [existsb].
  repeat match goal with
  | N : k <> _ |- _ => apply String.eqb_neq in N; rewrite N; clear N
  end.
  cbn [orb]. destruct (prefix "__" k); cbn [negb]; intros T;
    first [discriminate T | discriminate].
Qed.

Section Loading_outcomes.

Context {S : Type} {os : OS S}.

Lemma load_items_in_model items b (w : world S) r b' w' :
  (forall k v, In (VStr k, v) items -> typed_entry k v = true) ->
  load_items items b w = (r, b', w') -> r <> Untyped.
Proof.
  revert b w. induction items as [|[key value] items IH]; intros b w T;
    cbn [load_items].
  - intros H. injection H as <- <- <-. discriminate.
  - unfold bind at 1.
    destruct (load_item key value b w) as [[[[] | e |] b1] w1] eqn:E.
    + apply IH. intros k v I. apply T. now right.
    + intros H. injection H as <- <- <-. discriminate.
    + exfalso. revert E. unfold load_item.
      destruct key as [| | |k0| |]; try (unfold raise; discriminate).
      unfold bind, get_config.
      pose proof (@typed_entry_setattr (self_config b) k0 value
                    (T k0 value (or_introl eq_refl))) as N.
      destruct (setattr_config (self_config b) k0 value) as [[c'|]|];
        [unfold assign; discriminate | congruence | unfold ret; discriminate].
Qed.

(** The body of the [try] block on a document that the typed record
    follows. *)
Lemma load_body_in_model config_file b (w : world S) r b' w' :
  (data <- read_config (Path config_file) ;;
   items <- items_of data ;;
   load_items items ;;
   log INFO ("Configuration loaded from " ++ config_file)) b w = (r, b', w') ->
  (forall data, read_config (Path config_file) b w = (Ok data, b, w) ->
                typed_document data) ->
  r <> Untyped.
Proof.
  unfold bind at 1.
  destruct (read_config (Path config_file) b w) as [[[data | e |] b1] w1] eqn:R;
    destruct (read_config_quiet _ _ _ R) as (-> & ->).
  - intros H T. specialize (T data eq_refl). revert H.
    unfold bind at 1.
    destruct data as [| | | |l|items]; cbn [items_of];
      try (unfold raise; intros H; injection H as <- <- <-; discriminate).
    unfold ret at 1. unfold bind at 1.
    destruct (load_items items b w) as [[[[] | e |] b1] w1] eqn:L.
    + unfold log. intros H. injection H as <- <- <-. discriminate.
    + intros H. injection H as <- <- <-. discriminate.
    + now apply (load_items_in_model _ _ _ T) in L.
  - intros H _. injection H as <- <- <-. discriminate.
  - exfalso. revert R. unfold read_config.
    repeat match goal with
    | |- context [match ?x with _ => _ end] => destruct x
    end; discriminate.
Qed.

End Loading_outcomes.

(** X7: how [load_config_from_file] can end, on a file whose document, if
    one is read, the typed record follows.  If [exists] itself raises, that
    exception leaves the call as it is, and nothing is logged.  If the file
    is not there, [FileNotFoundError] is raised with the name given and
    nothing changes.  If it is there, the call either ends well, with one
    [INFO] record added to the log, or raises [ValidationError] whose
    message is [Failed to load configuration: ] followed by the text of
    what went wrong, with that message added to the log as one [ERROR]
    record; no other exception leaves it.  In every case the file system,
    the recorded calls and the console are untouched. *)
Theorem load_config_from_file_outcomes {S : Type} {os : OS S}
    (config_file : string) (b : builder) (w : world S)
    (r : result unit) (b' : builder) (w' : world S) :
  load_config_from_file config_file b w = (r, b', w') ->
  (forall data, read_config (Path config_file) b w = (Ok data, b, w) ->
                typed_document data) ->
  (os_state w' = os_state w /\ trace w' = trace w
   /\ stdin w' = stdin w /\ stdout w' = stdout w)
  /\ match os_exists (Path config_file) (os_state w) with
     | inl e => r = Raise e /\ b' = b /\ w' = w
     | inr false =>
         r = Raise (FileNotFoundError ("Configuration file not found: "
                                       ++ config_file))
         /\ b' = b /\ w' = w
     | inr true =>
         (r = Ok tt
          /\ logfile w'
             = (logfile w
                ++ [(INFO, ("Configuration loaded from " ++ config_file)%string)])%list)
         \/ (exists msg,
               r = Raise (ValidationError ("Failed to load configuration: " ++ msg))
               /\ logfile w'
                  = (logfile w
                     ++ [(ERROR, ("Failed to load configuration: " ++ msg)%string)])%list)
     end.
Proof.
  unfold load_config_from_file. unfold bind at 1, exists_ at 1.
  destruct (os_exists (Path config_file) (os_state w)) as [e0 | [|]];
    cbn [negb].
  - intros H _. injection H as <- <- <-. auto.
  - unfold try_except.
    match goal with
    | |- context [match ?m b w with _ => _ end] =>
        destruct (m b w) as [[[[] | e |] b1] w1] eqn:E
    end.
    + apply load_body in E. subst w1. intros H _. injection H as <- <- <-.
      cbn [os_state trace stdin stdout logfile add_log]. auto.
    + apply load_body in E. subst w1.
      unfold bind, log, raise. intros H _. injection H as <- <- <-.
      cbn [os_state trace stdin stdout logfile add_log]. split; [auto|].
      right. now exists (exn_str e).
    + intros _ T. now elim (load_body_in_model _ E T).
  - intros H _. injection H as <- <- <-. auto.
Qed.

(** A run of [load_config_from_file_outcomes] on a file with a name, a key
    that is no field and the dependencies: it ends well. *)
Lemma load_config_from_file_outcomes_witness :
  let b := builder_of default_config in
  let w := MemFS.world_of fs_with_documents ["left"] in
  let r := load_config_from_file "cfg.JSON" b w in
  read_config (Path "cfg.JSON") b w = (Ok partial_document, b, w)
  /\ typed_document partial_document
  /\ fst (fst r) = Ok tt
  /\ (os_state (snd r) = os_state w /\ trace (snd r) = trace w
      /\ stdin (snd r) = stdin w /\ stdout (snd r) = stdout w)
  /\ match os_exists (Path "cfg.JSON") (os_state w) with
     | inl e => fst (fst r) = Raise e /\ snd (fst r) = b /\ snd r = w
     | inr false =>
         fst (fst r)
         = Raise (FileNotFoundError ("Configuration file not found: " ++ "cfg.JSON"))
         /\ snd (fst r) = b /\ snd r = w
     | inr true =>
         (fst (fst r) = Ok tt
          /\ logfile (snd r)
             = (logfile w
                ++ [(INFO, ("Configuration loaded from " ++ "cfg.JSON")%string)])%list)
         \/ (exists msg,
               fst (fst r)
               = Raise (ValidationError ("Failed to load configuration: " ++ msg))
               /\ logfile (snd r)
                  = (logfile w
                     ++ [(ERROR, ("Failed to load configuration: " ++ msg)%string)])%list)
     end.
Proof.
  cbv zeta.
  assert (R : read_config (Path "cfg.JSON") (builder_of default_config)
                (MemFS.world_of fs_with_documents ["left"])
              = (Ok partial_document, builder_of default_config,
                 MemFS.world_of fs_with_documents ["left"]))
    by (vm_compute; reflexivity).
  assert (T : typed_document partial_document).
  { intros k v [E | [E | [E | []]]]; injection E as <- <-; reflexivity. }
  split; [exact R|]. split; [exact T|].
  split; [vm_compute; reflexivity|].
  refine (@load_config_from_file_outcomes _ _ "cfg.JSON"
            (builder_of default_config)
            (MemFS.world_of fs_with_documents ["left"]) _ _ _ (triple_eta _) _).
  intros data H. rewrite R in H. injection H as <-. exact T.
Defined.

Lemma setattr_unknown (c : PackageConfig) (k : string) (v : pyval) :
  ~ In k field_names -> prefix "__" k = false -> setattr_config c k v = None.
Proof.
  intros N P. unfold setattr_config.
  repeat match goal with
  | |- (if String.eqb k ?f then _ else _) = _ =>
      destruct (String.eqb_spec k f) as [-> | ?];
      [ exfalso; apply N; unfold field_names; cbn [In];
        repeat (first [left; reflexivity | right])
      | ]
  end.
  now rewrite P.
Qed.

Section Loading_typed.

Context {S : Type} {os : OS S}.

(** Loading a mapping whose entries are fields of [c] under their names or
    have unknown keys: the loop ends well, each field is the one of [c] if
    its name is a key and is left alone if not. *)
Lemma load_items_typed (c : PackageConfig) (items : list (pyval * pyval)) :
  (forall kv, In kv items -> field_of c kv \/ unknown_key kv) ->
  forall b (w : world S),
  exists x',
    load_items items b w = (Ok tt, with_config x' b, w)
    /\ forall k, In k field_names ->
         get_field k x' = if has_key k items then get_field k c
                          else get_field k (self_config b).
Proof.
  induction items as [|kv items IH]; intros E b w.
  - exists (self_config b). split; [destruct b; reflexivity | reflexivity].
  - destruct (E kv (or_introl eq_refl)) as [(k0 & I0 & ->) | (k0 & K & N & P)].
    + destruct (setattr_field c (self_config b) I0) as (x1 & Hset & Same & Other).
      destruct (IH (fun kv' H => E kv' (or_intror H)) (with_config x1 b) w)
        as (x' & L & F).
      exists x'. split.
      * cbn [load_items]. unfold bind at 1. unfold load_item, bind at 1.
        unfold get_config. rewrite Hset. unfold assign.
        cbn [self_config with_config] in *.
        replace (with_config x1 b) with (with_config x1 (with_config x1 b)) in L
          by (destruct b; reflexivity).
        destruct b. exact L.
      * intros k I. rewrite (F k I). cbn [has_key existsb fst].
        fold (has_key k items). cbn [self_config with_config].
        destruct (has_key k items); [now rewrite orb_true_r|].
        rewrite orb_false_r. destruct (String.eqb_spec k k0) as [-> | N].
        -- exact Same.
        -- now apply Other.
    + destruct kv as [key value]. cbn [fst] in K. subst key.
      destruct (IH (fun kv' H => E kv' (or_intror H)) b w) as (x' & L & F).
      exists x'. split.
      * cbn [load_items]. unfold bind at 1. unfold load_item, bind at 1.
        unfold get_config. rewrite (setattr_unknown _ _ N P). exact L.
      * intros k I. rewrite (F k I). cbn [has_key existsb fst].
        fold (has_key k items).
        destruct (String.eqb_spec k k0) as [-> | _]; [contradiction|].
        reflexivity.
Qed.

End Loading_typed.

(** X8: a file that gives some of the fields changes those only.  For a
    file whose document the typed record follows -- the values are of the
    fields' types and no key starts with two underscores -- a run of
    [load_config_from_file] that ends well has read a mapping from the
    file, and a field whose name is not a key of that mapping has the value
    it had before. *)
Theorem load_leaves_unnamed_fields {S : Type} {os : OS S}
    (config_file : string) (b : builder) (w : world S)
    (b' : builder) (w' : world S) :
  load_config_from_file config_file b w = (Ok tt, b', w') ->
  (forall data, read_config (Path config_file) b w = (Ok data, b, w) ->
                typed_document data) ->
  exists items,
    read_config (Path config_file) b w = (Ok (VDict items), b, w)
    /\ typed_document (VDict items)
    /\ forall k, has_key k items = false ->
                 get_field k (self_config b') = get_field k (self_config b).
Proof.
  unfold load_config_from_file. unfold bind at 1, exists_ at 1.
  destruct (os_exists (Path config_file) (os_state w)) as [e0 | [|]];
    cbn [negb]; [discriminate | | discriminate].
  unfold try_except.
  match goal with
  | |- context [match ?m b w with _ => _ end] =>
      destruct (m b w) as [[[[] | e |] b1] w1] eqn:E
  end; [|unfold bind, log, raise; discriminate | discriminate].
  intros H. injection H as <- <-. revert E.
  unfold bind at 1.
  destruct (read_config (Path config_file) b w) as [[[data | e |] b2] w2] eqn:R;
    destruct (read_config_quiet _ _ _ R) as (-> & ->); [|discriminate..].
  unfold bind at 1.
  destruct data as [| | | |l|items]; cbn [items_of]; try (unfold raise; discriminate).
  unfold ret at 1. unfold bind at 1.
  destruct (load_items items b w) as [[[[] | e |] b2] w2] eqn:L;
    [|discriminate..].
  destruct (load_items_frame _ _ _ L) as (-> & F).
  unfold log. intros H T. injection H as <- _.
  exists items. split; [reflexivity|].
  split; [exact (T _ eq_refl) | exact (F eq_refl)].
Qed.

(** A run of [load_leaves_unnamed_fields]: the file names the name and the
    dependencies; the version of the record stays. *)
Lemma load_leaves_unnamed_fields_witness :
  let b := builder_of test_config in
  let w := MemFS.world_of fs_with_documents [] in
  let r := load_config_from_file "cfg.JSON" b w in
  fst (fst r) = Ok tt
  /\ name (self_config (snd (fst r))) = "Bad Name!"
  /\ version (self_config (snd (fst r))) = version test_config
  /\ exists items,
       read_config (Path "cfg.JSON") b w = (Ok (VDict items), b, w)
       /\ typed_document (VDict items)
       /\ forall k, has_key k items = false ->
                    get_field k (self_config (snd (fst r)))
                    = get_field k (self_config b).
Proof.
  cbv zeta.
  split; [vm_compute; reflexivity|].
  split; [vm_compute; reflexivity|].
  split; [vm_compute; reflexivity|].
  assert (H : load_config_from_file "cfg.JSON" (builder_of test_config)
                (MemFS.world_of fs_with_documents [])
              = (Ok tt,
                 snd (fst (load_config_from_file "cfg.JSON" (builder_of test_config)
                             (MemFS.world_of fs_with_documents []))),
                 snd (load_config_from_file "cfg.JSON" (builder_of test_config)
                        (MemFS.world_of fs_with_documents []))))
    by (vm_compute; reflexivity).
  assert (R : read_config (Path "cfg.JSON") (builder_of test_config)
                (MemFS.world_of fs_with_documents [])
              = (Ok partial_document, builder_of test_config,
                 MemFS.world_of fs_with_documents []))
    by (vm_compute; reflexivity).
  refine (load_leaves_unnamed_fields _ H _).
  intros data E. rewrite R in E. injection E as <-.
  intros k v [E | [E | [E | []]]]; injection E as <- <-; reflexivity.
Defined.

(** X9: nothing that is loaded is validated or sanitized.  For a file that
    is found and opened, has the extension [.json] in any case of letters,
    and from which [json.load] gives a mapping whose entries are fields of
    an arbitrary record [c] under their names, or have keys that name no
    attribute, [load_config_from_file] ends well: the fields named are those
    of [c], the others are left alone, the entries with unknown keys are
    ignored, and the log gets one [INFO] record. *)
Theorem load_json_unvalidated {S : Type} {os : OS S}
    (config_file : string) (items : list (pyval * pyval)) (c : PackageConfig)
    (b : builder) (w : world S) :
  os_exists (Path config_file) (os_state w) = inr true ->
  os_open_read (Path config_file) (os_state w) = None ->
  lower (path_suffix (Path config_file)) = ".json" ->
  os_json_load (Path config_file) (os_state w) = inr (VDict items) ->
  (forall kv, In kv items -> field_of c kv \/ unknown_key kv) ->
  exists b',
    load_config_from_file config_file b w
    = (Ok tt, b', add_log (INFO, "Configuration loaded from " ++ config_file) w)
    /\ forall k, In k field_names ->
         get_field k (self_config b')
         = if has_key k items then get_field k c else get_field k (self_config b).
Proof.
  intros Ex Op Sx Ld Ty.
  destruct (@load_items_typed S c items Ty b w) as (x' & L & F).
  exists (with_config x' b). split; [|exact F].
  unfold load_config_from_file. unfold bind at 1. unfold exists_ at 1.
  rewrite Ex. cbn [negb]. unfold try_except.
  unfold bind at 1. unfold read_config. rewrite Op, Sx.
  cbn [String.eqb Ascii.eqb Bool.eqb orb]. rewrite Ld.
  unfold bind at 1. cbn [items_of]. unfold ret at 1.
  unfold bind at 1. rewrite L. unfold log. reflexivity.
Qed.

(** A run of [load_json_unvalidated]: the name that is loaded is one that
    [validate_package_name] rejects. *)
Lemma load_json_unvalidated_witness :
  let c := set_dependencies ["git"] (set_name "Bad Name!" default_config) in
  let b := builder_of test_config in
  let w := MemFS.world_of fs_with_documents [] in
  validate_package_name (name c) <> Ok (VBool true)
  /\ exists b',
       load_config_from_file "cfg.JSON" b w
       = (Ok tt, b', add_log (INFO, "Configuration loaded from cfg.JSON") w)
       /\ forall k, In k field_names ->
            get_field k (self_config b')
            = if has_key k [ (VStr "name", VStr "Bad Name!");
                             (VStr "colour", VStr "blue");
                             (VStr "dependencies", VList [VStr "git"]) ]
              then get_field k c else get_field k (self_config b).
Proof.
  cbv zeta.
  split; [vm_compute; discriminate|].
  refine (@load_json_unvalidated _ _ "cfg.JSON" _
            (set_dependencies ["git"] (set_name "Bad Name!" default_config))
            (builder_of test_config) (MemFS.world_of fs_with_documents [])
            eq_refl eq_refl eq_refl eq_refl _).
  intros kv [<- | [<- | [<- | []]]].
  - left. exists "name". split; [cbn; tauto | reflexivity].
  - right. exists "colour". split; [reflexivity|]. split; [|reflexivity].
    cbn [field_names In]. intros H.
    repeat (destruct H as [H | H]; [discriminate H|]). exact H.
  - left. exists "dependencies". split; [cbn; tauto | reflexivity].
Defined.

(** * A build that fails *)

Section Failure.

Context {S : Type} {os : OS S}.

Lemma stops_bind {A B} (m : Method S A) (k : A -> Method S B) :
  stops_at_failure m -> (forall a, stops_at_failure (k a)) ->
  stops_at_failure (bind m k).
Proof.
  intros Hm Hk b w r b' w'. unfold bind.
  destruct (m b w) as [[[a | e |] b1] w1] eqn:E; intros H;
    destruct (Hm _ _ _ _ _ E) as (I & T).
  - destruct (Hk a _ _ _ _ _ H) as (I' & T'). split; [congruence|].
    destruct T as (cs & T). destruct r as [y | e |].
    + destruct T' as (cs' & T'). exists (cs ++ cs')%list.
      rewrite T', T. unfold oks. now rewrite map_app, app_assoc.
    + destruct T' as (cs' & c & T'). exists (cs ++ cs')%list, c.
      rewrite T', T. unfold oks. now rewrite map_app, <- !app_assoc.
    + exact T'.
  - injection H as <- <- <-. now split.
  - contradiction.
Qed.

Lemma stops_perform c : stops_at_failure (perform c).
Proof.
  intros b w r b' w'. unfold perform.
  destruct (os_run c (os_state w)) as [[e |] s']; intros H;
    injection H as <- <- <-; cbn [stdin trace add_trace set_os_state];
    (split; [reflexivity|]).
  - now exists [], c.
  - now exists [c].
Qed.

Lemma stops_quiet {A} (m : Method S A) :
  (forall b w, exists a b', m b w = (Ok a, b', w)
               \/ (exists o, m b w = (Ok a, b', add_stdout o w))
               \/ (exists l, m b w = (Ok a, b', add_log l w))) ->
  stops_at_failure m.
Proof.
  intros Q b w r b' w' H. destruct (Q b w) as (a & b1 & [E | [(o & E) | (l & E)]]);
    rewrite E in H; injection H as <- <- <-;
    cbn [stdin trace add_stdout add_log];
    (split; [reflexivity|]); exists []; cbn; now rewrite app_nil_r.
Qed.

Lemma stops_say st txt : stops_at_failure (say (S := S) st txt).
Proof. apply stops_quiet. intros b w. exists tt, b. right. left. now eexists. Qed.

Lemma stops_log l msg : stops_at_failure (log (S := S) l msg).
Proof. apply stops_quiet. intros b w. exists tt, b. right. right. now eexists. Qed.

Lemma stops_ret {A} (a : A) : stops_at_failure (ret (S := S) a).
Proof. apply stops_quiet. intros b w. exists a, b. now left. Qed.

Lemma stops_get_config : stops_at_failure (get_config (S := S)).
Proof. apply stops_quiet. intros b w. exists (self_config b), b. now left. Qed.

Lemma stops_now : stops_at_failure now.
Proof. apply stops_quiet. intros b w. eexists _, b. left. reflexivity. Qed.

Lemma stops_update_progress step : stops_at_failure (update_progress (S := S) step).
Proof.
  apply stops_quiet. intros b w. eexists tt, _. right. left. eexists. reflexivity.
Qed.

End Failure.

(** Goes through a method made of calls, prints and log records. *)
Ltac calls_in_turn :=
  repeat first
    [ apply stops_perform | apply stops_say | apply stops_log | apply stops_ret
    | apply stops_get_config | apply stops_now | apply stops_update_progress
    | apply stops_bind; [|intros ?]
    | match goal with
      | |- stops_at_failure (if ?c then _ else _) => destruct c
      | |- stops_at_failure (match ?l with [] => _ | _ :: _ => _ end) => destruct l
      end ].

Section Failure_facts.

Context {S : Type} {os : OS S}.

Lemma stops_build_steps pkg : stops_at_failure (build_steps pkg).
Proof.
  unfold build_steps, create_debian_structure, create_package_files,
    create_desktop_entry, create_menu_structure, create_build_script,
    create_readme, save_config.
  calls_in_turn.
Qed.

(** From the [mkdir] of the target on. *)
Lemma build_from_mkdir pkg b (w : world S) r b' w' :
  (perform (Mkdir pkg true true) ;;
   try_except (build_steps pkg)
     (fun e =>
        log ERROR ("Failed to build package: " ++ exn_str e) ;;
        say Error ("Build failed: " ++ exn_str e) ;;
        raise e)) b w = (r, b', w') ->
  stdin w' = stdin w
  /\ match r with
     | Ok _ => exists cs, trace w' = (trace w ++ oks cs)%list
     | Raise e =>
         exists cs c,
           trace w' = (trace w ++ oks cs ++ [(c, Some e)])%list
           /\ ((c = Mkdir pkg true true /\ cs = []
                /\ logfile w' = logfile w /\ stdout w' = stdout w)
               \/ (exists cs', cs = Mkdir pkg true true :: cs')
                  /\ (exists l, logfile w'
                        = (l ++ [(ERROR, ("Failed to build package: "
                                          ++ exn_str e)%string)])%list)
                  /\ (exists o, stdout w'
                        = (o ++ [Say Error ("Build failed: " ++ exn_str e)])%list))
     | Untyped => False
     end.
Proof.
  unfold bind at 1. unfold perform at 1.
  destruct (os_run (Mkdir pkg true true) (os_state w)) as [[e0 |] s'].
  - intros H. injection H as <- <- <-.
    cbn [stdin trace logfile stdout add_trace set_os_state].
    split; [reflexivity|]. exists [], (Mkdir pkg true true).
    split; [reflexivity|]. left. auto.
  - set (w0 := add_trace (Mkdir pkg true true) None (set_os_state s' w)).
    assert (T0 : trace w0 = (trace w ++ [(Mkdir pkg true true, None)])%list)
      by reflexivity.
    assert (I0 : stdin w0 = stdin w) by reflexivity.
    clearbody w0. unfold try_except.
    destruct (build_steps pkg b w0) as [[[[] | e |] b1] w1] eqn:E;
      destruct (stops_build_steps _ _ _ E) as (I & T).
    + intros H. injection H as <- <- <-. split; [congruence|].
      destruct T as (cs & T). exists (Mkdir pkg true true :: cs).
      rewrite T, T0. cbn [oks map]. now rewrite <- app_assoc.
    + unfold bind, log, say, raise. intros H. injection H as <- <- <-.
      cbn [stdin trace logfile stdout add_stdout add_log].
      split; [congruence|].
      destruct T as (cs & c & T). exists (Mkdir pkg true true :: cs), c.
      split.
      * rewrite T, T0. cbn [oks map app]. now rewrite <- !app_assoc.
      * right. split; [now eexists|]. split; now eexists.
    + contradiction.
Qed.

End Failure_facts.



(** The first way of [build_package_failure]: with a name of 255 letters,
    which [validate_package_name] accepts, [exists] raises, and no call is
    made and nothing logged. *)
Example long_name_stops_exists :
  let b := builder_of (set_name long_name test_config) in
  let r := build_package b (MemFS.world_of MemFS.empty []) in
  validate_package_name long_name = Ok (VBool true)
  /\ (exists msg, fst (fst r) = Raise (OtherError "OSError" msg))
  /\ trace (snd r) = [] /\ logfile (snd r) = [].
Proof.
  cbv zeta. split; [vm_compute; reflexivity|].
  split; [eexists; vm_compute; reflexivity|].
  split; vm_compute; reflexivity.
Qed.

(** * A build that ends well *)

Section Complete.

Context {S : Type} {os : OS S}.

Lemma build_from_mkdir_ok pkg b (w : world S) b' w' :
  (perform (Mkdir pkg true true) ;;
   try_except (build_steps pkg)
     (fun e =>
        log ERROR ("Failed to build package: " ++ exn_str e) ;;
        say Error ("Build failed: " ++ exn_str e) ;;
        raise e)) b w = (Ok tt, b', w') ->
  stdin w' = stdin w
  /\ exists timestamp,
       trace w' = (trace w ++ oks (Mkdir pkg true true
                                   :: emission_calls pkg (self_config b) timestamp))%list.
Proof.
  intros H. split; [exact (proj1 (build_from_mkdir _ _ _ H))|].
  step H.
  apply try_except_inv in H as [H | (e & b2 & w2 & _ & H)];
    [|unfold bind, log, say, raise in H; discriminate].
  apply build_steps_ok in H as (_ & _ & _ & ts & T).
  exists ts. rewrite T.
  match goal with E : trace _ = _ |- _ => rewrite E end.
  cbn [oks map]. now rewrite <- app_assoc.
Qed.

End Complete.

(** X11: the calls of a run of [build_package] that ends well.  If the
    target directory is not there, no line is read, and the calls are the
    [mkdir] of the target and those of the seven emitters, in order.  If it
    is there, one line is read: for an answer that is [y] once stripped and
    lowered, the calls are [rmtree] of the target, then the same; for any
    other answer no call is made and the builder is left as it was.  Every
    call recorded succeeded. *)
Theorem build_package_calls {S : Type} {os : OS S}
    (b : builder) (w : world S) (b' : builder) (w' : world S) :
  build_package b w = (Ok tt, b', w') ->
  let pkg := package_path_of b in
  match os_exists pkg (os_state w) with
  | inr true =>
    exists response rest,
      stdin w = response :: rest /\ stdin w' = rest
      /\ if String.eqb (lower (strip response)) "y" then
           exists timestamp,
             trace w' = (trace w
                         ++ oks (Rmtree pkg :: Mkdir pkg true true
                                 :: emission_calls pkg (self_config b) timestamp))%list
         else trace w' = trace w /\ b' = b
  | inr false =>
    stdin w' = stdin w
    /\ exists timestamp,
         trace w' = (trace w
                     ++ oks (Mkdir pkg true true
                             :: emission_calls pkg (self_config b) timestamp))%list
  | inl _ => False
  end.
Proof.
  cbv zeta. unfold build_package.
  do 3 (unfold bind at 1; unfold say at 1).
  unfold bind at 1. unfold get_self at 1.
  unfold bind at 1. unfold exists_ at 1.
  cbn [os_state add_stdout].
  set (pkg := package_path_of b).
  set (w0 := add_stdout _ (add_stdout _ (add_stdout _ w))).
  assert (T0 : trace w0 = trace w) by reflexivity.
  assert (I0 : stdin w0 = stdin w) by reflexivity.
  clearbody w0.
  destruct (os_exists pkg (os_state w)) as [e0 | [|]] eqn:Ex; [discriminate | |].
  - unfold bind at 1. unfold bind at 1. unfold input at 1.
    cbn [stdin add_stdout].
    destruct (stdin w0) as [|response rest] eqn:In0; [discriminate|].
    intros H. exists response, rest. split; [congruence|]. revert H.
    destruct (String.eqb (lower (strip response)) "y"); cbn [negb].
    + unfold bind at 1. unfold perform at 1.
      cbn [os_state set_stdin add_stdout].
      destruct (os_run (Rmtree pkg) (os_state w0)) as [[e0 |] s'];
        [discriminate|].
      unfold ret at 1. cbn [negb]. intros H.
      apply build_from_mkdir_ok in H as (I & ts & T).
      cbn [stdin trace add_trace set_os_state set_stdin add_stdout] in I, T.
      split; [exact I|]. exists ts. rewrite T, T0. cbn [oks map app].
      now rewrite <- !app_assoc.
    + unfold bind at 1, say at 1, ret at 1. cbn [negb].
      unfold ret. intros H. injection H as <- <-.
      cbn [stdin trace set_stdin add_stdout]. auto.
  - unfold bind at 1. unfold ret at 1. cbn [negb]. intros H.
    apply build_from_mkdir_ok in H as (I & ts & T).
    split; [congruence|]. exists ts. now rewrite T, T0.
Qed.

(** A run of [build_package_calls]: the target is there and the answer is
    [ Y ]; the directory is removed first. *)
Lemma build_package_calls_witness :
  let b := builder_of test_config in
  let w := MemFS.world_of fs_with_target [" Y "; "left"] in
  let r := build_package b w in
  fst (fst r) = Ok tt
  /\ os_exists (package_path_of b) (os_state w) = inr true
  /\ exists response rest,
       stdin w = response :: rest /\ stdin (snd r) = rest
       /\ if String.eqb (lower (strip response)) "y" then
            exists timestamp,
              trace (snd r)
              = (trace w
                 ++ oks (Rmtree (package_path_of b)
                         :: Mkdir (package_path_of b) true true
                         :: emission_calls (package_path_of b) (self_config b)
                              timestamp))%list
          else trace (snd r) = trace w /\ snd (fst r) = b.
Proof.
  cbv zeta.
  assert (H : build_package (builder_of test_config)
                (MemFS.world_of fs_with_target [" Y "; "left"])
              = (Ok tt,
                 snd (fst (build_package (builder_of test_config)
                             (MemFS.world_of fs_with_target [" Y "; "left"]))),
                 snd (build_package (builder_of test_config)
                        (MemFS.world_of fs_with_target [" Y "; "left"]))))
    by (vm_compute; reflexivity).
  split; [vm_compute; reflexivity|].
  split; [vm_compute; reflexivity|].
  exact (build_package_calls _ _ H).
Defined.

(** * Path segments *)

Lemma split_single sep s : occurs sep s = false -> split sep s = [s].
Proof.
  induction s as [|c s IH]; cbn [occurs split]; [reflexivity|].
  intros H. apply orb_false_iff in H as (H1 & H2).
  rewrite Ascii.eqb_sym, H1, (IH H2). reflexivity.
Qed.

(** A segment without a slash that is neither empty nor a dot is one
    component, and is not absolute. *)
Lemma single_component s :
  occurs "/"%char s = false -> s <> "" -> s <> "." ->
  components s = [s] /\ is_absolute s = false.
Proof.
  intros O N D. split.
  - unfold components. rewrite (split_single _ _ O). cbn [filter].
    destruct s as [|c r]; [contradiction|]. cbn [is_empty negb andb].
    destruct (String.eqb_spec (String c r) "."); [contradiction | reflexivity].
  - destruct s as [|c r]; [reflexivity|]. unfold is_absolute. cbn [prefix].
    destruct (ascii_dec "/" c) as [<- | _]; [|reflexivity].
    cbn in O. discriminate O.
Qed.

Lemma pjoin_single p s :
  occurs "/"%char s = false -> s <> "" -> s <> "." -> p // s = (p ++ [s])%list.
Proof.
  intros O N D. destruct (single_component O N D) as (C & A).
  unfold pjoin. now rewrite A, C.
Qed.

(** What [validate_package_name] accepts has no slash and starts with a
    letter or a digit. *)
Lemma valid_name_shape n v :
  validate_package_name n = Ok v ->
  occurs "/"%char n = false /\ exists c r, n = String c r /\ isalnum c = true.
Proof.
  unfold validate_package_name.
  destruct (is_empty n); [discriminate|].
  destruct (Nat.ltb 255 (String.length n)); [discriminate|].
  destruct (any is_invalid_char n) eqn:A; [discriminate|].
  destruct (first_isalnum n) eqn:F; cbn [negb]; [|discriminate].
  intros _. split.
  - destruct (occurs "/"%char n) eqn:O; [|reflexivity].
    assert (any is_invalid_char n = true) as A'
      by (apply any_exists; exists "/"%char; now split).
    congruence.
  - destruct n as [|c r]; [discriminate|]. now exists c, r.
Qed.

Lemma valid_name_segments p n v :
  validate_package_name n = Ok v ->
  (p // n = (p ++ [n])%list /\ n <> "..")
  /\ (p // (n ++ ".desktop") = (p ++ [(n ++ ".desktop")%string])%list
      /\ n ++ ".desktop" <> "..").
Proof.
  intros V. destruct (valid_name_shape _ V) as (O & c & r & -> & A).
  assert (D : c <> "."%char) by (intros ->; discriminate A).
  split; split.
  - apply pjoin_single; [exact O | discriminate | congruence].
  - congruence.
  - apply pjoin_single; [|discriminate | cbn [append]; congruence].
    rewrite occurs_append, O. reflexivity.
  - cbn [append]. congruence.
Qed.

(** * The calls of a complete build *)

Lemma made_app {S} (w w' : world S) (cs : list call) :
  trace w' = (trace w ++ oks cs)%list -> made w w' = cs.
Proof.
  intros H. unfold made. rewrite H, skipn_app, skipn_all, Nat.sub_diag.
  cbn [skipn app]. unfold oks. rewrite map_map. cbn [fst]. apply map_id.
Qed.

Section Made.

Context {S : Type} {os : OS S}.

Lemma build_package_made b (w : world S) b' w' :
  build_package b w = (Ok tt, b', w') ->
  made w w' = []
  \/ exists pre timestamp,
       (pre = [] \/ pre = [Rmtree (package_path_of b)])
       /\ made w w' = (pre ++ Mkdir (package_path_of b) true true
                            :: emission_calls (package_path_of b) (self_config b)
                                 timestamp)%list.
Proof.
  intros H. apply build_package_ok in H as [(_ & T) | (_ & _ & _ & pre & ts & P & T)].
  - left. apply made_app. cbn [oks map]. now rewrite app_nil_r.
  - right. exists pre, ts. split; [exact P | now apply made_app].
Qed.

End Made.

(** X12: the files that a complete build makes executable are
    [debian/rules], the launcher [usr/bin/<name>] if the package is regular
    and has a tool, and [build.sh], in this order, each with mode [0o755];
    no other mode is set. *)
Theorem build_package_executables {S : Type} {os : OS S}
    (b : builder) (w : world S) (b' : builder) (w' : world S) :
  build_package b w = (Ok tt, b', w') ->
  made w w' <> [] ->
  let pkg := package_path_of b in
  let c := self_config b in
  chmods (made w w')
  = ([(pkg // "debian" // "rules", 493%N)]
     ++ (if is_metapackage c then []
         else match tools c with
              | [] => []
              | _ => [(pkg // "usr" // "bin" // name c, 493%N)]
              end)
     ++ [(pkg // "build.sh", 493%N)])%list.
Proof.
  intros H N. cbv zeta.
  apply build_package_made in H as [E | (pre & ts & P & E)]; [contradiction|].
  rewrite E. unfold chmods. rewrite flat_map_app.
  assert (Pre : flat_map (fun c => match c with
                                   | Chmod p m => [(p, m)]
                                   | _ => []
                                   end) pre = []) by (destruct P as [-> | ->]; reflexivity).
  rewrite Pre. cbn [app flat_map].
  unfold emission_calls. rewrite !flat_map_app.
  unfold debian_calls, package_files_calls, desktop_calls, menu_calls,
    build_script_calls, readme_calls, save_calls, menu_symlink.
  destruct (is_metapackage (self_config b)), (tools (self_config b)),
    (create_desktop (self_config b)); reflexivity.
Qed.

(** A run of [build_package_executables] for a regular package with a
    tool. *)
Lemma build_package_executables_witness :
  let b := builder_of desktop_config in
  let w := MemFS.world_of MemFS.empty [] in
  let r := build_package b w in
  fst (fst r) = Ok tt
  /\ chmods (made w (snd r))
     = [ (["/"; "work"; "test-package-1.0.0"; "debian"; "rules"], 493%N);
         (["/"; "work"; "test-package-1.0.0"; "usr"; "bin"; "test-package"], 493%N);
         (["/"; "work"; "test-package-1.0.0"; "build.sh"], 493%N) ].
Proof.
  cbv zeta.
  assert (H : build_package (builder_of desktop_config)
                (MemFS.world_of MemFS.empty [])
              = (Ok tt,
                 snd (fst (build_package (builder_of desktop_config)
                             (MemFS.world_of MemFS.empty []))),
                 snd (build_package (builder_of desktop_config)
                        (MemFS.world_of MemFS.empty []))))
    by (vm_compute; reflexivity).
  split; [vm_compute; reflexivity|].
  rewrite (build_package_executables _ _ H); [reflexivity|].
  vm_compute. discriminate.
Defined.

Lemma pjoin_lit p x :
  components x = [x] -> is_absolute x = false -> p // x = (p ++ [x])%list.
Proof. intros C A. unfold pjoin. now rewrite A, C. Qed.

(** Joins with the literal segments of the program, as lists. *)
Ltac literal_segments :=
  repeat match goal with
  | |- context [?p // ?x] => rewrite (@pjoin_lit p x eq_refl eq_refl)
  end.

Section Parents.

Context {S : Type} {os : OS S}.

Lemma parents_of_complete_build (b : builder) (w : world S) b' w' :
  build_package b w = (Ok tt, b', w') ->
  validate_package_name (name (self_config b)) = Ok (VBool true) ->
  parents_made [] (made w w').
Proof.
  intros H V.
  apply build_package_made in H as [E | (pre & ts & P & E)]; rewrite E;
    [exact I|].
  pose proof (fun p => proj1 (proj1 (@valid_name_segments p _ _ V))) as Name.
  pose proof (fun p => proj1 (proj2 (@valid_name_segments p _ _ V))) as Desktop.
  unfold emission_calls, debian_calls, package_files_calls, desktop_calls,
    menu_calls, build_script_calls, readme_calls, save_calls, menu_symlink.
  set (pkg := package_path_of b) in *.
  set (menu := menu_dir pkg (self_config b)).
  destruct P as [-> | ->];
    destruct (is_metapackage (self_config b)), (tools (self_config b)),
      (create_desktop (self_config b));
    cbv beta iota zeta delta [parents_made app needs_parent target];
    rewrite ?Name, ?Desktop; literal_segments; rewrite ?removelast_last;
    repeat split; try discriminate; intros _; cbn [In];
    repeat (first [left; reflexivity | right]).
Qed.

End Parents.

(** X13: in a complete build for a record whose name
    [validate_package_name] accepts, every call that needs the directory of
    its path to be there -- writing a file, making the link, [mkdir]
    without [parents] -- comes after the [mkdir] of exactly that
    directory. *)
Theorem build_package_parents {S : Type} {os : OS S}
    (b : builder) (w : world S) (b' : builder) (w' : world S) :
  build_package b w = (Ok tt, b', w') ->
  validate_package_name (name (self_config b)) = Ok (VBool true) ->
  parents_made [] (made w w').
Proof. apply parents_of_complete_build. Qed.

(** A run of [build_package_parents]. *)
Lemma build_package_parents_witness :
  let b := builder_of desktop_config in
  let w := MemFS.world_of MemFS.empty [] in
  let r := build_package b w in
  fst (fst r) = Ok tt
  /\ length (made w (snd r)) = 20
  /\ parents_made [] (made w (snd r)).
Proof.
  cbv zeta.
  assert (H : build_package (builder_of desktop_config)
                (MemFS.world_of MemFS.empty [])
              = (Ok tt,
                 snd (fst (build_package (builder_of desktop_config)
                             (MemFS.world_of MemFS.empty []))),
                 snd (build_package (builder_of desktop_config)
                        (MemFS.world_of MemFS.empty []))))
    by (vm_compute; reflexivity).
  split; [vm_compute; reflexivity|].
  split; [vm_compute; reflexivity|].
  exact (build_package_parents _ _ H eq_refl).
Defined.

(** * Where the calls go *)

Lemma inside_self (pkg : path) : inside pkg pkg.
Proof. exists []. split; [now rewrite app_nil_r | intros []]. Qed.

(** X14: in a complete build for a record whose name
    [validate_package_name] accepts and whose menu section is relative and
    has no [..] component, every call works on the package directory or on
    a path below it: the path is the package path followed by components
    none of which is [..]. *)
Theorem build_package_inside {S : Type} {os : OS S}
    (b : builder) (w : world S) (b' : builder) (w' : world S) :
  build_package b w = (Ok tt, b', w') ->
  validate_package_name (name (self_config b)) = Ok (VBool true) ->
  is_absolute (menu_section (self_config b)) = false ->
  ~ In ".." (components (menu_section (self_config b))) ->
  Forall (fun c => inside (package_path_of b) (target c)) (made w w').
Proof.
  intros H V A D.
  apply build_package_made in H as [E | (pre & ts & P & E)]; rewrite E;
    [constructor|].
  pose proof (fun p => proj1 (proj1 (@valid_name_segments p _ _ V))) as Name.
  pose proof (fun p => proj1 (proj2 (@valid_name_segments p _ _ V))) as Desktop.
  pose proof (proj2 (proj1 (@valid_name_segments [] _ _ V))) as Nd.
  pose proof (proj2 (proj2 (@valid_name_segments [] _ _ V))) as Dd.
  unfold emission_calls, debian_calls, package_files_calls, desktop_calls,
    menu_calls, build_script_calls, readme_calls, save_calls, menu_symlink.
  rewrite (menu_dir_relative _ _ A).
  set (pkg := package_path_of b) in *.
  set (comps := components (menu_section (self_config b))) in *.
  apply Forall_app. split.
  { destruct P as [-> | ->]; repeat constructor. apply inside_self. }
  constructor; [apply inside_self|].
  destruct (is_metapackage (self_config b)), (tools (self_config b)),
    (create_desktop (self_config b));
    cbv beta iota zeta delta [app];
    repeat (apply Forall_cons || apply Forall_nil);
    cbv beta iota zeta delta [target];
    rewrite ?Name, ?Desktop; literal_segments; rewrite <- ?app_assoc;
    (eexists; split; [reflexivity|]);
    rewrite ?in_app_iff; cbn [In app];
    intuition (try discriminate; try congruence).
Qed.

(** A run of [build_package_inside]. *)
Lemma build_package_inside_witness :
  let b := builder_of desktop_config in
  let w := MemFS.world_of fs_with_target ["y"] in
  let r := build_package b w in
  fst (fst r) = Ok tt
  /\ length (made w (snd r)) = 21
  /\ Forall (fun c => inside (package_path_of b) (target c)) (made w (snd r)).
Proof.
  cbv zeta.
  assert (H : build_package (builder_of desktop_config)
                (MemFS.world_of fs_with_target ["y"])
              = (Ok tt,
                 snd (fst (build_package (builder_of desktop_config)
                             (MemFS.world_of fs_with_target ["y"]))),
                 snd (build_package (builder_of desktop_config)
                        (MemFS.world_of fs_with_target ["y"]))))
    by (vm_compute; reflexivity).
  assert (D : ~ In ".." (components (menu_section (self_config (builder_of desktop_config)))))
    by (vm_compute; intros [E | []]; discriminate E).
  split; [vm_compute; reflexivity|].
  split; [vm_compute; reflexivity|].
  exact (build_package_inside _ _ H eq_refl eq_refl D).
Defined.

Lemma length_removelast {A} (l : list A) : length (removelast l) = pred (length l).
Proof.
  rewrite removelast_firstn_len, length_firstn. lia.
Qed.

Lemma resolve_up3 (dir : path) (x f : string) :
  x <> ".." -> f <> ".." ->
  resolve dir [".."; ".."; ".."; x; f]
  = (removelast (removelast (removelast dir)) ++ [x; f])%list.
Proof.
  intros X F. cbn [resolve]. cbn [String.eqb Ascii.eqb Bool.eqb].
  destruct (String.eqb_spec x ".."); [contradiction|].
  destruct (String.eqb_spec f ".."); [contradiction|].
  now rewrite <- app_assoc.
Qed.

(** X15: where the menu link leads.  In a complete build with a desktop
    entry, for a valid name and a relative menu section without [..], the
    link [<name>.desktop] is made in the menu directory and the desktop
    entry is written under [usr/share/applications]; the link, read from its
    directory component by component, leads to that entry exactly when the
    menu section is a single component. *)
Theorem menu_link_resolves {S : Type} {os : OS S}
    (b : builder) (w : world S) (b' : builder) (w' : world S) :
  build_package b w = (Ok tt, b', w') ->
  made w w' <> [] ->
  create_desktop (self_config b) = true ->
  validate_package_name (name (self_config b)) = Ok (VBool true) ->
  is_absolute (menu_section (self_config b)) = false ->
  ~ In ".." (components (menu_section (self_config b))) ->
  let c := self_config b in
  let entry := package_path_of b // "usr" // "share" // "applications"
                 // (name c ++ ".desktop") in
  exists link to,
    In (SymlinkTo link to) (made w w')
    /\ In (WriteText entry (desktop_entry_text c)) (made w w')
    /\ (resolve (removelast link) to = entry
        <-> length (components (menu_section c)) = 1).
Proof.
  intros H N C V A D. cbv zeta.
  apply build_package_made in H as [E | (pre & ts & P & E)]; [contradiction|].
  rewrite E.
  pose proof (fun p => proj1 (proj2 (@valid_name_segments p _ _ V))) as Desktop.
  pose proof (proj2 (proj2 (@valid_name_segments [] _ _ V))) as Dd.
  set (pkg := package_path_of b) in *.
  set (f := name (self_config b) ++ ".desktop") in *.
  exists (menu_dir pkg (self_config b) // f), (Path "../../../applications" // f).
  split; [|split].
  - apply in_or_app. right. right. unfold emission_calls.
    do 3 (apply in_or_app; right). apply in_or_app. left.
    unfold menu_calls, menu_symlink. rewrite C. right. now left.
  - apply in_or_app. right. right. unfold emission_calls.
    do 2 (apply in_or_app; right). apply in_or_app. left.
    unfold desktop_calls. rewrite C. right. now left.
  - rewrite !Desktop, removelast_last, (menu_dir_relative _ _ A).
    literal_segments.
    change (Path "../../../applications") with [".."; ".."; ".."; "applications"].
    cbn [app]. rewrite resolve_up3 by (discriminate || exact Dd).
    set (comps := components (menu_section (self_config b))) in *.
    rewrite <- !app_assoc. cbn [app]. split.
    + intros R. apply (f_equal (@length string)) in R.
      rewrite !length_app, !length_removelast, !length_app in R.
      cbn [length] in R. lia.
    + intros L. destruct comps as [|s [|? ?]]; try discriminate L.
      repeat (rewrite removelast_app by discriminate; cbn [removelast app]).
      now rewrite <- ?app_assoc.
Qed.

(** A run of [menu_link_resolves] with the menu section [99-Misc]. *)
Lemma menu_link_resolves_witness :
  let b := builder_of desktop_config in
  let w := MemFS.world_of MemFS.empty [] in
  let r := build_package b w in
  let entry := ["/"; "work"; "test-package-1.0.0"; "usr"; "share";
                "applications"; "test-package.desktop"] in
  fst (fst r) = Ok tt
  /\ length (components (menu_section (self_config b))) = 1
  /\ exists link to,
       In (SymlinkTo link to) (made w (snd r))
       /\ In (WriteText entry (desktop_entry_text (self_config b))) (made w (snd r))
       /\ (resolve (removelast link) to = entry
           <-> length (components (menu_section (self_config b))) = 1).
Proof.
  cbv zeta.
  assert (H : build_package (builder_of desktop_config)
                (MemFS.world_of MemFS.empty [])
              = (Ok tt,
                 snd (fst (build_package (builder_of desktop_config)
                             (MemFS.world_of MemFS.empty []))),
                 snd (build_package (builder_of desktop_config)
                        (MemFS.world_of MemFS.empty []))))
    by (vm_compute; reflexivity).
  assert (N : made (MemFS.world_of MemFS.empty [])
                (snd (build_package (builder_of desktop_config)
                        (MemFS.world_of MemFS.empty []))) <> [])
    by (vm_compute; discriminate).
  assert (D : ~ In ".." (components (menu_section (self_config (builder_of desktop_config)))))
    by (vm_compute; intros [E | []]; discriminate E).
  split; [vm_compute; reflexivity|].
  split; [vm_compute; reflexivity|].
  exact (menu_link_resolves _ _ H N eq_refl eq_refl eq_refl D).
Defined.

(** * The record before the prompts *)

Section Forget.

Context {S : Type}.

Lemma related_bind {A B} P (m1 m2 : Method S A) Q
    (k1 k2 : A -> Method S B) R :
  related P m1 m2 Q ->
  (forall a1 a2, related (Q a1 a2) (k1 a1) (k2 a2) R) ->
  related P (bind m1 k1) (bind m2 k2) R.
Proof.
  intros Hm Hk b1 b2 w HP. specialize (Hm b1 b2 w HP). unfold bind.
  destruct (m1 b1 w) as [[[a1 | e1 |] b1'] w1],
           (m2 b2 w) as [[[a2 | e2 |] b2'] w2]; try contradiction.
  - destruct Hm as (HQ & <-). exact (Hk a1 a2 b1' b2' w1 HQ).
  - exact Hm.
Qed.

Lemma related_post {A} P (m1 m2 : Method S A) (Q Q' : A -> A -> cfg_rel) :
  related P m1 m2 Q ->
  (forall a1 a2 c1 c2, Q a1 a2 c1 c2 -> Q' a1 a2 c1 c2) ->
  related P m1 m2 Q'.
Proof.
  intros Hm HQ b1 b2 w HP. specialize (Hm b1 b2 w HP).
  destruct (m1 b1 w) as [[[a1 | e1 |] b1'] w1],
           (m2 b2 w) as [[[a2 | e2 |] b2'] w2]; try contradiction; [|exact Hm].
  destruct Hm as (H & E). split; [now apply HQ | exact E].
Qed.

Lemma related_pre {A} (P P' : cfg_rel) (m1 m2 : Method S A) Q :
  (forall c1 c2, P c1 c2 -> P' c1 c2) ->
  related P' m1 m2 Q -> related P m1 m2 Q.
Proof. intros HP Hm b1 b2 w H. apply Hm, HP, H. Qed.

Lemma related_if {A} P (x1 x2 : bool) (m1 n1 m2 n2 : Method S A) Q :
  (forall c1 c2, P c1 c2 -> x1 = x2) ->
  related (fun c1 c2 => P c1 c2 /\ x1 = true) m1 m2 Q ->
  related (fun c1 c2 => P c1 c2 /\ x1 = false) n1 n2 Q ->
  related P (if x1 then m1 else n1) (if x2 then m2 else n2) Q.
Proof.
  intros Hx Ht Hf b1 b2 w HP. rewrite <- (Hx _ _ HP).
  destruct x1; [apply Ht | apply Hf]; auto.
Qed.

Lemma related_say P st txt :
  related P (say (S := S) st txt) (say st txt) (fun _ _ => P).
Proof. intros b1 b2 w HP. cbn. auto. Qed.

Lemma related_input P st prompt :
  related P (input (S := S) st prompt) (input st prompt)
    (fun a1 a2 c1 c2 => a1 = a2 /\ P c1 c2).
Proof.
  intros b1 b2 w HP. unfold input. cbn [stdin add_stdout].
  destruct (stdin w); cbn; auto.
Qed.

Lemma related_run_console {A} P (f : console A) :
  well_behaved f ->
  related P (run_console (S := S) f) (run_console f)
    (fun a1 a2 c1 c2 => a1 = a2 /\ P c1 c2).
Proof.
  intros Hf b1 b2 w HP. unfold run_console.
  destruct (f (stdin w)) as [[r rest] o] eqn:E.
  destruct (Hf _ _ _ _ E) as (_ & En).
  destruct r; cbn; auto.
Qed.

Lemma related_assign P (f1 f2 : PackageConfig -> PackageConfig) :
  related P (assign (S := S) f1) (assign f2)
    (fun _ _ c1 c2 => exists d1 d2, P d1 d2 /\ c1 = f1 d1 /\ c2 = f2 d2).
Proof.
  intros b1 b2 w HP. cbn. split; [|reflexivity].
  now exists (self_config b1), (self_config b2).
Qed.

Lemma related_get_config P :
  related P (get_config (S := S)) get_config
    (fun a1 a2 c1 c2 => a1 = c1 /\ a2 = c2 /\ P c1 c2).
Proof. intros b1 b2 w HP. cbn. auto. Qed.

Lemma related_ret {A} P (a : A) :
  related P (ret (S := S) a) (ret a) (fun _ _ => P).
Proof. intros b1 b2 w HP. cbn. auto. Qed.

End Forget.

(** Takes a post-condition apart. *)
Ltac open_post :=
  repeat match goal with
  | H : _ /\ _ |- _ => destruct H
  | H : exists _, _ |- _ => destruct H
  end; subst.

Ltac related_step :=
  first
    [ eapply related_bind;
        [ first [ apply related_say | apply related_input
                | apply related_assign | apply related_get_config
                | apply related_run_console;
                  first [ apply ask_package_type_well_behaved
                        | apply ask_valid_well_behaved;
                          apply validator_raises_ValidationError; cbn [In]; tauto ] ]
        | intros ? ? ] ].

Section Forget_facts.

Context {S : Type}.

Lemma related_ask_regular :
  related same_basics (ask_regular (S := S)) ask_regular
    (fun _ _ c1 c2 => same_basics c1 c2 /\ same_contents c1 c2).
Proof.
  unfold ask_regular.
  do 11 related_step.
  apply related_if.
  - intros c1 c2 H. open_post. fields. reflexivity.
  - do 7 related_step.
    eapply related_post; [apply related_assign|].
    intros ? ? c1 c2 H. unfold same_basics, same_contents in *. open_post.
    fields. repeat split; auto.
  - eapply related_post; [apply related_ret|].
    intros ? ? c1 c2 H. unfold same_basics, same_contents in *. open_post.
    fields. repeat split; auto; try congruence.
Qed.

Lemma related_get_user_input :
  related (fun _ _ => True) (get_user_input (S := S)) get_user_input
    (fun a1 a2 c1 c2 => a1 = c1 /\ a2 = c2 /\ same_answers c1 c2).
Proof.
  unfold get_user_input.
  do 22 related_step.
  eapply related_bind with (Q := fun _ _ c1 c2 => same_basics c1 c2 /\ same_contents c1 c2).
  - apply related_if.
    + intros c1 c2 H. open_post. fields. reflexivity.
    + eapply related_pre; [|apply related_ask_regular].
      intros c1 c2 H. unfold same_basics. open_post. fields. repeat split; auto.
    + related_step.
      eapply related_post; [apply related_assign|].
      intros ? ? c1 c2 H. unfold same_basics, same_contents in *. open_post.
      fields. repeat split; auto; discriminate.
  - intros _ _. do 17 related_step.
    eapply related_post; [apply related_get_config|].
    intros ? ? c1 c2 H. unfold same_answers, same_basics, same_contents in *.
    open_post. fields. repeat split; auto;
      match goal with K : create_desktop _ = true -> _ |- _ => now apply K end.
Qed.

End Forget_facts.

(** X16: what [get_user_input] does is decided by the answers and not by
    the record the builder had, for instance one loaded from a file that
    lacks a description.  Two runs on the same input end the same way, in
    the same world, and the records they return agree on every field that
    the prompts set: the name, the version, both descriptions, the type,
    the tools, the dependencies, the menu section, the maintainer, the
    e-mail address, whether there is a desktop entry and, if there is one,
    its four fields. *)
Theorem get_user_input_forgets {S : Type}
    (b1 b2 : builder) (w : world S) :
  let r1 := get_user_input b1 w in
  let r2 := get_user_input b2 w in
  snd r1 = snd r2
  /\ match fst (fst r1), fst (fst r2) with
     | Ok c1, Ok c2 => same_answers c1 c2
     | Raise e1, Raise e2 => e1 = e2
     | _, _ => False
     end.
Proof.
  cbv zeta. pose proof (@related_get_user_input S b1 b2 w I) as R.
  destruct (get_user_input b1 w) as [[[c1 | e1 |] b1'] w1],
           (get_user_input b2 w) as [[[c2 | e2 |] b2'] w2];
    cbn [fst snd]; try contradiction.
  - destruct R as ((-> & -> & R) & ->). auto.
  - destruct R as (-> & ->). auto.
Qed.

(** * The sample configuration *)

(** X17: the sample that [create_sample_config] writes is a configuration
    the program takes as it is.  The call dumps the mapping [sample_config]
    into [sample-config.yaml] and makes no other call.  If the file is then
    found and opened and the YAML loader gives back the dumped mapping, in
    whatever order of keys, a run with [--config sample-config.yaml] loads
    it, finds a name and a description, and goes on without asking
    anything: no line is read and no call is made before the build.  The
    record is the one with the fields of the sample, and its name, version
    and e-mail address pass the three validators. *)
Theorem sample_config_is_used {S : Type} {os : OS S}
    (b : builder) (w : world S) (b1 : builder) (w1 : world S)
    (loaded : list (pyval * pyval)) (cwd : path) :
  create_sample_config b w = (Ok tt, b1, w1) ->
  os_exists (Path "sample-config.yaml") (os_state w1) = inr true ->
  os_open_read (Path "sample-config.yaml") (os_state w1) = None ->
  os_yaml_safe_load (Path "sample-config.yaml") (os_state w1)
  = inr (VDict loaded) ->
  Permutation sample_config loaded ->
  trace w1 = (trace w ++ [(YamlDump ["sample-config.yaml"] (VDict sample_config),
                           None)])%list
  /\ (exists b2 w2,
        configure cwd (Some "sample-config.yaml") w1 = (Ok sample_record, b2, w2)
        /\ self_config b2 = sample_record
        /\ stdin w2 = stdin w1 /\ trace w2 = trace w1)
  /\ validate_package_name (name sample_record) = Ok (VBool true)
  /\ validate_version (version sample_record) = Ok (VBool true)
  /\ validate_email (email sample_record) = Ok (VBool true).
Proof.
  intros Cr Ex Op Ld Perm. split; [|split; [|repeat split]].
  - unfold create_sample_config in Cr. step Cr. last_step Cr.
    cbn [trace add_stdout]. assumption.
  - destruct (@load_items_typed S sample_record loaded) with
      (b := new_builder cwd (Some "sample-config.yaml")) (w := w1)
      as (x' & L & F).
    { intros kv I. left. apply (Permutation_in _ (Permutation_sym Perm)) in I.
      unfold sample_config in I. cbn [In] in I.
      repeat (destruct I as [<- | I];
              [ match goal with
                | |- field_of _ (VStr ?k0, _) => exists k0
                end;
                split; [|reflexivity]; unfold field_names; cbn [In];
                repeat (first [left; reflexivity | right])
              | ]).
      contradiction. }
    assert (X : x' = sample_record).
    { apply config_ext. intros k I. rewrite (F k I), <- (has_key_perm k Perm).
      unfold field_names in I. cbn [In] in I.
      repeat (destruct I as [<- | I]; [reflexivity|]). contradiction. }
    subst x'.
    eexists _, _. split; [|split; [|split]].
    + unfold configure, init. cbn [is_empty].
      unfold load_config_from_file. unfold bind at 1. unfold exists_ at 1.
      rewrite Ex. cbn [negb]. unfold try_except.
      unfold bind at 1. unfold read_config. rewrite Op.
      change (lower (path_suffix (Path "sample-config.yaml"))) with ".yaml".
      cbn [String.eqb Ascii.eqb Bool.eqb orb]. rewrite Ld.
      unfold bind at 1. cbn [items_of]. unfold ret at 1.
      unfold bind at 1. rewrite L. unfold log.
      unfold acquire. unfold bind at 1. unfold get_config at 1.
      cbn [self_config with_config]. reflexivity.
    + reflexivity.
    + reflexivity.
    + reflexivity.
Qed.

(** A run of [sample_config_is_used] on the file system in memory. *)
Lemma sample_config_is_used_witness :
  let b := builder_of default_config in
  let w := MemFS.world_of MemFS.empty ["unread"] in
  let r := create_sample_config b w in
  r = (Ok tt, snd (fst r), snd r)
  /\ os_yaml_safe_load (Path "sample-config.yaml") (os_state (snd r))
     = inr (VDict sample_config)
  /\ exists b2 w2,
       configure ["/"; "work"] (Some "sample-config.yaml") (snd r)
       = (Ok sample_record, b2, w2)
       /\ self_config b2 = sample_record
       /\ stdin w2 = stdin (snd r) /\ trace w2 = trace (snd r).
Proof.
  cbv zeta.
  set (b := builder_of default_config).
  set (w := MemFS.world_of MemFS.empty ["unread"]).
  assert (H : create_sample_config b w
              = (Ok tt, snd (fst (create_sample_config b w)),
                 snd (create_sample_config b w)))
    by (vm_compute; reflexivity).
  assert (E : os_exists (Path "sample-config.yaml")
                (os_state (snd (create_sample_config b w))) = inr true)
    by (vm_compute; reflexivity).
  assert (O : os_open_read (Path "sample-config.yaml")
                (os_state (snd (create_sample_config b w))) = None)
    by (vm_compute; reflexivity).
  assert (L : os_yaml_safe_load (Path "sample-config.yaml")
                (os_state (snd (create_sample_config b w)))
              = inr (VDict sample_config))
    by (vm_compute; reflexivity).
  split; [exact H|]. split; [exact L|].
  exact (proj1 (proj2 (sample_config_is_used b w ["/"; "work"] H E O L
                         (Permutation_refl _)))).
Defined.

(** * From the prompts to the build *)

Section Interactive_run.

Context {S : Type} {os : OS S}.

(** The parts of a run of [main] without a configuration file that ends
    well: the prompts, then the build. *)
Lemma main_interactive_inv cwd (w : world S) b' w' :
  main cwd None w = (Ok tt, b', w') ->
  exists c b1 w1,
    get_user_input (new_builder cwd None) w = (Ok c, b1, w1)
    /\ build_package b1 w1 = (Ok tt, b', w').
Proof.
  unfold main, configure, init, acquire.
  unfold bind at 1, get_config at 1. cbn [uses_file].
  destruct (get_user_input (new_builder cwd None) w) as [[[c | e |] b1] w1];
    try discriminate.
  intros H. now exists c, b1, w1.
Qed.

End Interactive_run.

(** X18: a run of [main] without a configuration file that ends well.
    The record of the builder is the one the prompts gave: its name, version
    and e-mail address pass the three validators.  And in the build no
    file is written, and no link made, in a directory that was not made
    before by the same run: the prompts make no call, and the name, being
    valid, is a single path component. *)
Theorem main_interactive_sound {S : Type} {os : OS S}
    (cwd : path) (w : world S) (b' : builder) (w' : world S) :
  main cwd None w = (Ok tt, b', w') ->
  let c := self_config b' in
  (validate_package_name (name c) = Ok (VBool true)
   /\ validate_version (version c) = Ok (VBool true)
   /\ validate_email (email c) = Ok (VBool true))
  /\ parents_made [] (made w w').
Proof.
  intros H. cbv zeta.
  apply main_interactive_inv in H as (c & b1 & w1 & G & B).
  pose proof (get_user_input_record _ _ G) as (V & _).
  pose proof (get_user_input_ok _ _ G) as (-> & _).
  destruct (talks_get_user_input _ _ G) as ((_ & T & _) & _).
  assert (C : self_config b' = self_config b1).
  { apply build_package_ok in B as [(-> & _) | (C & _)]; congruence. }
  rewrite C. split; [exact V|].
  unfold made. rewrite <- T. fold (made w1 w').
  exact (parents_of_complete_build _ _ B (proj1 V)).
Qed.

(** A run of [main_interactive_sound] with the answers of a regular
    package. *)
Lemma main_interactive_sound_witness :
  let w := MemFS.world_of MemFS.empty regular_answers in
  let r := main ["/"; "work"] None w in
  fst (fst r) = Ok tt
  /\ length (made w (snd r)) = 17
  /\ (validate_package_name (name (self_config (snd (fst r)))) = Ok (VBool true)
      /\ validate_version (version (self_config (snd (fst r)))) = Ok (VBool true)
      /\ validate_email (email (self_config (snd (fst r)))) = Ok (VBool true))
  /\ parents_made [] (made w (snd r)).
Proof.
  cbv zeta.
  assert (H : main ["/"; "work"] None (MemFS.world_of MemFS.empty regular_answers)
              = (Ok tt,
                 snd (fst (main ["/"; "work"] None
                             (MemFS.world_of MemFS.empty regular_answers))),
                 snd (main ["/"; "work"] None
                        (MemFS.world_of MemFS.empty regular_answers))))
    by (vm_compute; reflexivity).
  split; [vm_compute; reflexivity|].
  split; [vm_compute; reflexivity|].
  exact (main_interactive_sound _ _ H).
Defined.

(** * The lists in the texts *)

Lemma prefix_refl (s : string) : prefix s s = true.
Proof.
  induction s as [|x s IH]; [reflexivity|]. simpl.
  destruct (Ascii.ascii_dec x x); [exact IH | congruence].
Qed.

Lemma contains_refl (s : string) : contains s s = true.
Proof. destruct s; cbn [contains]; now rewrite prefix_refl. Qed.

Lemma contains_middle (a s b : string) : contains s (a ++ s ++ b) = true.
Proof. apply contains_append_r, contains_append_l, contains_refl. Qed.

Lemma prefix_split (b s : string) : prefix b s = true -> exists r, s = b ++ r.
Proof.
  revert s. induction b as [|y b IH]; intros s P.
  - now exists s.
  - destruct s as [|z s]; [discriminate P|]. simpl in P.
    destruct (Ascii.ascii_dec y z) as [<- | ]; [|discriminate P].
    destruct (IH _ P) as (r & ->). now exists r.
Qed.

Lemma contains_split (b c : string) :
  contains b c = true -> exists l r, c = l ++ b ++ r.
Proof.
  induction c as [|x c IH]; cbn [contains]; intros H;
    apply orb_true_iff in H as [P | H]; try discriminate H.
  - destruct (prefix_split _ _ P) as (r & E). now exists "", r.
  - destruct (prefix_split _ _ P) as (r & E). now exists "", r.
  - destruct (IH H) as (l & r & ->). now exists (String x l), r.
Qed.

Lemma contains_trans (a b c : string) :
  contains a b = true -> contains b c = true -> contains a c = true.
Proof.
  intros Hab Hbc. destruct (contains_split _ _ Hbc) as (l & r & ->).
  now apply contains_append_r, contains_append_l.
Qed.

(** The loops that add one line for each entry: what was there stays in
    front. *)
Lemma fold_lines (f : string -> string) (es : list string) (init : string) :
  fold_left (fun acc e => acc ++ f e) es init
  = init ++ fold_left (fun acc e => acc ++ f e) es "".
Proof.
  revert init. induction es as [|e es IH]; intros init; cbn [fold_left].
  - now rewrite append_nil_r.
  - rewrite IH, (IH ("" ++ f e)). cbn [append]. now rewrite append_assoc.
Qed.

Lemma fold_lines_contains (f : string -> string) (es : list string)
    (init e : string) :
  In e es -> contains (f e) (fold_left (fun acc x => acc ++ f x) es init) = true.
Proof.
  revert init. induction es as [|x es IH]; intros init; [intros []|].
  intros [-> | I]; cbn [fold_left].
  - rewrite fold_lines. apply contains_append_l, contains_append_r, contains_refl.
  - now apply IH.
Qed.

Lemma join_contains (sep : string) (l : list string) (x : string) :
  In x l -> contains x (join sep l) = true.
Proof.
  induction l as [|y l IH]; [intros []|].
  intros [-> | I].
  - destruct l as [|z l]; cbn [join]; [apply contains_refl|].
    apply contains_append_l, contains_refl.
  - destruct l as [|z l]; [destruct I|].
    cbn [join]. fold (join sep (z :: l)).
    do 2 apply contains_append_r. now apply IH.
Qed.

(** X19: whatever the lists are, each tool of the record has its bullet
    line in the text of [README.md] and its [echo] line in the text of the
    launcher, and each dependency has its bullet line in the text of
    [README.md] and occurs in the text of [debian/control]. *)
Theorem entries_are_listed (c : PackageConfig) :
  (forall t, In t (tools c) ->
     contains ("- " ++ t ++ nl) (readme_text c) = true
     /\ contains ("echo '  - " ++ t ++ "'" ++ nl) (launcher_text c) = true)
  /\ (forall d, In d (dependencies c) ->
        contains ("- " ++ d ++ nl) (readme_text c) = true
        /\ contains d (control_text c) = true).
Proof.
  split.
  - intros t I. split.
    + unfold readme_text. apply contains_append_r, contains_append_l.
      unfold bullet_section. destruct (tools c) as [|x l] eqn:E; [destruct I|].
      apply contains_append_l.
      exact (fold_lines_contains (fun e => "- " ++ e ++ nl) (x :: l) _ t I).
    + unfold launcher_text. apply contains_append_r, contains_append_l.
      exact (fold_lines_contains (fun e => "echo '  - " ++ e ++ "'" ++ nl) _ _ t I).
  - intros d I. split.
    + unfold readme_text. do 2 apply contains_append_r. apply contains_append_l.
      unfold bullet_section. destruct (dependencies c) as [|x l] eqn:E; [destruct I|].
      apply contains_append_l.
      exact (fold_lines_contains (fun e => "- " ++ e ++ nl) (x :: l) _ d I).
    + apply contains_trans with (depends_line c);
        [|apply control_has_depends_line].
      unfold depends_line, depends_value.
      destruct (dependencies c) as [|x l] eqn:E; [destruct I|].
      apply contains_append_r. now apply join_contains.
Qed.
